(** * Task list API: the task/folder controllers over a document store

    A shallow embedding of the request handlers in
    [src/controllers/taskController.js] and
    [src/controllers/folderController.js], of the two schemas in
    [src/models/task.js] and [src/models/folder.js], and of the part of the
    Mongoose query layer those handlers call.

    Conventions.
    - A request handler is a state-passing function over the database
      [Db]; the body of its [try] block is written in the small monad
      [Handler], in which [respond] is an early [return res.status(..)] and
      [throw] is a rejected query promise, turned into a response by the
      handler's [catch] clause.
    - Values that arrive in a request (path parameters, body fields) are
      strings, or absent; an identifier becomes an [ObjectId] only through
      [castObjectId], as Mongoose does when it casts a query filter.
    - A collection is a finite map keyed by [_id]; the order in which a
      [find] lists its documents is not modelled.

    What the model takes from outside the repository.
    - The user of a request is the one the authentication middleware put
      in [req.user.id], an ObjectId.
    - The ObjectId of a new document is an argument, [gen], of the handlers
      that create one; inserting under an identifier that is taken is a
      duplicate key error.
    - Mongoose casts the identifiers of a filter and rejects the call with
      a [CastError] when one is malformed; [Model.create] runs the
      validators of the schema, and so does [findOneAndUpdate] under
      [runValidators: true], on the paths of the update.
    - A date of a request is represented by what [new Date(..)] makes of
      it, and a field of a request body is a string or is absent. *)

From Stdlib Require Import ZArith NArith Ascii String.
From stdpp Require Import gmap strings list fin_maps.

Local Open Scope string_scope.

(** ** Identifiers *)

(** A 12-byte ObjectId, as a number. *)
Abbreviation ObjectId := N (only parsing).

Definition hexDigit (c : ascii) : option N :=
  let n := N_of_ascii c in
  if (48 <=? n)%N && (n <=? 57)%N then Some (n - 48)%N
  else if (97 <=? n)%N && (n <=? 102)%N then Some (n - 87)%N
  else if (65 <=? n)%N && (n <=? 70)%N then Some (n - 55)%N
  else None.

Fixpoint parseHex (s : string) (acc : N) : option N :=
  match s with
  | EmptyString => Some acc
  | String c s' =>
      match hexDigit c with
      | Some d => parseHex s' (16 * acc + d)%N
      | None => None
      end
  end.

(** Mongoose's cast of a request string to an ObjectId: the 24 hexadecimal
    digit form. Anything else is a [CastError] when it reaches a query. *)
Definition castObjectId (s : string) : option ObjectId :=
  if (String.length s =? 24)%nat then parseHex s 0%N else None.

(** [mongoose.isValidObjectId] and [mongoose.Types.ObjectId.isValid]. *)
Definition isValidObjectId (s : string) : bool :=
  match castObjectId s with Some _ => true | None => false end.

(** ** JavaScript helpers *)

(** Truthiness of a string-or-undefined value: [undefined] and the empty
    string are falsy. *)
Definition truthy (v : option string) : bool :=
  match v with
  | Some s => negb (s =? "")
  | None => false
  end.

(** [Array.prototype.includes] on an array of strings. *)
Definition includes (l : list string) (s : string) : bool :=
  existsb (String.eqb s) l.

Definition isSpace (c : ascii) : bool :=
  let n := N_of_ascii c in
  (n =? 32)%N || ((9 <=? n)%N && (n <=? 13)%N).

Fixpoint trimStart (s : string) : string :=
  match s with
  | String c s' => if isSpace c then trimStart s' else s
  | EmptyString => EmptyString
  end.

(** Drops trailing white space: a character is kept when it is not white
    space or when something is kept after it. *)
Fixpoint trimEnd (s : string) : string :=
  match s with
  | String c s' =>
      match trimEnd s' with
      | EmptyString => if isSpace c then EmptyString else String c EmptyString
      | r => String c r
      end
  | EmptyString => EmptyString
  end.

(** [String.prototype.trim], for the white space of ASCII. *)
Definition trim (s : string) : string := trimEnd (trimStart s).

(** ** The schemas *)

(** [src/models/task.js] *)
Module task.
Record doc := mk {
    title : string;
    dueDate : option Z;
    status : string;
    folder : option ObjectId;
    user : ObjectId
  }.

(** The [enum] of the [status] path. *)
Definition statusEnum : list string := ["Pending"; "Completed"].

(** The [default] of the [status] path. *)
Definition statusDefault : string := "Pending".

Definition setTitle (v : string) (d : doc) : doc :=
    mk v (dueDate d) (status d) (folder d) (user d).
Definition setDueDate (v : option Z) (d : doc) : doc :=
    mk (title d) v (status d) (folder d) (user d).
Definition setStatus (v : string) (d : doc) : doc :=
    mk (title d) (dueDate d) v (folder d) (user d).
Definition setFolder (v : option ObjectId) (d : doc) : doc :=
    mk (title d) (dueDate d) (status d) v (user d).
Definition setUser (v : ObjectId) (d : doc) : doc :=
    mk (title d) (dueDate d) (status d) (folder d) v.
End task.

(** [src/models/folder.js] *)
Module folder.
Record doc := mk {
    name : string;
    user : ObjectId;
    tasks : list ObjectId
  }.

Definition setName (v : string) (d : doc) : doc := mk v (user d) (tasks d).
Definition setTasks (v : list ObjectId) (d : doc) : doc := mk (name d) (user d) v.
End folder.

(** ** The database *)

Inductive Coll := Tasks | Folders.

(** A call that reached the storage layer. *)
Inductive DbCall :=
  | Read (c : Coll) (op : string)
  | Write (c : Coll) (op : string).

Definition isWrite (c : DbCall) : bool :=
  match c with Write _ _ => true | Read _ _ => false end.

(** The two collections, and the calls issued so far (latest first). *)
Record Db := mkDb {
  taskColl : gmap N task.doc;
  folderColl : gmap N folder.doc;
  calls : list DbCall
}.

Definition emptyDb : Db := mkDb ∅ ∅ [].

(** ** Responses *)

Inductive Json :=
  | JError (error : string)
  | JMessage (message : string)
  | JMessageTask (message : string) (data : ObjectId * task.doc)
  | JMessageFolder (message : string) (data : ObjectId * folder.doc)
  | JTask (d : ObjectId * task.doc)
  | JFolder (d : ObjectId * folder.doc)
  | JTasks (l : list (ObjectId * task.doc))
  | JTasksFolders (ts : list (ObjectId * task.doc)) (fs : list (ObjectId * folder.doc))
  | JFolderPopulated (id : ObjectId) (name : string) (user : ObjectId)
                     (ts : list (ObjectId * task.doc)).

(** [res.status(code).json(body)] *)
Record Response := mkResponse { code : nat; body : Json }.

(** The error kinds of the specification, by status code. *)
Definition ValidationError (r : Response) : Prop := code r = 400.
Definition NotFoundError (r : Response) : Prop := code r = 404.
Definition InternalError (r : Response) : Prop := code r = 500.

(** ** The handler monad *)

(** What a rejected Mongoose call carries. *)
Inductive MongooseError :=
  | CastError (path : string) (value : string)
  | SchemaValidationError (path : string)
  | DuplicateKeyError.

(** [err.message], up to the wording. *)
Definition message (e : MongooseError) : string :=
  match e with
  | CastError p v => "Cast to ObjectId failed for value " ++ v ++ " at path " ++ p
  | SchemaValidationError p => "Validation failed: " ++ p
  | DuplicateKeyError => "E11000 duplicate key error"
  end.

Inductive Flow (A : Type) :=
  | Next (a : A)
  | Respond (r : Response)
  | Throw (e : MongooseError).
Arguments Next {A} a.
Arguments Respond {A} r.
Arguments Throw {A} e.

Definition Handler (A : Type) : Type := Db -> Flow A * Db.

Definition ret {A} (a : A) : Handler A := fun db => (Next a, db).

Definition bind {A B} (m : Handler A) (k : A -> Handler B) : Handler B :=
  fun db =>
    match m db with
    | (Next a, db') => k a db'
    | (Respond r, db') => (Respond r, db')
    | (Throw e, db') => (Throw e, db')
    end.

Notation "x <- m ;; k" := (bind m (fun x => k))
  (at level 100, m at next level, right associativity).
Notation "m ;;; k" := (bind m (fun _ => k))
  (at level 100, right associativity).

(** [return res.status(code).json(body)] *)
Definition respond {A} (c : nat) (b : Json) : Handler A :=
  fun db => (Respond (mkResponse c b), db).

Definition throw {A} (e : MongooseError) : Handler A :=
  fun db => (Throw e, db).

(** [if (b) return ...;] *)
Definition when (b : bool) (m : Handler unit) : Handler unit :=
  if b then m else ret tt.

(** Records a call to the storage layer. *)
Definition call (c : DbCall) : Handler unit :=
  fun db => (Next tt, mkDb (taskColl db) (folderColl db) (c :: calls db)).

(** [try { body } catch (error) { onError(error) }] *)
Definition tryCatch (body : Handler Response) (onError : MongooseError -> Response)
    (db : Db) : Response * Db :=
  match body db with
  | (Next r, db') => (r, db')
  | (Respond r, db') => (r, db')
  | (Throw e, db') => (onError e, db')
  end.

Definition getDb : Handler Db := fun db => (Next db, db).

Definition setTaskColl (m : gmap N task.doc) : Handler unit :=
  fun db => (Next tt, mkDb m (folderColl db) (calls db)).

Definition setFolderColl (m : gmap N folder.doc) : Handler unit :=
  fun db => (Next tt, mkDb (taskColl db) m (calls db)).

(** ** The Mongoose layer *)

(** Cast of an identifier in a filter or a document; a string that is no
    ObjectId rejects the call with a [CastError]. *)
Definition castId (path : string) (raw : string) : Handler ObjectId :=
  match castObjectId raw with
  | Some i => ret i
  | None => throw (CastError path raw)
  end.

Definition castOptId (path : string) (raw : option string) : Handler (option ObjectId) :=
  match raw with
  | Some r => i <- castId path r ;; ret (Some i)
  | None => ret None
  end.

(** An identifier handed to Mongoose: a request string, or the [_id] of a
    document read before. *)
Inductive IdValue :=
  | OfString (s : string)
  | OfId (i : ObjectId).

Definition castIdValue (path : string) (v : option IdValue) : Handler (option ObjectId) :=
  match v with
  | Some (OfString s) => i <- castId path s ;; ret (Some i)
  | Some (OfId i) => ret (Some i)
  | None => ret None
  end.

(** A date received in a request, by what [new Date(..)] makes of it. *)
Inductive DateInput :=
  | InvalidDate
  | ValidDate (ms : Z).

Definition castDate (v : option DateInput) : Handler (option Z) :=
  match v with
  | Some (ValidDate ms) => ret (Some ms)
  | Some InvalidDate => throw (CastError "dueDate" "Invalid Date")
  | None => ret None
  end.

(** The fields an update document may set on a task, as received. *)
Record TaskUpdate := mkTaskUpdate {
  u_title : option string;
  u_dueDate : option DateInput;
  u_status : option string;
  u_folder : option string;
  u_user : option string
}.

Definition optSet {A D} (f : A -> D -> D) (v : option A) (d : D) : D :=
  match v with
  | Some a => f a d
  | None => d
  end.

Module Task.

Definition matchUser (u : ObjectId) (d : task.doc) : bool :=
  (task.user d =? u)%N.

Definition matchFolder (f : ObjectId) (d : task.doc) : bool :=
  match task.folder d with
  | Some g => (g =? f)%N
  | None => false
  end.

Definition matchOptFolder (f : option ObjectId) (d : task.doc) : bool :=
  match f with
  | Some i => matchFolder i d
  | None => true
  end.

(** The validators of the schema: [title] is required, [status] is in the
    enum. They run on the paths that are given. *)
Definition validate (title : option (option string)) (status : option string) : Handler unit :=
  (match title with
   | Some t => when (negb (truthy t)) (throw (SchemaValidationError "title"))
   | None => ret tt
   end) ;;;
  match status with
  | Some s => when (negb (includes task.statusEnum s)) (throw (SchemaValidationError "status"))
  | None => ret tt
  end.

(** [Task.create({ title, dueDate, status, folder, user })]; [gen] is the
    ObjectId generated for the new document. *)
Definition create (gen : ObjectId) (title : option string) (dueDate : option DateInput)
    (status : option string) (folder : option IdValue) (user : ObjectId)
    : Handler (ObjectId * task.doc) :=
  call (Write Tasks "create") ;;;
  due <- castDate dueDate ;;
  f <- castIdValue "folder" folder ;;
  let st := default task.statusDefault status in
  validate (Some title) (Some st) ;;;
  db <- getDb ;;
  match taskColl db !! gen with
  | Some _ => throw DuplicateKeyError
  | None =>
      let d := task.mk (default "" title) due st f user in
      setTaskColl (<[gen := d]> (taskColl db)) ;;;
      ret (gen, d)
  end.

(** [Task.findOne({ _id, user })] *)
Definition findOne (_id : string) (user : ObjectId) : Handler (option (ObjectId * task.doc)) :=
  call (Read Tasks "findOne") ;;;
  i <- castId "_id" _id ;;
  db <- getDb ;;
  match taskColl db !! i with
  | Some d => ret (if matchUser user d then Some (i, d) else None)
  | None => ret None
  end.

(** [Task.find({ user })], [Task.find({ user, folder })] and
    [Task.find({ user, folder: null })]. *)
Definition find (folder : option (option string)) (user : ObjectId)
    : Handler (list (ObjectId * task.doc)) :=
  call (Read Tasks "find") ;;;
  match folder with
  | None =>
      db <- getDb ;;
      ret (map_to_list (filter (fun kv => matchUser user kv.2 = true) (taskColl db)))
  | Some None =>
      db <- getDb ;;
      ret (map_to_list (filter (fun kv => matchUser user kv.2 = true /\ task.folder kv.2 = None)
                               (taskColl db)))
  | Some (Some raw) =>
      f <- castId "folder" raw ;;
      db <- getDb ;;
      ret (map_to_list (filter (fun kv => matchUser user kv.2 && matchFolder f kv.2 = true)
                               (taskColl db)))
  end.

(** [Task.findOneAndUpdate({ _id, [folder,] user }, update,
    { new: true[, runValidators: true] })] *)
Definition findOneAndUpdate (_id : string) (folder : option string) (user : ObjectId)
    (update : TaskUpdate) (runValidators : bool) : Handler (option (ObjectId * task.doc)) :=
  call (Write Tasks "findOneAndUpdate") ;;;
  i <- castId "_id" _id ;;
  fc <- castOptId "folder" folder ;;
  due <- castDate (u_dueDate update) ;;
  f <- castOptId "folder" (u_folder update) ;;
  u <- castOptId "user" (u_user update) ;;
  when runValidators
    (validate (option_map Some (u_title update)) (u_status update)) ;;;
  db <- getDb ;;
  match taskColl db !! i with
  | Some d =>
      if matchUser user d && matchOptFolder fc d then
        let d' :=
          optSet task.setUser u
            (optSet (fun g => task.setFolder (Some g)) f
               (optSet task.setStatus (u_status update)
                  (optSet (fun ms => task.setDueDate (Some ms)) due
                     (optSet task.setTitle (u_title update) d)))) in
        setTaskColl (<[i := d']> (taskColl db)) ;;;
        ret (Some (i, d'))
      else ret None
  | None => ret None
  end.

(** [Task.findOneAndDelete({ _id, [folder,] user })] *)
Definition findOneAndDelete (_id : string) (folder : option string) (user : ObjectId)
    : Handler (option (ObjectId * task.doc)) :=
  call (Write Tasks "findOneAndDelete") ;;;
  i <- castId "_id" _id ;;
  fc <- castOptId "folder" folder ;;
  db <- getDb ;;
  match taskColl db !! i with
  | Some d =>
      if matchUser user d && matchOptFolder fc d then
        setTaskColl (delete i (taskColl db)) ;;;
        ret (Some (i, d))
      else ret None
  | None => ret None
  end.

(** [Task.deleteMany({ folder, user })] *)
Definition deleteMany (folder : string) (user : ObjectId) : Handler unit :=
  call (Write Tasks "deleteMany") ;;;
  f <- castId "folder" folder ;;
  db <- getDb ;;
  setTaskColl (filter (fun kv => matchFolder f kv.2 && matchUser user kv.2 = false)
                      (taskColl db)).

(** [Task.updateMany({ folder, user }, { status })] *)
Definition updateMany (folder : string) (user : ObjectId) (status : string) : Handler unit :=
  call (Write Tasks "updateMany") ;;;
  f <- castId "folder" folder ;;
  db <- getDb ;;
  setTaskColl ((fun d => if matchFolder f d && matchUser user d
                         then task.setStatus status d else d) <$> taskColl db).

(** The documents a list of references resolves to, for [populate]. *)
Definition resolve (m : gmap N task.doc) (ids : list ObjectId) : list (ObjectId * task.doc) :=
  omap (fun i => match m !! i with Some d => Some (i, d) | None => None end) ids.

End Task.

Module Folder.

Definition matchUser (u : ObjectId) (d : folder.doc) : bool :=
  (folder.user d =? u)%N.

(** [Folder.create({ name, user[, tasks: []] })]; [gen] is the ObjectId
    generated for the new document. *)
Definition create (gen : ObjectId) (name : option string) (user : ObjectId)
    : Handler (ObjectId * folder.doc) :=
  call (Write Folders "create") ;;;
  when (negb (truthy name)) (throw (SchemaValidationError "name")) ;;;
  db <- getDb ;;
  match folderColl db !! gen with
  | Some _ => throw DuplicateKeyError
  | None =>
      let d := folder.mk (default "" name) user [] in
      setFolderColl (<[gen := d]> (folderColl db)) ;;;
      ret (gen, d)
  end.

(** [Folder.findOne({ _id, user })] *)
Definition findOne (_id : string) (user : ObjectId) : Handler (option (ObjectId * folder.doc)) :=
  call (Read Folders "findOne") ;;;
  i <- castId "_id" _id ;;
  db <- getDb ;;
  match folderColl db !! i with
  | Some d => ret (if matchUser user d then Some (i, d) else None)
  | None => ret None
  end.

(** [Folder.find({ user })] *)
Definition find (user : ObjectId) : Handler (list (ObjectId * folder.doc)) :=
  call (Read Folders "find") ;;;
  db <- getDb ;;
  ret (map_to_list (filter (fun kv => matchUser user kv.2 = true) (folderColl db))).

(** [Folder.findOneAndUpdate({ _id, user }, { name }, { new: true,
    runValidators: true })]; without a [name] the update is empty. *)
Definition findOneAndUpdate (_id : string) (user : ObjectId) (name : option string)
    : Handler (option (ObjectId * folder.doc)) :=
  call (Write Folders "findOneAndUpdate") ;;;
  i <- castId "_id" _id ;;
  when (match name with Some n => negb (truthy (Some n)) | None => false end)
    (throw (SchemaValidationError "name")) ;;;
  db <- getDb ;;
  match folderColl db !! i with
  | Some d =>
      if matchUser user d then
        let d' := optSet folder.setName name d in
        setFolderColl (<[i := d']> (folderColl db)) ;;;
        ret (Some (i, d'))
      else ret None
  | None => ret None
  end.

(** [Folder.findByIdAndUpdate(id, update)] and [Folder.updateOne({ _id },
    update)]: the update is applied to the folder with that [_id], whoever
    its [user] is. *)
Definition updateById (op : string) (id : IdValue) (f : folder.doc -> folder.doc)
    : Handler unit :=
  call (Write Folders op) ;;;
  oi <- castIdValue "_id" (Some id) ;;
  db <- getDb ;;
  match oi with
  | Some i => setFolderColl (alter f i (folderColl db))
  | None => ret tt
  end.

(** The update [{ $push: { tasks: t } }]. *)
Definition push (t : ObjectId) (d : folder.doc) : folder.doc :=
  folder.setTasks (folder.tasks d ++ [t]) d.

(** The update [{ $pull: { tasks: t } }]. *)
Definition pull (t : ObjectId) (d : folder.doc) : folder.doc :=
  folder.setTasks (List.filter (fun x => negb (x =? t)%N) (folder.tasks d)) d.

(** The update [{ tasks: [] }]. *)
Definition clearTasks (d : folder.doc) : folder.doc :=
  folder.setTasks [] d.

(** [Folder.findOneAndDelete({ _id, user })] *)
Definition findOneAndDelete (_id : string) (user : ObjectId)
    : Handler (option (ObjectId * folder.doc)) :=
  call (Write Folders "findOneAndDelete") ;;;
  i <- castId "_id" _id ;;
  db <- getDb ;;
  match folderColl db !! i with
  | Some d =>
      if matchUser user d then
        setFolderColl (delete i (folderColl db)) ;;;
        ret (Some (i, d))
      else ret None
  | None => ret None
  end.

(** [Folder.findOne({ _id, user }).populate('tasks')] *)
Definition findOnePopulated (_id : string) (user : ObjectId) : Handler (option Json) :=
  found <- findOne _id user ;;
  match found with
  | Some (i, d) =>
      call (Read Tasks "find") ;;;
      db <- getDb ;;
      ret (Some (JFolderPopulated i (folder.name d) (folder.user d)
                   (Task.resolve (taskColl db) (folder.tasks d))))
  | None => ret None
  end.

End Folder.

(** ** [src/controllers/taskController.js] *)

(** [v === s] for a string-or-undefined [v]. *)
Definition strictEq (v : option string) (s : string) : bool :=
  match v with
  | Some x => x =? s
  | None => false
  end.

(** [req.body] of [createTaskOrFolder]. An absent [dueDate] stands for a
    falsy one as well. *)
Module createBody.
Record t := mk {
  title : option string;
  dueDate : option DateInput;
  status : option string;
  type : option string;
  folder : option string
}.
End createBody.

Module taskController.

(** The statuses the controller lets through. *)
Definition allowedStatus : list string := ["Pending"; "Working"; "Completed"].

Definition serverError (msg : string) (_ : MongooseError) : Response :=
  mkResponse 500 (JError msg).

Definition createTaskOrFolder (gen : ObjectId) (userId : ObjectId) (b : createBody.t)
    : Db -> Response * Db :=
  let title := createBody.title b in
  let dueDate := createBody.dueDate b in
  let status := createBody.status b in
  let type := createBody.type b in
  let folder := createBody.folder b in
  tryCatch
    (when (negb (truthy title) || negb (truthy type))
       (respond 400 (JError "Title and type are required.")) ;;;
     if strictEq type "folder" then
       newFolder <- Folder.create gen title userId ;;
       respond 201 (JMessageFolder "Folder created successfully" newFolder)
     else
       when (truthy status && negb (includes allowedStatus (default "" status)))
         (respond 400 (JError "Invalid status value.")) ;;;
       parsedDueDate <-
         match dueDate with
         | Some InvalidDate => respond 400 (JError "Invalid date format.")
         | Some (ValidDate ms) => ret (Some (ValidDate ms))
         | None => ret None
         end ;;
       existingFolder <-
         (if truthy folder then
            when (negb (isValidObjectId (default "" folder)))
              (respond 400 (JError "Invalid folder ID format.")) ;;;
            found <- Folder.findOne (default "" folder) userId ;;
            when (negb (bool_decide (is_Some found)))
              (respond 400 (JError "Folder does not exist or does not belong to the user.")) ;;;
            ret found
          else ret None) ;;
       newTask <- Task.create gen title parsedDueDate
                    (Some (if truthy status then default "" status else "Pending"))
                    (if truthy folder then option_map OfString folder else None)
                    userId ;;
       match existingFolder with
       | Some _ => Folder.updateById "findByIdAndUpdate" (OfString (default "" folder))
                     (Folder.push (fst newTask))
       | None => ret tt
       end ;;;
       respond 201 (JMessageTask "Task created successfully" newTask))
    (serverError "Server error while creating task or folder.").

Definition getAllTasksAndFolders (userId : ObjectId) : Db -> Response * Db :=
  tryCatch
    (tasks <- Task.find None userId ;;
     folders <- Folder.find userId ;;
     respond 200 (JTasksFolders tasks folders))
    (serverError "Server error while fetching tasks and folders.").

Definition getTasksByFolder (userId : ObjectId) (folderId : string) : Db -> Response * Db :=
  tryCatch
    (tasks <- Task.find (Some (Some folderId)) userId ;;
     respond 200 (JTasks tasks))
    (serverError "Server error while fetching tasks by folder.").

Definition getAllTasksWithoutFolder (userId : ObjectId) : Db -> Response * Db :=
  tryCatch
    (tasks <- Task.find (Some None) userId ;;
     respond 200 (JTasks tasks))
    (serverError "Server error while fetching tasks without folder.").

Definition getTaskById (userId : ObjectId) (taskId : string) : Db -> Response * Db :=
  tryCatch
    (item <- Task.findOne taskId userId ;;
     match item with
     | Some t => respond 200 (JTask t)
     | None =>
         item <- Folder.findOne taskId userId ;;
         match item with
         | Some f => respond 200 (JFolder f)
         | None => respond 404 (JError "Task or folder not found.")
         end
     end)
    (serverError "Server error while fetching task/folder.").

Definition updateTaskStatus (userId : ObjectId) (taskId : string)
    (title status : option string) : Db -> Response * Db :=
  tryCatch
    (when (match status with
           | Some s => negb (includes allowedStatus s)
           | None => false
           end)
       (respond 400 (JError "Invalid status.")) ;;;
     let updateData := mkTaskUpdate title None status None None in
     when (negb (bool_decide (is_Some title)) && negb (bool_decide (is_Some status)))
       (respond 400 (JError "Provide at least title or status to update.")) ;;;
     updatedItem <- Task.findOneAndUpdate taskId None userId updateData true ;;
     match updatedItem with
     | Some t => respond 200 (JMessageTask "Task or folder updated." t)
     | None =>
         let folderUpdate := if truthy title then title else None in
         updatedItem <- Folder.findOneAndUpdate taskId userId folderUpdate ;;
         match updatedItem with
         | Some f => respond 200 (JMessageFolder "Task or folder updated." f)
         | None => respond 404 (JError "Task or folder not found.")
         end
     end)
    (serverError "Server error while updating task or folder.").

Definition deleteTaskOrFolder (userId : ObjectId) (type id : option string)
    : Db -> Response * Db :=
  let shifted := negb (truthy id) && truthy type && isValidObjectId (default "" type) in
  let id' := if shifted then type else id in
  let type' := if shifted then None else type in
  tryCatch
    (when (negb (truthy id'))
       (respond 400 (JError "Missing id parameter.")) ;;;
     let id := default "" id' in
     if strictEq type' "task" then
       deletedTask <- Task.findOneAndDelete id None userId ;;
       match deletedTask with
       | None => respond 404 (JError "Task not found.")
       | Some _ => respond 200 (JMessage "Task deleted successfully.")
       end
     else if strictEq type' "folder" then
       Task.deleteMany id userId ;;;
       deletedFolder <- Folder.findOneAndDelete id userId ;;
       match deletedFolder with
       | None => respond 404 (JError "Folder not found.")
       | Some _ => respond 200 (JMessage "Folder and its tasks deleted successfully.")
       end
     else
       deletedTask <- Task.findOneAndDelete id None userId ;;
       match deletedTask with
       | Some _ => respond 200 (JMessage "Task deleted successfully.")
       | None =>
           deletedFolder <- Folder.findOneAndDelete id userId ;;
           match deletedFolder with
           | Some _ =>
               Task.deleteMany id userId ;;;
               respond 200 (JMessage "Folder and its tasks deleted successfully.")
           | None => respond 404 (JError "Task or folder not found.")
           end
       end)
    (serverError "Server error while deleting.").

End taskController.

(** ** [src/controllers/folderController.js] *)

Module folderController.

(** [sanitize] on a path parameter, which is always a string. *)
Definition sanitize (val : string) : string := trim val.

Definition isValidId (id : string) : bool := isValidObjectId (sanitize id).

(** [catch (err) { res.status(c).json({ error: err.message }) }] *)
Definition errorMessage (c : nat) (err : MongooseError) : Response :=
  mkResponse c (JError (message err)).

Definition getFolderById (userId : ObjectId) (id : string) : Db -> Response * Db :=
  let id := sanitize id in
  tryCatch
    (when (negb (isValidId id)) (respond 400 (JError "Invalid folder id")) ;;;
     folder <- Folder.findOnePopulated id userId ;;
     match folder with
     | None => respond 404 (JError "Folder not found")
     | Some j => respond 200 j
     end)
    (errorMessage 500).

Definition getTasksInFolder (userId : ObjectId) (folderId : string) : Db -> Response * Db :=
  let folderId := sanitize folderId in
  tryCatch
    (when (negb (isValidId folderId)) (respond 400 (JError "Invalid folder id")) ;;;
     tasks <- Task.find (Some (Some folderId)) userId ;;
     respond 200 (JTasks tasks))
    (errorMessage 500).

Definition addTaskToFolder (gen : ObjectId) (userId : ObjectId) (folderId : string)
    (title : option string) (dueDate : option DateInput) : Db -> Response * Db :=
  let folderId := sanitize folderId in
  tryCatch
    (when (negb (isValidId folderId)) (respond 400 (JError "Invalid folder id")) ;;;
     folder <- Folder.findOne folderId userId ;;
     match folder with
     | None => respond 404 (JError "Folder not found")
     | Some (fid, _) =>
         task <- Task.create gen title dueDate None (Some (OfId fid)) userId ;;
         Folder.updateById "save" (OfId fid) (Folder.push (fst task)) ;;;
         respond 201 (JTask task)
     end)
    (errorMessage 500).

Definition updateTaskInFolder (userId : ObjectId) (folderId taskId : string)
    (body : TaskUpdate) : Db -> Response * Db :=
  let folderId := sanitize folderId in
  let taskId := sanitize taskId in
  tryCatch
    (when (negb (isValidId folderId) || negb (isValidId taskId))
       (respond 400 (JError "Invalid id(s)")) ;;;
     task <- Task.findOneAndUpdate taskId (Some folderId) userId body false ;;
     match task with
     | None => respond 404 (JError "Task not found")
     | Some t => respond 200 (JTask t)
     end)
    (errorMessage 400).

Definition updateTaskStatus (userId : ObjectId) (folderId taskId : string)
    (status : option string) : Db -> Response * Db :=
  let folderId := sanitize folderId in
  let taskId := sanitize taskId in
  tryCatch
    (when (negb (isValidId folderId) || negb (isValidId taskId))
       (respond 400 (JError "Invalid id(s)")) ;;;
     task <- Task.findOneAndUpdate taskId (Some folderId) userId
               (mkTaskUpdate None None status None None) false ;;
     match task with
     | None => respond 404 (JError "Task not found")
     | Some t => respond 200 (JTask t)
     end)
    (errorMessage 400).

Definition deleteTaskInFolder (userId : ObjectId) (folderId taskId : string)
    : Db -> Response * Db :=
  let folderId := sanitize folderId in
  let taskId := sanitize taskId in
  tryCatch
    (when (negb (isValidId folderId) || negb (isValidId taskId))
       (respond 400 (JError "Invalid id(s)")) ;;;
     task <- Task.findOneAndDelete taskId (Some folderId) userId ;;
     match task with
     | None => respond 404 (JError "Task not found")
     | Some (tid, _) =>
         Folder.updateById "updateOne" (OfString folderId) (Folder.pull tid) ;;;
         respond 200 (JMessage "Task deleted")
     end)
    (errorMessage 500).

Definition resetProgress (userId : ObjectId) (id : string) : Db -> Response * Db :=
  let id := sanitize id in
  tryCatch
    (when (negb (isValidId id)) (respond 400 (JError "Invalid folder id")) ;;;
     Task.updateMany id userId "Pending" ;;;
     respond 200 (JMessage "Folder progress reset"))
    (errorMessage 500).

Definition clearProgress (userId : ObjectId) (id : string) : Db -> Response * Db :=
  let id := sanitize id in
  tryCatch
    (when (negb (isValidId id)) (respond 400 (JError "Invalid folder id")) ;;;
     Task.deleteMany id userId ;;;
     Folder.updateById "findByIdAndUpdate" (OfString id) Folder.clearTasks ;;;
     respond 200 (JMessage "Folder progress cleared"))
    (errorMessage 500).

Definition createFolder (gen : ObjectId) (userId : ObjectId) (name : option string)
    : Db -> Response * Db :=
  tryCatch
    (when (negb (truthy name)) (respond 400 (JError "Folder name required")) ;;;
     folder <- Folder.create gen name userId ;;
     respond 201 (JFolder folder))
    (errorMessage 500).

End folderController.

(** ** The routes

    [src/routes/taskRoutes.js] and the folder routes: every route runs the
    authentication middleware, which supplies the user, and then one
    handler. [gen] is the ObjectId the driver generates should the handler
    create a document. *)

Inductive Request :=
  | PostTask (b : createBody.t)
  | GetTasks
  | GetTasksOfFolder (folderId : string)
  | GetTasksNoFolder
  | GetTask (taskId : string)
  | PatchTask (taskId : string) (title status : option string)
  | DeleteTask (type id : option string)
  | PostFolder (name : option string)
  | GetFolder (id : string)
  | GetFolderTasks (folderId : string)
  | PostFolderTask (folderId : string) (title : option string) (dueDate : option DateInput)
  | PatchFolderTask (folderId taskId : string) (body : TaskUpdate)
  | PatchFolderTaskStatus (folderId taskId : string) (status : option string)
  | DeleteFolderTask (folderId taskId : string)
  | PatchFolderReset (id : string)
  | DeleteFolderProgress (id : string).

Definition route (gen : ObjectId) (userId : ObjectId) (r : Request) : Db -> Response * Db :=
  match r with
  | PostTask b => taskController.createTaskOrFolder gen userId b
  | GetTasks => taskController.getAllTasksAndFolders userId
  | GetTasksOfFolder f => taskController.getTasksByFolder userId f
  | GetTasksNoFolder => taskController.getAllTasksWithoutFolder userId
  | GetTask i => taskController.getTaskById userId i
  | PatchTask i t s => taskController.updateTaskStatus userId i t s
  | DeleteTask ty i => taskController.deleteTaskOrFolder userId ty i
  | PostFolder n => folderController.createFolder gen userId n
  | GetFolder i => folderController.getFolderById userId i
  | GetFolderTasks f => folderController.getTasksInFolder userId f
  | PostFolderTask f t d => folderController.addTaskToFolder gen userId f t d
  | PatchFolderTask f i b => folderController.updateTaskInFolder userId f i b
  | PatchFolderTaskStatus f i s => folderController.updateTaskStatus userId f i s
  | DeleteFolderTask f i => folderController.deleteTaskInFolder userId f i
  | PatchFolderReset i => folderController.resetProgress userId i
  | DeleteFolderProgress i => folderController.clearProgress userId i
  end.

(** A store where no identifier names both a task and a folder: ObjectIds
    are generated once, for one document. *)
Definition uniqueIds (db : Db) : Prop :=
  forall i, is_Some (taskColl db !! i) -> is_Some (folderColl db !! i) -> False.

(** Identifiers in their request form, for the examples. *)
Definition hex1 : string := "000000000000000000000001".
Definition hex5 : string := "000000000000000000000005".

(** ** Auxiliary definitions for the statements *)

(** The answer of the two-step lookups when neither step finds a document. *)
Definition notFound : Response := mkResponse 404 (JError "Task or folder not found.").

(** The tasks [Task.deleteMany({ folder: i, user: u })] keeps. *)
Definition keptTasks (i u : ObjectId) (m : gmap N task.doc) : gmap N task.doc :=
  filter (fun kv => Task.matchFolder i kv.2 && Task.matchUser u kv.2 = false) m.

(** A task after a patch of its [title] and [status]: a field that is
    absent from the patch keeps its value. *)
Definition patched (title status : option string) (t : task.doc) : task.doc :=
  task.mk (default (task.title t) title) (task.dueDate t)
          (default (task.status t) status) (task.folder t) (task.user t).

(** A folder after a rename to [title], when there is one. *)
Definition renamed (title : option string) (f : folder.doc) : folder.doc :=
  folder.mk (default (folder.name f) title) (folder.user f) (folder.tasks f).

(** The task, and the folder, with identifier [i] that user [u] owns: what
    a lookup by [{ _id: i, user: u }] finds. *)
Definition ownedTask (u i : ObjectId) (db : Db) : option task.doc :=
  match taskColl db !! i with
  | Some t => if Task.matchUser u t then Some t else None
  | None => None
  end.

Definition ownedFolder (u i : ObjectId) (db : Db) : option folder.doc :=
  match folderColl db !! i with
  | Some f => if Folder.matchUser u f then Some f else None
  | None => None
  end.


(** The document [createTaskOrFolder] hands to [Task.create] for a request
    that passed the controller's checks. *)
Definition newTask (title : option string) (dueDate : option DateInput)
    (status : option string) (folder : option ObjectId) (user : ObjectId) : task.doc :=
  task.mk (default "" title)
          (match dueDate with Some (ValidDate ms) => Some ms | _ => None end)
          (if truthy status then default "" status else "Pending")
          folder user.

(** Whether [Task.create] stores the document: its [status] passes the
    schema and the generated identifier is free. *)
Definition storable (gen : ObjectId) (d : task.doc) (db : Db) : bool :=
  includes task.statusEnum (task.status d) && bool_decide (taskColl db !! gen = None).

Definition createError : Response :=
  mkResponse 500 (JError "Server error while creating task or folder.").

(** The tasks after [Task.updateMany({ folder: i, user: u }, { status:
    'Pending' })]. *)
Definition resetTasks (i u : ObjectId) (m : gmap N task.doc) : gmap N task.doc :=
  (fun d => if Task.matchFolder i d && Task.matchUser u d
            then task.setStatus "Pending" d else d) <$> m.

(** A string that does not start with white space. *)
Definition headOk (s : string) : Prop :=
  match s with
  | String c _ => isSpace c = false
  | EmptyString => True
  end.

(** Two users, and the store after the first of them has created a folder
    and a task in it. *)
Definition alice : ObjectId := 11%N.
Definition bob : ObjectId := 22%N.

Definition aliceDb : Db :=
  snd (route 5%N alice (PostFolderTask hex1 (Some "report") None)
         (snd (route 1%N alice
                 (PostTask (createBody.mk (Some "Work") None None (Some "folder") None))
                 emptyDb))).

(** The status codes the handlers answer with. *)
Definition statusCodes : list nat := [200; 201; 400; 404; 500].

Definition okCode (r : Response) : Prop := In (code r) statusCodes.

Definition anything {A} (_ : A) : Prop := True.

(** A computation whose early answers carry one of the status codes, and
    whose result satisfies [P]. *)
Definition answers {A} (P : A -> Prop) (h : Handler A) : Prop :=
  forall db,
    match fst (h db) with
    | Next a => P a
    | Respond r => okCode r
    | Throw _ => True
    end.

(** The part of the store that belongs to user [u]. *)
Definition ownView (u : ObjectId) (db : Db) : Db :=
  mkDb (filter (fun kv => task.user kv.2 = u) (taskColl db))
       (filter (fun kv => folder.user kv.2 = u) (folderColl db))
       (calls db).

(** The generated identifier [gen] names no document yet. *)
Definition fresh (gen : ObjectId) (db : Db) : Prop :=
  taskColl db !! gen = None /\ folderColl db !! gen = None.

(** A triple for the handler monad: from a store that satisfies [P], the
    computation goes on with a result and a store that satisfy [Q], or
    leaves (by an answer or by a rejection) with a store that satisfies
    [E]. *)
Inductive hoare {A} (P : Db -> Prop) (h : Handler A) (Q : A -> Db -> Prop)
    (E : Db -> Prop) : Prop :=
  | Hoare :
      (forall db, P db ->
         match h db with
         | (Next a, db') => Q a db'
         | (Respond _, db') => E db'
         | (Throw _, db') => E db'
         end) ->
      hoare P h Q E.

Definition uniqueFresh (gen : ObjectId) (db : Db) : Prop := uniqueIds db /\ fresh gen db.

(** The stores the routes can build from the empty one, the driver
    generating a fresh identifier for each request. *)
Inductive reachable : Db -> Prop :=
  | reachable_empty : reachable emptyDb
  | reachable_route gen u r db :
      reachable db -> fresh gen db -> reachable (snd (route gen u r db)).

(** The records that do not belong to [u] in [db0] are in [db] as they
    were. *)
Definition foreignKept (u : ObjectId) (db0 db : Db) : Prop :=
  (forall j t, taskColl db0 !! j = Some t -> task.user t <> u -> taskColl db !! j = Some t)
  /\ (forall j f, folderColl db0 !! j = Some f -> folder.user f <> u ->
        folderColl db !! j = Some f).

(** The routes that update a folder without a filter on its owner. *)
Definition unfiltered (r : Request) : bool :=
  match r with
  | DeleteFolderTask _ _ | DeleteFolderProgress _ => true
  | _ => false
  end.

(** User [u] owns the folder with identifier [i]. *)
Definition ownsFolder (u i : ObjectId) (db : Db) : Prop :=
  exists d, folderColl db !! i = Some d /\ Folder.matchUser u d = true.

(** Bob's identifier in its request form, and the store after Alice has
    handed her task over to Bob. *)
Definition hexBob : string := "000000000000000000000016".

Definition handedOverDb : Db :=
  snd (route 0%N alice
         (PatchFolderTask hex1 hex5 (mkTaskUpdate None None None None (Some hexBob)))
         aliceDb).

(** ** What an answer lists, and what a request leaves as it was *)

(** The tasks an answer lists. *)
Definition listed (r : Response) : list (ObjectId * task.doc) :=
  match body r with
  | JTasks l => l
  | JTasksFolders l _ => l
  | JFolderPopulated _ _ _ l => l
  | _ => []
  end.

(** The folders an answer lists. *)
Definition listedFolders (r : Response) : list (ObjectId * folder.doc) :=
  match body r with
  | JTasksFolders _ l => l
  | _ => []
  end.

(** Both collections of [db'] are those of [db]. *)
Definition sameColls (db db' : Db) : Prop :=
  taskColl db' = taskColl db /\ folderColl db' = folderColl db.

(** A string of white space only. *)
Fixpoint allSpace (s : string) : bool :=
  match s with
  | EmptyString => true
  | String c s' => isSpace c && allSpace s'
  end.

(** The requests one user makes one after the other, each with the
    identifier generated for it. *)
Fixpoint session (userId : ObjectId) (rs : list (ObjectId * Request)) (db : Db) : Db :=
  match rs with
  | [] => db
  | (gen, r) :: rs => session userId rs (snd (route gen userId r db))
  end.

(** The deletion of a folder by its type hint, which deletes the tasks
    before it looks for the folder. *)
Definition cascades (r : Request) : bool :=
  match r with
  | DeleteTask ty _ => strictEq ty "folder"
  | _ => false
  end.

(** Every folder of the store has a name. *)
Definition namedFolders (db : Db) : Prop :=
  forall i f, folderColl db !! i = Some f -> folder.name f <> "".

(** * Properties *)

(** ** Tactics and basic facts *)

(** Runs a handler symbolically: unfolds the monad, so that the conditions
    that block the computation appear. *)
Ltac unfold_monad :=
  unfold castOptId, castIdValue, castDate, castId, when, call, getDb, setTaskColl,
    setFolderColl, respond, ret, throw, tryCatch, bind.

Ltac unfold_handler := unfold_monad; simpl.

Lemma task_matchUser_true u t : Task.matchUser u t = true <-> task.user t = u.
Proof. unfold Task.matchUser. apply N.eqb_eq. Qed.

Lemma task_matchUser_false u t : Task.matchUser u t = false <-> task.user t <> u.
Proof. unfold Task.matchUser. apply N.eqb_neq. Qed.

Lemma folder_matchUser_true u f : Folder.matchUser u f = true <-> folder.user f = u.
Proof. unfold Folder.matchUser. apply N.eqb_eq. Qed.

Lemma folder_matchUser_false u f : Folder.matchUser u f = false <-> folder.user f <> u.
Proof. unfold Folder.matchUser. apply N.eqb_neq. Qed.

Lemma task_matchFolder_true i t : Task.matchFolder i t = true <-> task.folder t = Some i.
Proof.
  unfold Task.matchFolder. destruct (task.folder t) as [g|].
  - rewrite N.eqb_eq. split; congruence.
  - split; discriminate.
Qed.

(** A string that casts to an ObjectId has 24 characters, so it is truthy. *)
Lemma castObjectId_truthy s i : castObjectId s = Some i -> truthy (Some s) = true.
Proof.
  unfold castObjectId, truthy. destruct s; simpl; [discriminate | reflexivity].
Qed.

#[local] Arguments truthy : simpl never.

Lemma castObjectId_valid s i : castObjectId s = Some i -> isValidObjectId s = true.
Proof. unfold isValidObjectId. intros ->. reflexivity. Qed.

Lemma castObjectId_invalid s : castObjectId s = None -> isValidObjectId s = false.
Proof. unfold isValidObjectId. intros ->. reflexivity. Qed.

Lemma ownedTask_Some u i db t :
  ownedTask u i db = Some t <-> taskColl db !! i = Some t /\ task.user t = u.
Proof.
  unfold ownedTask. destruct (taskColl db !! i) as [d|]; [|intuition congruence].
  destruct (Task.matchUser u d) eqn:Hu.
  - apply task_matchUser_true in Hu. intuition congruence.
  - apply task_matchUser_false in Hu. intuition congruence.
Qed.

Lemma ownedTask_None u i db :
  ownedTask u i db = None <-> forall t, taskColl db !! i = Some t -> task.user t <> u.
Proof.
  unfold ownedTask. destruct (taskColl db !! i) as [d|]; [|intuition congruence].
  destruct (Task.matchUser u d) eqn:Hu.
  - apply task_matchUser_true in Hu. split; [discriminate|].
    intros H. exfalso. by apply (H d).
  - apply task_matchUser_false in Hu. split; [|done].
    intros _ t Ht. congruence.
Qed.

Lemma ownedFolder_Some u i db f :
  ownedFolder u i db = Some f <-> folderColl db !! i = Some f /\ folder.user f = u.
Proof.
  unfold ownedFolder. destruct (folderColl db !! i) as [d|]; [|intuition congruence].
  destruct (Folder.matchUser u d) eqn:Hu.
  - apply folder_matchUser_true in Hu. intuition congruence.
  - apply folder_matchUser_false in Hu. intuition congruence.
Qed.

Lemma ownedFolder_None u i db :
  ownedFolder u i db = None <-> forall f, folderColl db !! i = Some f -> folder.user f <> u.
Proof.
  unfold ownedFolder. destruct (folderColl db !! i) as [d|]; [|intuition congruence].
  destruct (Folder.matchUser u d) eqn:Hu.
  - apply folder_matchUser_true in Hu. split; [discriminate|].
    intros H. exfalso. by apply (H d).
  - apply folder_matchUser_false in Hu. split; [|done].
    intros _ t Ht. congruence.
Qed.

(** ** [getTaskById] *)

(** The response of [getTaskById] on a well-formed identifier, computed. *)
Lemma getTaskById_response u raw i db :
  castObjectId raw = Some i ->
  fst (taskController.getTaskById u raw db) =
    match ownedTask u i db with
    | Some t => mkResponse 200 (JTask (i, t))
    | None =>
        match ownedFolder u i db with
        | Some f => mkResponse 200 (JFolder (i, f))
        | None => notFound
        end
    end.
Proof.
  intros Hc. unfold taskController.getTaskById, Task.findOne, Folder.findOne.
  unfold_handler. rewrite Hc. simpl. unfold ownedTask, ownedFolder.
  destruct (taskColl db !! i) as [t|]; simpl.
  - destruct (Task.matchUser u t); simpl; [done|].
    destruct (folderColl db !! i) as [f|]; simpl; [destruct (Folder.matchUser u f)|]; done.
  - destruct (folderColl db !! i) as [f|]; simpl; [destruct (Folder.matchUser u f)|]; done.
Qed.

(** A malformed identifier reaches the query, whose cast fails; the
    [catch] clause answers 500. *)
Lemma getTaskById_malformed u raw db :
  castObjectId raw = None ->
  taskController.getTaskById u raw db =
    (mkResponse 500 (JError "Server error while fetching task/folder."),
     mkDb (taskColl db) (folderColl db) (Read Tasks "findOne" :: calls db)).
Proof.
  intros Hc. unfold taskController.getTaskById, Task.findOne. unfold_handler.
  rewrite Hc. reflexivity.
Qed.

(** C4, as stated, fails on a malformed identifier: neither a task nor a
    folder has the identifier ["abc"], and the answer is a server error,
    not [NotFoundError]. *)
Lemma getTaskById_malformed_not_NotFound :
  castObjectId "abc" = None
  /\ taskColl emptyDb = ∅ /\ folderColl emptyDb = ∅
  /\ InternalError (fst (taskController.getTaskById 1%N "abc" emptyDb))
  /\ ~ NotFoundError (fst (taskController.getTaskById 1%N "abc" emptyDb)).
Proof.
  split_and!; try reflexivity. vm_compute. discriminate.
Qed.

(** C4 (amended): for every owner and every well-formed identifier,
    [getTaskById] returns the task with that identifier and owner when one
    exists; otherwise the folder with that identifier and owner when one
    exists; and it fails with [NotFoundError] exactly when neither exists. *)
Theorem getTaskById_task_then_folder (userId : ObjectId) (taskId : string)
    (i : ObjectId) (db : Db) :
  castObjectId taskId = Some i ->
  let r := fst (taskController.getTaskById userId taskId db) in
  (forall t, taskColl db !! i = Some t -> task.user t = userId ->
     r = mkResponse 200 (JTask (i, t)))
  /\ (forall f, (forall t, taskColl db !! i = Some t -> task.user t <> userId) ->
        folderColl db !! i = Some f -> folder.user f = userId ->
        r = mkResponse 200 (JFolder (i, f)))
  /\ (NotFoundError r <->
        (forall t, taskColl db !! i = Some t -> task.user t <> userId) /\
        (forall f, folderColl db !! i = Some f -> folder.user f <> userId)).
Proof.
  intros Hc r. subst r. rewrite (getTaskById_response _ _ _ _ Hc).
  rewrite <- ownedTask_None, <- ownedFolder_None.
  split_and!.
  - intros t Ht Hu. by rewrite (proj2 (ownedTask_Some _ _ _ _) (conj Ht Hu)).
  - intros f Hno Hf Hu. apply ownedTask_None in Hno. rewrite Hno.
    by rewrite (proj2 (ownedFolder_Some _ _ _ _) (conj Hf Hu)).
  - unfold NotFoundError, notFound.
    destruct (ownedTask userId i db); [|destruct (ownedFolder userId i db)];
      simpl; intuition congruence.
Qed.

Lemma getTaskById_task_then_folder_witness :
  let db := mkDb {[ 1%N := task.mk "t" None "Pending" None 7%N ]} ∅ [] in
  fst (taskController.getTaskById 7%N hex1 db)
    = mkResponse 200 (JTask (1%N, task.mk "t" None "Pending" None 7%N)).
Proof.
  intros db.
  destruct (getTaskById_task_then_folder 7%N hex1 1%N db eq_refl) as [Htask _].
  apply Htask; reflexivity.
Defined.

(** ** [deleteTaskOrFolder] with the type hint ["folder"] *)

Lemma keptTasks_lookup i u m j :
  keptTasks i u m !! j =
    match m !! j with
    | Some t => if Task.matchFolder i t && Task.matchUser u t then None else Some t
    | None => None
    end.
Proof.
  unfold keptTasks. destruct (m !! j) as [t|] eqn:Hj.
  - destruct (Task.matchFolder i t && Task.matchUser u t) eqn:Hm.
    + apply map_lookup_filter_None. right. intros x Hx. simplify_eq. simpl. congruence.
    + apply map_lookup_filter_Some. done.
  - apply map_lookup_filter_None. left. done.
Qed.

(** The cascade on a well-formed identifier, computed. *)
Lemma deleteFolder_run u raw i db :
  castObjectId raw = Some i ->
  taskController.deleteTaskOrFolder u (Some "folder") (Some raw) db =
    let cs := Write Folders "findOneAndDelete" :: Write Tasks "deleteMany" :: calls db in
    match folderColl db !! i with
    | Some f =>
        if Folder.matchUser u f then
          (mkResponse 200 (JMessage "Folder and its tasks deleted successfully."),
           mkDb (keptTasks i u (taskColl db)) (delete i (folderColl db)) cs)
        else
          (mkResponse 404 (JError "Folder not found."),
           mkDb (keptTasks i u (taskColl db)) (folderColl db) cs)
    | None =>
        (mkResponse 404 (JError "Folder not found."),
         mkDb (keptTasks i u (taskColl db)) (folderColl db) cs)
    end.
Proof.
  intros Hc. pose proof (castObjectId_truthy _ _ Hc) as Ht.
  unfold taskController.deleteTaskOrFolder, Task.deleteMany, Folder.findOneAndDelete.
  simpl. rewrite Ht. unfold_handler. rewrite Ht, Hc. simpl.
  destruct (folderColl db !! i) as [f|]; simpl; [destruct (Folder.matchUser u f)|]; done.
Qed.

(** A malformed identifier is rejected by the cast of the first query. *)
Lemma deleteFolder_malformed u raw db :
  castObjectId raw = None -> truthy (Some raw) = true ->
  taskController.deleteTaskOrFolder u (Some "folder") (Some raw) db =
    (mkResponse 500 (JError "Server error while deleting."),
     mkDb (taskColl db) (folderColl db) (Write Tasks "deleteMany" :: calls db)).
Proof.
  intros Hc Ht.
  unfold taskController.deleteTaskOrFolder, Task.deleteMany.
  simpl. rewrite Ht. unfold_handler. rewrite Ht, Hc. reflexivity.
Qed.

(** C3, as stated, fails on a malformed identifier: no folder with the
    identifier ["abc"] is owned by the caller, and the answer is a server
    error, not [NotFoundError]. *)
Lemma deleteFolder_malformed_not_NotFound :
  castObjectId "abc" = None
  /\ folderColl emptyDb = ∅
  /\ InternalError
       (fst (taskController.deleteTaskOrFolder 1%N (Some "folder") (Some "abc") emptyDb))
  /\ ~ NotFoundError
         (fst (taskController.deleteTaskOrFolder 1%N (Some "folder") (Some "abc") emptyDb)).
Proof.
  split_and!; try reflexivity. vm_compute. discriminate.
Qed.

(** C3 (amended): for every owner and every well-formed folder identifier,
    [deleteTaskOrFolder] with the type hint ["folder"] first deletes every
    task whose [folder] is that identifier and whose [user] is the caller
    (and no other task), then deletes the folder; it fails with
    [NotFoundError] when no folder with that identifier is owned by the
    caller, the matching tasks being removed all the same; and after a
    successful cascade, in a store with unique identifiers, [getTaskById]
    fails with [NotFoundError] for the folder and for each former child
    task. *)
Theorem deleteFolder_cascade (userId : ObjectId) (id : string) (i : ObjectId) (db : Db) :
  castObjectId id = Some i ->
  let r := taskController.deleteTaskOrFolder userId (Some "folder") (Some id) db in
  (forall j t, taskColl db !! j = Some t ->
     task.folder t = Some i -> task.user t = userId ->
     taskColl (snd r) !! j = None)
  /\ (forall j t, taskColl db !! j = Some t ->
        ~ (task.folder t = Some i /\ task.user t = userId) ->
        taskColl (snd r) !! j = Some t)
  /\ (forall j, taskColl db !! j = None -> taskColl (snd r) !! j = None)
  /\ calls (snd r) =
       Write Folders "findOneAndDelete" :: Write Tasks "deleteMany" :: calls db
  /\ ((forall f, folderColl db !! i = Some f -> folder.user f <> userId) ->
        NotFoundError (fst r) /\ folderColl (snd r) = folderColl db)
  /\ (forall f, folderColl db !! i = Some f -> folder.user f = userId ->
        fst r = mkResponse 200 (JMessage "Folder and its tasks deleted successfully.")
        /\ folderColl (snd r) = delete i (folderColl db)
        /\ (uniqueIds db ->
            NotFoundError (fst (taskController.getTaskById userId id (snd r)))
            /\ forall j t idj, taskColl db !! j = Some t ->
                 task.folder t = Some i -> task.user t = userId ->
                 castObjectId idj = Some j ->
                 NotFoundError (fst (taskController.getTaskById userId idj (snd r))))).
Proof.
  intros Hc r. subst r. rewrite (deleteFolder_run _ _ _ _ Hc). cbv zeta.
  assert (Hchild : forall j t, taskColl db !! j = Some t ->
            task.folder t = Some i -> task.user t = userId ->
            keptTasks i userId (taskColl db) !! j = None).
  { intros j t Hj Hf Hu. rewrite keptTasks_lookup, Hj.
    apply task_matchFolder_true in Hf. apply task_matchUser_true in Hu.
    by rewrite Hf, Hu. }
  assert (Hother : forall j t, taskColl db !! j = Some t ->
            ~ (task.folder t = Some i /\ task.user t = userId) ->
            keptTasks i userId (taskColl db) !! j = Some t).
  { intros j t Hj Hn. rewrite keptTasks_lookup, Hj.
    destruct (Task.matchFolder i t) eqn:Hf; [|done].
    destruct (Task.matchUser userId t) eqn:Hu; [|done].
    apply task_matchFolder_true in Hf. apply task_matchUser_true in Hu. tauto. }
  assert (Hnone : forall j, taskColl db !! j = None ->
            keptTasks i userId (taskColl db) !! j = None).
  { intros j Hj. by rewrite keptTasks_lookup, Hj. }
  destruct (folderColl db !! i) as [f|] eqn:Hf;
    [destruct (Folder.matchUser userId f) eqn:Hu|]; simpl.
  - apply folder_matchUser_true in Hu.
    split_and!; auto.
    + intros Hno. exfalso. by apply (Hno f).
    + intros g Hg _. simplify_eq. split_and!; [done..|].
      intros Huniq. unfold NotFoundError. split.
      * erewrite getTaskById_response by exact Hc.
        unfold ownedTask, ownedFolder. simpl.
        rewrite lookup_delete_eq.
        destruct (taskColl db !! i) as [t|] eqn:Ht.
        -- exfalso. apply (Huniq i); eauto.
        -- by rewrite (Hnone i Ht).
      * intros j t idj Hj Hfo Hus Hcj.
        erewrite getTaskById_response by exact Hcj.
        unfold ownedTask, ownedFolder. simpl.
        rewrite (Hchild j t Hj Hfo Hus).
        destruct (decide (i = j)) as [->|Hne].
        -- by rewrite lookup_delete_eq.
        -- rewrite lookup_delete_ne by done.
           destruct (folderColl db !! j) as [h|] eqn:Hh; [|done].
           exfalso. apply (Huniq j); eauto.
  - apply folder_matchUser_false in Hu.
    split_and!; auto.
    + intros _. by split.
    + intros g Hg Hgu. simplify_eq.
  - split_and!; auto.
    + intros _. by split.
    + intros g Hg. simplify_eq.
Qed.

Lemma deleteFolder_cascade_witness :
  let db := mkDb {[ 5%N := task.mk "t" None "Pending" (Some 1%N) 7%N ]}
                 {[ 1%N := folder.mk "F" 7%N [5%N] ]} [] in
  taskColl (snd (taskController.deleteTaskOrFolder 7%N (Some "folder") (Some hex1) db)) !! 5%N
    = None.
Proof.
  intros db.
  destruct (deleteFolder_cascade 7%N hex1 1%N db eq_refl) as [Hchild _].
  apply (Hchild 5%N (task.mk "t" None "Pending" (Some 1%N) 7%N)); reflexivity.
Defined.

(** ** [updateTaskStatus] of the task controller *)

Lemma truthy_nonempty t : t <> "" -> truthy (Some t) = true.
Proof.
  intros Hn. unfold truthy. destruct (String.eqb_spec t ""); [contradiction | reflexivity].
Qed.

(** The update on a well-formed identifier and a patch that passes the
    controller's checks and the schema's validators, computed. *)
Lemma updateTaskStatus_run u raw i title status db :
  castObjectId raw = Some i ->
  is_Some title \/ is_Some status ->
  (forall t, title = Some t -> t <> "") ->
  status = None \/ status = Some "Pending" \/ status = Some "Completed" ->
  taskController.updateTaskStatus u raw title status db =
    let c1 := Write Tasks "findOneAndUpdate" :: calls db in
    let c2 := Write Folders "findOneAndUpdate" :: c1 in
    match ownedTask u i db with
    | Some t =>
        (mkResponse 200 (JMessageTask "Task or folder updated." (i, patched title status t)),
         mkDb (<[i := patched title status t]> (taskColl db)) (folderColl db) c1)
    | None =>
        match ownedFolder u i db with
        | Some f =>
            (mkResponse 200 (JMessageFolder "Task or folder updated." (i, renamed title f)),
             mkDb (taskColl db) (<[i := renamed title f]> (folderColl db)) c2)
        | None => (notFound, mkDb (taskColl db) (folderColl db) c2)
        end
    end.
Proof.
  intros Hc Hsome Htitle Hstatus.
  assert (Ht : forall t, title = Some t -> truthy (Some t) = true).
  { intros t Heq. apply truthy_nonempty. by apply Htitle. }
  unfold taskController.updateTaskStatus, Task.findOneAndUpdate,
    Folder.findOneAndUpdate, Task.validate, ownedTask, ownedFolder.
  destruct title as [t|]; [specialize (Ht t eq_refl)|];
    destruct Hstatus as [->|[->| ->]];
    try (destruct Hsome as [[? ?]|[? ?]]; discriminate);
    unfold_handler; rewrite ?Ht, Hc; simpl; rewrite ?Ht; simpl;
    (destruct (taskColl db !! i) as [d|]; simpl;
      [destruct (Task.matchUser u d); simpl; [destruct d; reflexivity|]|];
      (destruct (folderColl db !! i) as [f|]; simpl;
        [destruct (Folder.matchUser u f); simpl; [destruct f; reflexivity|reflexivity]
        |reflexivity])).
Qed.

(** A patch with neither field is refused before any lookup. *)
Lemma updateTaskStatus_empty_patch u raw db :
  taskController.updateTaskStatus u raw None None db =
    (mkResponse 400 (JError "Provide at least title or status to update."), db).
Proof. reflexivity. Qed.

(** A status outside the controller's list is refused before any lookup. *)
Lemma updateTaskStatus_invalid_status u raw title s db :
  includes taskController.allowedStatus s = false ->
  taskController.updateTaskStatus u raw title (Some s) db =
    (mkResponse 400 (JError "Invalid status."), db).
Proof.
  intros Hs. unfold taskController.updateTaskStatus, tryCatch, bind, when.
  cbn -[includes]. rewrite Hs. reflexivity.
Qed.

(** C5, as stated, fails on a patch that does not pass validation: with an
    empty patch and an identifier that names neither a task nor a folder,
    the answer is [ValidationError], not [NotFoundError]. *)
Lemma updateTaskStatus_empty_patch_not_NotFound :
  castObjectId hex1 = Some 1%N
  /\ taskColl emptyDb !! 1%N = None
  /\ folderColl emptyDb !! 1%N = None
  /\ ValidationError (fst (taskController.updateTaskStatus 7%N hex1 None None emptyDb))
  /\ ~ NotFoundError (fst (taskController.updateTaskStatus 7%N hex1 None None emptyDb)).
Proof.
  split_and!; try reflexivity. vm_compute. discriminate.
Qed.

(** C5 (amended): for every [updateTaskStatus] with a well-formed
    identifier and a patch that passes validation (a [title] or a [status]
    is present, a present [title] is not empty, a present [status] is
    [Pending] or [Completed]): when a task with that identifier and owner
    exists, exactly the fields present in the patch are applied to it and
    the others are untouched; when no such task exists but a folder with
    that identifier and owner does, the folder is renamed to the [title] of
    the patch, when there is one, whatever the [status]; and [NotFoundError]
    is returned exactly when neither exists, nothing being changed. *)
Theorem updateTaskStatus_task_then_folder (userId : ObjectId) (taskId : string)
    (i : ObjectId) (title status : option string) (db : Db) :
  castObjectId taskId = Some i ->
  is_Some title \/ is_Some status ->
  (forall t, title = Some t -> t <> "") ->
  status = None \/ status = Some "Pending" \/ status = Some "Completed" ->
  let r := taskController.updateTaskStatus userId taskId title status db in
  (forall t, taskColl db !! i = Some t -> task.user t = userId ->
     fst r = mkResponse 200 (JMessageTask "Task or folder updated." (i, patched title status t))
     /\ taskColl (snd r) = <[i := patched title status t]> (taskColl db)
     /\ folderColl (snd r) = folderColl db)
  /\ (forall f, (forall t, taskColl db !! i = Some t -> task.user t <> userId) ->
        folderColl db !! i = Some f -> folder.user f = userId ->
        fst r = mkResponse 200 (JMessageFolder "Task or folder updated." (i, renamed title f))
        /\ folderColl (snd r) = <[i := renamed title f]> (folderColl db)
        /\ taskColl (snd r) = taskColl db)
  /\ (NotFoundError (fst r) <->
        (forall t, taskColl db !! i = Some t -> task.user t <> userId) /\
        (forall f, folderColl db !! i = Some f -> folder.user f <> userId))
  /\ (NotFoundError (fst r) ->
        taskColl (snd r) = taskColl db /\ folderColl (snd r) = folderColl db).
Proof.
  intros Hc Hsome Htitle Hstatus r. subst r.
  rewrite (updateTaskStatus_run _ _ _ _ _ _ Hc Hsome Htitle Hstatus). cbv zeta.
  rewrite <- ownedTask_None, <- ownedFolder_None.
  split_and!.
  - intros t Ht Hu. by rewrite (proj2 (ownedTask_Some _ _ _ _) (conj Ht Hu)).
  - intros f Hno Hf Hu. apply ownedTask_None in Hno. rewrite Hno.
    by rewrite (proj2 (ownedFolder_Some _ _ _ _) (conj Hf Hu)).
  - unfold NotFoundError, notFound.
    destruct (ownedTask userId i db); [|destruct (ownedFolder userId i db)];
      simpl; intuition congruence.
  - unfold NotFoundError, notFound.
    destruct (ownedTask userId i db); [|destruct (ownedFolder userId i db)];
      simpl; intuition congruence.
Qed.

Lemma updateTaskStatus_task_then_folder_witness :
  let db := mkDb {[ 1%N := task.mk "t" None "Pending" None 7%N ]} ∅ [] in
  taskColl (snd (taskController.updateTaskStatus 7%N hex1 None (Some "Completed") db))
    = <[ 1%N := task.mk "t" None "Completed" None 7%N ]> (taskColl db).
Proof.
  intros db.
  destruct (updateTaskStatus_task_then_folder 7%N hex1 1%N None (Some "Completed") db)
    as [Htask _].
  - reflexivity.
  - right. by eexists.
  - intros t Ht. discriminate.
  - right. right. reflexivity.
  - apply (Htask (task.mk "t" None "Pending" None 7%N)); reflexivity.
Defined.

(** ** [createTaskOrFolder] *)

(** C6: for every creation that is not folder-typed and carries a folder
    reference (a non-empty [folder] field): a malformed reference is
    rejected with [ValidationError] and no call reaches the storage layer;
    and when the referenced folder does not exist or belongs to another
    user, the creation is rejected before any write: no task is created, no
    folder is modified, and the only calls issued are reads. *)
Theorem createTask_folder_reference_checked (gen userId : ObjectId) (b : createBody.t)
    (db : Db) (f : string) :
  createBody.folder b = Some f ->
  f <> "" ->
  strictEq (createBody.type b) "folder" = false ->
  let r := taskController.createTaskOrFolder gen userId b db in
  (castObjectId f = None -> ValidationError (fst r) /\ snd r = db)
  /\ (forall i, castObjectId f = Some i ->
        (forall d, folderColl db !! i = Some d -> folder.user d <> userId) ->
        ValidationError (fst r)
        /\ taskColl (snd r) = taskColl db
        /\ folderColl (snd r) = folderColl db
        /\ exists l, calls (snd r) = (l ++ calls db)%list
                     /\ Forall (fun c => isWrite c = false) l).
Proof.
  intros Hf Hne Hty r. subst r.
  pose proof (truthy_nonempty _ Hne) as Htf.
  destruct b as [title dueDate status type folder]. simpl in Hf, Hty. subst folder.
  unfold taskController.createTaskOrFolder, Folder.findOne, ValidationError.
  cbn -[includes truthy]. rewrite Hty, Htf.
  unfold_monad.
  split.
  - intros Hc. rewrite (castObjectId_invalid _ Hc).
    destruct (negb (truthy title) || negb (truthy type)); [done|].
    destruct (truthy status && _); [done|].
    destruct dueDate as [[|ms]|]; done.
  - intros i Hc Hno. rewrite (castObjectId_valid _ _ Hc), Hc.
    apply ownedFolder_None in Hno. unfold ownedFolder in Hno.
    destruct (negb (truthy title) || negb (truthy type)).
    { split_and!; try done. by exists []. }
    destruct (truthy status && _).
    { split_and!; try done. by exists []. }
    destruct dueDate as [[|ms]|].
    { split_and!; try done. by exists []. }
    all: cbn -[includes truthy];
      destruct (folderColl db !! i) as [d|];
      [destruct (Folder.matchUser userId d); [discriminate|]|];
      (split_and!; try done; exists [Read Folders "findOne"]; split; [done|];
       by repeat constructor).
Qed.

Lemma createTask_folder_reference_checked_witness :
  let b := createBody.mk (Some "t") None None (Some "task") (Some "nope") in
  ValidationError (fst (taskController.createTaskOrFolder 9%N 7%N b emptyDb))
  /\ snd (taskController.createTaskOrFolder 9%N 7%N b emptyDb) = emptyDb.
Proof.
  intros b.
  destruct (createTask_folder_reference_checked 9%N 7%N b emptyDb "nope")
    as [Hmal _]; [reflexivity | discriminate | reflexivity |].
  apply Hmal. reflexivity.
Defined.

Lemma strictEq_ne ty s : ty <> s -> strictEq (Some ty) s = false.
Proof. intros Hne. simpl. by apply String.eqb_neq. Qed.

(** The three checks of the controller, each answered before any call to
    the storage layer. *)
Lemma createTask_required gen u b db :
  negb (truthy (createBody.title b)) || negb (truthy (createBody.type b)) = true ->
  taskController.createTaskOrFolder gen u b db =
    (mkResponse 400 (JError "Title and type are required."), db).
Proof.
  intros H. unfold taskController.createTaskOrFolder. unfold_monad.
  rewrite H. reflexivity.
Qed.

Lemma createTask_invalid_status gen u b db :
  negb (truthy (createBody.title b)) || negb (truthy (createBody.type b)) = false ->
  strictEq (createBody.type b) "folder" = false ->
  truthy (createBody.status b)
    && negb (includes taskController.allowedStatus (default "" (createBody.status b))) = true ->
  taskController.createTaskOrFolder gen u b db =
    (mkResponse 400 (JError "Invalid status value."), db).
Proof.
  intros H1 H2 H3. unfold taskController.createTaskOrFolder. unfold_monad.
  rewrite H1, H2, H3. reflexivity.
Qed.

Lemma createTask_invalid_date gen u b db :
  negb (truthy (createBody.title b)) || negb (truthy (createBody.type b)) = false ->
  strictEq (createBody.type b) "folder" = false ->
  truthy (createBody.status b)
    && negb (includes taskController.allowedStatus (default "" (createBody.status b))) = false ->
  createBody.dueDate b = Some InvalidDate ->
  taskController.createTaskOrFolder gen u b db =
    (mkResponse 400 (JError "Invalid date format."), db).
Proof.
  intros H1 H2 H3 H4. unfold taskController.createTaskOrFolder. unfold_monad.
  rewrite H1, H2, H3, H4. reflexivity.
Qed.

(** A request that passed the three checks: the folder reference is
    resolved, and the task is handed to [Task.create]. *)
Lemma createTask_run gen u b db :
  negb (truthy (createBody.title b)) || negb (truthy (createBody.type b)) = false ->
  strictEq (createBody.type b) "folder" = false ->
  truthy (createBody.status b)
    && negb (includes taskController.allowedStatus (default "" (createBody.status b))) = false ->
  createBody.dueDate b <> Some InvalidDate ->
  taskController.createTaskOrFolder gen u b db =
    let t fo := newTask (createBody.title b) (createBody.dueDate b) (createBody.status b) fo u in
    if truthy (createBody.folder b) then
      match castObjectId (default "" (createBody.folder b)) with
      | None => (mkResponse 400 (JError "Invalid folder ID format."), db)
      | Some i =>
          let c1 := Read Folders "findOne" :: calls db in
          match ownedFolder u i db with
          | None =>
              (mkResponse 400 (JError "Folder does not exist or does not belong to the user."),
               mkDb (taskColl db) (folderColl db) c1)
          | Some _ =>
              if storable gen (t (Some i)) db then
                (mkResponse 201 (JMessageTask "Task created successfully" (gen, t (Some i))),
                 mkDb (<[gen := t (Some i)]> (taskColl db))
                      (alter (Folder.push gen) i (folderColl db))
                      (Write Folders "findByIdAndUpdate" :: Write Tasks "create" :: c1))
              else
                (createError,
                 mkDb (taskColl db) (folderColl db) (Write Tasks "create" :: c1))
          end
      end
    else if storable gen (t None) db then
      (mkResponse 201 (JMessageTask "Task created successfully" (gen, t None)),
       mkDb (<[gen := t None]> (taskColl db)) (folderColl db)
            (Write Tasks "create" :: calls db))
    else
      (createError, mkDb (taskColl db) (folderColl db) (Write Tasks "create" :: calls db)).
Proof.
  intros H1 H2 H3 H4.
  assert (Htitle : truthy (createBody.title b) = true).
  { destruct (truthy (createBody.title b)); [done | discriminate]. }
  destruct b as [title dueDate status type folder].
  cbn -[includes truthy strictEq] in *.
  unfold taskController.createTaskOrFolder, Folder.findOne, Task.create, Task.validate,
    Folder.updateById, ownedFolder, storable, newTask, createError.
  cbn -[includes truthy strictEq]. unfold_monad.
  rewrite H1, H2, H3, Htitle. cbn -[includes truthy strictEq].
  assert (Hdate : exists due, (dueDate = None /\ due = None)
                              \/ exists ms, dueDate = Some (ValidDate ms) /\ due = Some ms).
  { destruct dueDate as [[|ms]|]; [done| |]; eauto. }
  destruct Hdate as [due [[-> ->]|[ms [-> ->]]]];
    (destruct (truthy folder) eqn:Hfo; cbn -[includes truthy strictEq];
     [ unfold isValidObjectId;
       destruct (castObjectId (default "" folder)) as [i|] eqn:Hc;
         cbn -[includes truthy strictEq]; [|done];
       destruct folder as [f|]; [|discriminate]; cbn -[includes truthy strictEq] in *;
       rewrite ?Hc; cbn -[includes truthy strictEq];
       destruct (folderColl db !! i) as [d|]; cbn -[includes truthy strictEq];
         [destruct (Folder.matchUser u d); cbn -[includes truthy strictEq]|]; try done
     | ];
     (destruct (includes task.statusEnum (if truthy status then default "" status else "Pending"));
        cbn -[includes truthy strictEq]; [|done];
      destruct (taskColl db !! gen) as [old|] eqn:Hg; cbn -[includes truthy strictEq];
        [done|];
      rewrite ?Hc; reflexivity)).
Qed.



(** ** [sanitize] *)

Lemma trimStart_headOk s : headOk (trimStart s).
Proof.
  induction s as [|c s IH]; simpl; [done|].
  destruct (isSpace c) eqn:Hc; simpl; done.
Qed.

Lemma trimStart_id s : headOk s -> trimStart s = s.
Proof. destruct s as [|c s]; simpl; [done|]. by intros ->. Qed.

Lemma trimEnd_headOk s : headOk s -> headOk (trimEnd s).
Proof.
  destruct s as [|c s]; simpl; [done|]. intros Hc.
  destruct (trimEnd s); simpl; [by rewrite Hc | done].
Qed.

Lemma trimEnd_idempotent s : trimEnd (trimEnd s) = trimEnd s.
Proof.
  induction s as [|c s IH]; simpl; [done|].
  destruct (trimEnd s) as [|c' r] eqn:Hr.
  - destruct (isSpace c) eqn:Hc; simpl; [done | by rewrite Hc].
  - simpl in *. by rewrite IH.
Qed.

Lemma trim_idempotent s : trim (trim s) = trim s.
Proof.
  unfold trim.
  rewrite (trimStart_id (trimEnd (trimStart s))).
  - apply trimEnd_idempotent.
  - apply trimEnd_headOk, trimStart_headOk.
Qed.

Lemma isValidId_sanitize id :
  folderController.isValidId (folderController.sanitize id)
  = isValidObjectId (folderController.sanitize id).
Proof. unfold folderController.isValidId, folderController.sanitize. by rewrite trim_idempotent. Qed.

(** ** [resetProgress] and [clearProgress] *)

Lemma resetProgress_run u id db :
  folderController.resetProgress u id db =
    match castObjectId (folderController.sanitize id) with
    | Some i =>
        (mkResponse 200 (JMessage "Folder progress reset"),
         mkDb (resetTasks i u (taskColl db)) (folderColl db)
              (Write Tasks "updateMany" :: calls db))
    | None => (mkResponse 400 (JError "Invalid folder id"), db)
    end.
Proof.
  unfold folderController.resetProgress, Task.updateMany, resetTasks.
  cbv zeta. rewrite isValidId_sanitize. unfold isValidObjectId. unfold_monad.
  destruct (castObjectId (folderController.sanitize id)); done.
Qed.

Lemma clearProgress_run u id db :
  folderController.clearProgress u id db =
    match castObjectId (folderController.sanitize id) with
    | Some i =>
        (mkResponse 200 (JMessage "Folder progress cleared"),
         mkDb (keptTasks i u (taskColl db)) (alter Folder.clearTasks i (folderColl db))
              (Write Folders "findByIdAndUpdate" :: Write Tasks "deleteMany" :: calls db))
    | None => (mkResponse 400 (JError "Invalid folder id"), db)
    end.
Proof.
  unfold folderController.clearProgress, Task.deleteMany, Folder.updateById, keptTasks.
  cbv zeta. rewrite isValidId_sanitize. unfold isValidObjectId. unfold_monad.
  destruct (castObjectId (folderController.sanitize id)); done.
Qed.

(** C8, as stated, fails where no folder exists: on the empty store, for a
    well-formed identifier, both operations answer with a confirmation,
    not with [NotFoundError]. *)
Lemma progress_confirmed_without_folder :
  castObjectId (folderController.sanitize hex1) = Some 1%N
  /\ folderColl emptyDb !! 1%N = None
  /\ fst (folderController.resetProgress 7%N hex1 emptyDb)
     = mkResponse 200 (JMessage "Folder progress reset")
  /\ fst (folderController.clearProgress 7%N hex1 emptyDb)
     = mkResponse 200 (JMessage "Folder progress cleared")
  /\ ~ NotFoundError (fst (folderController.resetProgress 7%N hex1 emptyDb))
  /\ ~ NotFoundError (fst (folderController.clearProgress 7%N hex1 emptyDb)).
Proof.
  split_and!; try reflexivity; vm_compute; discriminate.
Qed.

(** C8 (amended): for every owner and every well-formed folder identifier,
    [resetProgress] and [clearProgress] answer with a confirmation, whether
    or not a folder with that identifier is owned by the caller; neither
    fails with [NotFoundError]. *)
Theorem progress_always_confirmed (userId : ObjectId) (id : string) (i : ObjectId) (db : Db) :
  castObjectId (folderController.sanitize id) = Some i ->
  fst (folderController.resetProgress userId id db)
    = mkResponse 200 (JMessage "Folder progress reset")
  /\ fst (folderController.clearProgress userId id db)
     = mkResponse 200 (JMessage "Folder progress cleared")
  /\ ~ NotFoundError (fst (folderController.resetProgress userId id db))
  /\ ~ NotFoundError (fst (folderController.clearProgress userId id db)).
Proof.
  intros Hc. rewrite resetProgress_run, clearProgress_run, Hc.
  unfold NotFoundError. simpl. split_and!; done.
Qed.

Lemma progress_always_confirmed_witness :
  fst (folderController.resetProgress 7%N " 000000000000000000000001 " emptyDb)
    = mkResponse 200 (JMessage "Folder progress reset").
Proof.
  destruct (progress_always_confirmed 7%N " 000000000000000000000001 " 1%N emptyDb eq_refl)
    as [Hreset _].
  exact Hreset.
Defined.

(** A malformed identifier is refused by both, and nothing changes. *)
Lemma progress_malformed u id db :
  castObjectId (folderController.sanitize id) = None ->
  folderController.resetProgress u id db = (mkResponse 400 (JError "Invalid folder id"), db)
  /\ folderController.clearProgress u id db = (mkResponse 400 (JError "Invalid folder id"), db).
Proof. intros Hc. by rewrite resetProgress_run, clearProgress_run, Hc. Qed.

Lemma resetTasks_lookup i u m j :
  resetTasks i u m !! j =
    (fun d => if Task.matchFolder i d && Task.matchUser u d
              then task.setStatus "Pending" d else d) <$> m !! j.
Proof. unfold resetTasks. apply lookup_fmap. Qed.


(** ** The status enum of the schema *)

(** Whatever the task and the title, an update to [Working] passes the
    controller's check and is stopped by the validators of the schema: the
    answer is a server error and nothing is stored. *)
Lemma updateTaskStatus_Working u raw title db :
  fst (taskController.updateTaskStatus u raw title (Some "Working") db)
    = mkResponse 500 (JError "Server error while updating task or folder.")
  /\ taskColl (snd (taskController.updateTaskStatus u raw title (Some "Working") db))
     = taskColl db
  /\ folderColl (snd (taskController.updateTaskStatus u raw title (Some "Working") db))
     = folderColl db.
Proof.
  unfold taskController.updateTaskStatus, Task.findOneAndUpdate, Task.validate.
  unfold_monad.
  destruct title as [t|]; cbn -[truthy];
    (destruct (castObjectId raw); cbn -[truthy]; [|done]); [|done].
  destruct (truthy (Some t)); done.
Qed.

(** A creation with the status [Working] never stores a task. *)
Lemma createTask_Working gen u b db :
  createBody.status b = Some "Working" ->
  strictEq (createBody.type b) "folder" = false ->
  code (fst (taskController.createTaskOrFolder gen u b db)) <> 201
  /\ taskColl (snd (taskController.createTaskOrFolder gen u b db)) = taskColl db
  /\ folderColl (snd (taskController.createTaskOrFolder gen u b db)) = folderColl db.
Proof.
  intros Hs Hty.
  destruct (negb (truthy (createBody.title b)) || negb (truthy (createBody.type b))) eqn:H1.
  { by rewrite (createTask_required _ _ _ _ H1). }
  assert (H3 : truthy (createBody.status b)
               && negb (includes taskController.allowedStatus
                          (default "" (createBody.status b))) = false)
    by (rewrite Hs; reflexivity).
  destruct (createBody.dueDate b) as [[|ms]|] eqn:H4.
  { by rewrite (createTask_invalid_date _ _ _ _ H1 Hty H3 H4). }
  all: rewrite (createTask_run _ _ _ _ H1 Hty H3) by (rewrite H4; discriminate);
    cbv zeta; unfold storable, newTask; rewrite Hs; cbn -[truthy];
    destruct (truthy (createBody.folder b)); [|done];
    destruct (castObjectId _); [|done];
    destruct (ownedFolder _ _ _); done.
Qed.

(** The statuses [Pending] and [Completed], and an omitted status, are
    stored by a creation without a folder reference. *)
Lemma createTask_status_stored gen u b db :
  truthy (createBody.title b) = true ->
  truthy (createBody.type b) = true ->
  strictEq (createBody.type b) "folder" = false ->
  createBody.dueDate b <> Some InvalidDate ->
  truthy (createBody.folder b) = false ->
  createBody.status b = None \/ createBody.status b = Some "Pending"
    \/ createBody.status b = Some "Completed" ->
  taskColl db !! gen = None ->
  let t := newTask (createBody.title b) (createBody.dueDate b) (createBody.status b) None u in
  fst (taskController.createTaskOrFolder gen u b db)
    = mkResponse 201 (JMessageTask "Task created successfully" (gen, t))
  /\ taskColl (snd (taskController.createTaskOrFolder gen u b db)) !! gen = Some t
  /\ task.status t = default "Pending" (createBody.status b).
Proof.
  intros Ht Hty Hnf Hd Hfo Hs Hg t. subst t.
  rewrite createTask_run; try done.
  - cbv zeta. rewrite Hfo. unfold storable. rewrite Hg.
    destruct Hs as [Hs|[Hs|Hs]]; rewrite Hs; cbn -[truthy];
      (split_and!; [done | apply lookup_insert_eq | done]).
  - by rewrite Ht, Hty.
  - destruct Hs as [Hs|[Hs|Hs]]; rewrite Hs; reflexivity.
Qed.

(** A non-empty status outside the controller's list is rejected with
    [ValidationError]; an empty status is treated as an omitted one. *)
Lemma createTask_status_rejected gen u b db s :
  truthy (createBody.title b) = true ->
  truthy (createBody.type b) = true ->
  strictEq (createBody.type b) "folder" = false ->
  createBody.status b = Some s -> s <> "" ->
  includes taskController.allowedStatus s = false ->
  taskController.createTaskOrFolder gen u b db
    = (mkResponse 400 (JError "Invalid status value."), db).
Proof.
  intros Ht Hty Hnf Hs Hne Hin.
  apply createTask_invalid_status; rewrite ?Ht, ?Hty, ?Hs; try done.
  cbn -[truthy includes]. by rewrite (truthy_nonempty _ Hne), Hin.
Qed.

(** C1 (the code departs from the claim): [Working] is in the list the
    controller accepts and not in the enum of the schema, so a creation and
    an update with that status end in a server error and store nothing. *)
Theorem status_Working_not_stored :
  includes taskController.allowedStatus "Working" = true
  /\ includes task.statusEnum "Working" = false
  /\ taskController.createTaskOrFolder 9%N alice
       (createBody.mk (Some "t") None (Some "Working") (Some "task") None) emptyDb
     = (mkResponse 500 (JError "Server error while creating task or folder."),
        mkDb ∅ ∅ [Write Tasks "create"])
  /\ taskColl aliceDb !! 5%N = Some (task.mk "report" None "Pending" (Some 1%N) alice)
  /\ fst (taskController.updateTaskStatus alice hex5 None
            (Some "Working") aliceDb)
     = mkResponse 500 (JError "Server error while updating task or folder.")
  /\ taskColl (snd (taskController.updateTaskStatus alice hex5 None
                      (Some "Working") aliceDb)) !! 5%N
     = Some (task.mk "report" None "Pending" (Some 1%N) alice).
Proof.
  split_and!; vm_compute; reflexivity.
Qed.

(** ** Ownership *)

(** C2 (the code departs from the claim): [clearProgress] empties the
    [tasks] list of the folder with the given identifier without looking at
    its owner. Alice owns folder 1, whose list holds her task 5; Bob's call
    is confirmed, and Alice's folder has lost its list while her task is
    still there. *)
Theorem clearProgress_clears_foreign_folder :
  folderColl aliceDb !! 1%N = Some (folder.mk "Work" alice [5%N])
  /\ alice <> bob
  /\ fst (route 0%N bob (DeleteFolderProgress hex1) aliceDb)
     = mkResponse 200 (JMessage "Folder progress cleared")
  /\ folderColl (snd (route 0%N bob (DeleteFolderProgress hex1) aliceDb)) !! 1%N
     = Some (folder.mk "Work" alice [])
  /\ taskColl (snd (route 0%N bob (DeleteFolderProgress hex1) aliceDb)) !! 5%N
     = Some (task.mk "report" None "Pending" (Some 1%N) alice).
Proof.
  split_and!; vm_compute; (reflexivity || discriminate).
Qed.

(** In general: whoever calls, the folder with that identifier loses its
    list. *)
Lemma clearProgress_any_owner u id i f db :
  castObjectId (folderController.sanitize id) = Some i ->
  folderColl db !! i = Some f ->
  folderColl (snd (folderController.clearProgress u id db)) !! i
    = Some (folder.mk (folder.name f) (folder.user f) []).
Proof.
  intros Hc Hf. rewrite clearProgress_run, Hc. simpl.
  rewrite lookup_alter_eq, Hf. reflexivity.
Qed.

(** [deleteTaskInFolder] pulls the task from the list of the folder with
    the given identifier, again whoever owns the folder. *)
Lemma deleteTaskInFolder_any_owner u folderId taskId i j t f db :
  castObjectId (folderController.sanitize folderId) = Some i ->
  castObjectId (folderController.sanitize taskId) = Some j ->
  taskColl db !! j = Some t -> task.user t = u -> task.folder t = Some i ->
  folderColl db !! i = Some f ->
  folderColl (snd (folderController.deleteTaskInFolder u folderId taskId db)) !! i
    = Some (Folder.pull j f).
Proof.
  intros Hi Hj Ht Hu Hfo Hf.
  unfold folderController.deleteTaskInFolder, Task.findOneAndDelete, Folder.updateById.
  cbv zeta. rewrite !isValidId_sanitize.
  rewrite (castObjectId_valid _ _ Hi), (castObjectId_valid _ _ Hj).
  unfold_monad. rewrite Hi, Hj. simpl. rewrite Ht.
  apply task_matchUser_true in Hu. apply task_matchFolder_true in Hfo.
  unfold Task.matchOptFolder. rewrite Hu, Hfo. simpl.
  rewrite lookup_alter_eq, Hf. reflexivity.
Qed.

(** ** Status codes *)

Lemma answers_ret {A} (P : A -> Prop) a : P a -> answers P (ret a).
Proof. intros H db. exact H. Qed.

Lemma answers_throw {A} (P : A -> Prop) e : answers P (throw e).
Proof. intros db. exact I. Qed.

Lemma answers_respond {A} (P : A -> Prop) c b :
  In c statusCodes -> answers P (respond c b).
Proof. intros H db. exact H. Qed.

Lemma answers_bind {A B} (P : B -> Prop) (m : Handler A) (k : A -> Handler B) :
  answers anything m -> (forall a, answers P (k a)) -> answers P (bind m k).
Proof.
  intros Hm Hk db. unfold bind. specialize (Hm db).
  destruct (m db) as [[a|r|e] db']; simpl in *; [apply Hk | done | done].
Qed.

Lemma answers_call c : answers anything (call c).
Proof. intros db. exact I. Qed.

Lemma answers_getDb : answers anything getDb.
Proof. intros db. exact I. Qed.

Lemma answers_setTaskColl m : answers anything (setTaskColl m).
Proof. intros db. exact I. Qed.

Lemma answers_setFolderColl m : answers anything (setFolderColl m).
Proof. intros db. exact I. Qed.

Lemma okCode_tryCatch body onError db :
  answers okCode body -> (forall e, okCode (onError e)) ->
  okCode (fst (tryCatch body onError db)).
Proof.
  intros Hb He. unfold tryCatch. specialize (Hb db).
  destruct (body db) as [[r|r|e] db']; simpl in *; auto.
Qed.

Ltac answers_step :=
  first
    [ apply answers_ret; exact I
    | apply answers_throw
    | apply answers_respond; simpl; tauto
    | apply answers_call
    | apply answers_getDb
    | apply answers_setTaskColl
    | apply answers_setFolderColl
    | apply answers_bind; [|intros ?]
    | match goal with
      | |- answers _ (if ?c then _ else _) => destruct c
      | |- answers _ (match ?x with _ => _ end) => destruct x
      | |- answers _ (let _ := _ in _) => cbv zeta
      end ].

Ltac answers_tac :=
  unfold castOptId, castIdValue, castDate, castId, when; repeat answers_step.

Lemma answers_Task_create gen title dueDate status folder user :
  answers anything (Task.create gen title dueDate status folder user).
Proof. unfold Task.create, Task.validate. answers_tac. Qed.

Lemma answers_Task_findOne i u : answers anything (Task.findOne i u).
Proof. unfold Task.findOne. answers_tac. Qed.

Lemma answers_Task_find f u : answers anything (Task.find f u).
Proof. unfold Task.find. answers_tac. Qed.

Lemma answers_Task_findOneAndUpdate i f u upd v :
  answers anything (Task.findOneAndUpdate i f u upd v).
Proof. unfold Task.findOneAndUpdate, Task.validate. answers_tac. Qed.

Lemma answers_Task_findOneAndDelete i f u :
  answers anything (Task.findOneAndDelete i f u).
Proof. unfold Task.findOneAndDelete. answers_tac. Qed.

Lemma answers_Task_deleteMany f u : answers anything (Task.deleteMany f u).
Proof. unfold Task.deleteMany. answers_tac. Qed.

Lemma answers_Task_updateMany f u s : answers anything (Task.updateMany f u s).
Proof. unfold Task.updateMany. answers_tac. Qed.

Lemma answers_Folder_create gen name user : answers anything (Folder.create gen name user).
Proof. unfold Folder.create. answers_tac. Qed.

Lemma answers_Folder_findOne i u : answers anything (Folder.findOne i u).
Proof. unfold Folder.findOne. answers_tac. Qed.

Lemma answers_Folder_find u : answers anything (Folder.find u).
Proof. unfold Folder.find. answers_tac. Qed.

Lemma answers_Folder_findOneAndUpdate i u n :
  answers anything (Folder.findOneAndUpdate i u n).
Proof. unfold Folder.findOneAndUpdate. answers_tac. Qed.

Lemma answers_Folder_updateById op i f : answers anything (Folder.updateById op i f).
Proof. unfold Folder.updateById. answers_tac. Qed.

Lemma answers_Folder_findOneAndDelete i u : answers anything (Folder.findOneAndDelete i u).
Proof. unfold Folder.findOneAndDelete. answers_tac. Qed.

Lemma answers_Folder_findOnePopulated i u : answers anything (Folder.findOnePopulated i u).
Proof.
  unfold Folder.findOnePopulated.
  apply answers_bind; [apply answers_Folder_findOne|]. intros [[j d]|]; answers_tac.
Qed.

Create HintDb mongoose.
#[local] Hint Resolve answers_Task_create answers_Task_findOne answers_Task_find
  answers_Task_findOneAndUpdate answers_Task_findOneAndDelete answers_Task_deleteMany
  answers_Task_updateMany answers_Folder_create answers_Folder_findOne answers_Folder_find
  answers_Folder_findOneAndUpdate answers_Folder_updateById answers_Folder_findOneAndDelete
  answers_Folder_findOnePopulated : mongoose.

Ltac handler_codes :=
  apply okCode_tryCatch; [|intros ?; unfold okCode; simpl; tauto];
  unfold when;
  repeat first
    [ solve [auto with mongoose]
    | apply answers_respond; simpl; tauto
    | apply answers_ret; exact I
    | apply answers_bind; [|intros ?]
    | match goal with
      | |- answers _ (if ?c then _ else _) => destruct c
      | |- answers _ (match ?x with _ => _ end) => destruct x
      | |- answers _ (let _ := _ in _) => cbv zeta
      end ].

(** Every answer of every route carries one of five status codes; none of
    them is 401 or 403. *)
Lemma route_status_codes gen u r db : okCode (fst (route gen u r db)).
Proof.
  destruct r; cbn [route].
  - unfold taskController.createTaskOrFolder. cbv zeta. handler_codes.
  - unfold taskController.getAllTasksAndFolders. handler_codes.
  - unfold taskController.getTasksByFolder. handler_codes.
  - unfold taskController.getAllTasksWithoutFolder. handler_codes.
  - unfold taskController.getTaskById. handler_codes.
  - unfold taskController.updateTaskStatus. handler_codes.
  - unfold taskController.deleteTaskOrFolder. cbv zeta. handler_codes.
  - unfold folderController.createFolder. handler_codes.
  - unfold folderController.getFolderById. cbv zeta. handler_codes.
  - unfold folderController.getTasksInFolder. cbv zeta. handler_codes.
  - unfold folderController.addTaskToFolder. cbv zeta. handler_codes.
  - unfold folderController.updateTaskInFolder. cbv zeta. handler_codes.
  - unfold folderController.updateTaskStatus. cbv zeta. handler_codes.
  - unfold folderController.deleteTaskInFolder. cbv zeta. handler_codes.
  - unfold folderController.resetProgress. cbv zeta. handler_codes.
  - unfold folderController.clearProgress. cbv zeta. handler_codes.
Qed.

(** ** Records of other users *)

Lemma ownedTask_ownView u i db : ownedTask u i (ownView u db) = ownedTask u i db.
Proof.
  unfold ownedTask, ownView. simpl.
  destruct (taskColl db !! i) as [t|] eqn:Ht.
  - destruct (Task.matchUser u t) eqn:Hu.
    + apply task_matchUser_true in Hu.
      rewrite (proj2 (map_lookup_filter_Some _ _ i t) (conj Ht Hu)).
      by rewrite (proj2 (task_matchUser_true u t) Hu).
    + apply task_matchUser_false in Hu.
      rewrite (proj2 (map_lookup_filter_None _ _ i)); [done|].
      right. intros t' Ht'. simplify_eq. exact Hu.
  - rewrite (proj2 (map_lookup_filter_None _ _ i)); [done|]. by left.
Qed.

Lemma ownedFolder_ownView u i db : ownedFolder u i (ownView u db) = ownedFolder u i db.
Proof.
  unfold ownedFolder, ownView. simpl.
  destruct (folderColl db !! i) as [f|] eqn:Hf.
  - destruct (Folder.matchUser u f) eqn:Hu.
    + apply folder_matchUser_true in Hu.
      rewrite (proj2 (map_lookup_filter_Some _ _ i f) (conj Hf Hu)).
      by rewrite (proj2 (folder_matchUser_true u f) Hu).
    + apply folder_matchUser_false in Hu.
      rewrite (proj2 (map_lookup_filter_None _ _ i)); [done|].
      right. intros f' Hf'. simplify_eq. exact Hu.
  - rewrite (proj2 (map_lookup_filter_None _ _ i)); [done|]. by left.
Qed.

(** The answer of [getTaskById] depends on the caller's records only. *)
Lemma getTaskById_own_view u raw db :
  fst (taskController.getTaskById u raw db)
  = fst (taskController.getTaskById u raw (ownView u db)).
Proof.
  destruct (castObjectId raw) as [i|] eqn:Hc.
  - rewrite !(getTaskById_response _ _ _ _ Hc).
    by rewrite ownedTask_ownView, ownedFolder_ownView.
  - by rewrite !(getTaskById_malformed _ _ _ Hc).
Qed.

(** C7: for every record owned by a user [u1] and every other user [u2],
    in a store with unique identifiers, [getTaskById] called by [u2] with
    the identifier of the record fails with [NotFoundError], with the very
    answer it gives for a well-formed identifier that names no record at
    all, and with the answer it gives when the records of the other users
    are taken away; and no route ever answers with a status code other than 200,
    201, 400, 404 and 500, so none answers 403. *)
Theorem getTaskById_hides_foreign_records (u1 u2 : ObjectId) (taskId : string)
    (i : ObjectId) (db : Db) :
  castObjectId taskId = Some i ->
  uniqueIds db ->
  u1 <> u2 ->
  (exists t, taskColl db !! i = Some t /\ task.user t = u1)
    \/ (exists f, folderColl db !! i = Some f /\ folder.user f = u1) ->
  let r := fst (taskController.getTaskById u2 taskId db) in
  NotFoundError r
  /\ r = notFound
  /\ (forall id' j db', castObjectId id' = Some j ->
        taskColl db' !! j = None -> folderColl db' !! j = None ->
        fst (taskController.getTaskById u2 id' db') = r)
  /\ r = fst (taskController.getTaskById u2 taskId (ownView u2 db))
  /\ (forall gen u req db',
        okCode (fst (route gen u req db')) /\ code (fst (route gen u req db')) <> 403).
Proof.
  intros Hc Huniq Hne Hrec r.
  assert (Hr : r = notFound).
  { subst r. rewrite (getTaskById_response _ _ _ _ Hc).
    assert (Ht : ownedTask u2 i db = None).
    { apply ownedTask_None. intros t Ht Hu.
      destruct Hrec as [[t' [Ht' Hu']]|[f [Hf _]]].
      - simplify_eq.
      - apply (Huniq i); eauto. }
    assert (Hf : ownedFolder u2 i db = None).
    { apply ownedFolder_None. intros f Hf Hu.
      destruct Hrec as [[t [Ht' _]]|[f' [Hf' Hu']]].
      - apply (Huniq i); eauto.
      - simplify_eq. }
    by rewrite Ht, Hf. }
  split_and!.
  - by rewrite Hr.
  - exact Hr.
  - intros id' j db' Hj Ht Hf. rewrite Hr, (getTaskById_response _ _ _ _ Hj).
    unfold ownedTask, ownedFolder. by rewrite Ht, Hf.
  - subst r. apply getTaskById_own_view.
  - intros gen u req db'. pose proof (route_status_codes gen u req db') as Hok.
    split; [exact Hok|]. unfold okCode, statusCodes in Hok. simpl in Hok.
    intros H403. rewrite H403 in Hok. intuition discriminate.
Qed.

Lemma getTaskById_hides_foreign_records_witness :
  let db := mkDb {[ 5%N := task.mk "report" None "Pending" None alice ]} ∅ [] in
  fst (taskController.getTaskById bob hex5 db) = notFound.
Proof.
  intros db.
  destruct (getTaskById_hides_foreign_records alice bob hex5
              5%N db) as (_ & Hr & _).
  - reflexivity.
  - intros j _ [f Hf]. simpl in Hf. rewrite lookup_empty in Hf. discriminate.
  - discriminate.
  - left. eexists. split; reflexivity.
  - exact Hr.
Defined.

(** ** Unique identifiers are an invariant *)

Lemma hoare_ret {A} (P : Db -> Prop) (a : A) Q E :
  (forall db, P db -> Q a db) -> hoare P (ret a) Q E.
Proof. intros H. constructor. intros db Hp. by apply H. Qed.

Lemma hoare_respond {A} (P : Db -> Prop) c b (Q : A -> Db -> Prop) (E : Db -> Prop) :
  (forall db, P db -> E db) -> hoare P (respond c b) Q E.
Proof. intros H. constructor. intros db Hp. by apply H. Qed.

Lemma hoare_bind {A B} (P : Db -> Prop) (m : Handler A) (k : A -> Handler B) Q' Q E :
  hoare P m Q' E -> (forall a, hoare (Q' a) (k a) Q E) -> hoare P (bind m k) Q E.
Proof.
  intros [Hm] Hk. constructor. intros db Hp. unfold bind. specialize (Hm db Hp).
  destruct (m db) as [[a|r|e] db']; [|done|done].
  destruct (Hk a) as [Hka]. by apply Hka.
Qed.

Lemma hoare_tryCatch (P E : Db -> Prop) body onError db :
  hoare P body (fun _ => E) E -> P db -> E (snd (tryCatch body onError db)).
Proof.
  intros [Hb] Hp. unfold tryCatch. specialize (Hb db Hp).
  by destruct (body db) as [[r|r|e] db'].
Qed.

(** The two state predicates: unique identifiers, alone and with a fresh
    generated identifier. Neither looks at the log of calls. *)
Lemma uniqueIds_insert_task db i d cs :
  uniqueIds db -> folderColl db !! i = None ->
  uniqueIds (mkDb (<[i := d]> (taskColl db)) (folderColl db) cs).
Proof.
  intros Hu Hf j [t Ht] [f Hj]. simpl in *.
  destruct (decide (i = j)) as [->|Hne]; [congruence|].
  rewrite lookup_insert_ne in Ht by done. apply (Hu j); eauto.
Qed.

Lemma uniqueIds_insert_folder db i d cs :
  uniqueIds db -> taskColl db !! i = None ->
  uniqueIds (mkDb (taskColl db) (<[i := d]> (folderColl db)) cs).
Proof.
  intros Hu Hf j [t Ht] [f Hj]. simpl in *.
  destruct (decide (i = j)) as [->|Hne]; [congruence|].
  rewrite lookup_insert_ne in Hj by done. apply (Hu j); eauto.
Qed.

Lemma uniqueIds_update_task db i d d' cs :
  uniqueIds db -> taskColl db !! i = Some d ->
  uniqueIds (mkDb (<[i := d']> (taskColl db)) (folderColl db) cs).
Proof.
  intros Hu Hi. apply uniqueIds_insert_task; [done|].
  destruct (folderColl db !! i) eqn:Hf; [|done]. exfalso. apply (Hu i); eauto.
Qed.

Lemma uniqueIds_update_folder db i d d' cs :
  uniqueIds db -> folderColl db !! i = Some d ->
  uniqueIds (mkDb (taskColl db) (<[i := d']> (folderColl db)) cs).
Proof.
  intros Hu Hi. apply uniqueIds_insert_folder; [done|].
  destruct (taskColl db !! i) eqn:Hf; [|done]. exfalso. apply (Hu i); eauto.
Qed.

(** Fewer documents keep the identifiers unique. *)
Lemma uniqueIds_subset db (ts : gmap N task.doc) (fs : gmap N folder.doc) cs :
  uniqueIds db ->
  (forall j, is_Some (ts !! j) -> is_Some (taskColl db !! j)) ->
  (forall j, is_Some (fs !! j) -> is_Some (folderColl db !! j)) ->
  uniqueIds (mkDb ts fs cs).
Proof. intros Hu Ht Hf j Hj Hj'. apply (Hu j); auto. Qed.

Lemma is_Some_filter {A} (P : N * A -> Prop) `{!forall x, Decision (P x)}
    (m : gmap N A) j :
  is_Some (filter P m !! j) -> is_Some (m !! j).
Proof. intros [x Hx]. apply map_lookup_filter_Some in Hx as [Hx _]. eauto. Qed.

Lemma is_Some_fmap {A} (f : A -> A) (m : gmap N A) j :
  is_Some ((f <$> m) !! j) -> is_Some (m !! j).
Proof. rewrite lookup_fmap. apply fmap_is_Some. Qed.

Lemma is_Some_delete {A} (m : gmap N A) i j :
  is_Some (delete i m !! j) -> is_Some (m !! j).
Proof.
  destruct (decide (i = j)) as [->|Hne].
  - rewrite lookup_delete_eq. by intros [? ?].
  - by rewrite lookup_delete_ne.
Qed.

Lemma is_Some_alter {A} (f : A -> A) (m : gmap N A) i j :
  is_Some (alter f i m !! j) -> is_Some (m !! j).
Proof.
  destruct (decide (i = j)) as [->|Hne].
  - rewrite lookup_alter_eq. apply fmap_is_Some.
  - by rewrite lookup_alter_ne.
Qed.

Ltac op_cases :=
  repeat (cbn -[truthy includes];
          match goal with
          | |- context [if ?c then _ else _] => destruct c eqn:?
          | |- context [match ?x with Some _ => _ | None => _ end] => destruct x eqn:?
          | |- context [match ?x with InvalidDate => _ | ValidDate _ => _ end] =>
              destruct x eqn:?
          | |- context [match ?x with OfString _ => _ | OfId _ => _ end] =>
              destruct x eqn:?
          | |- context [let (_, _) := ?x in _] => destruct x eqn:?
          end).

Ltac unique_leaf :=
  cbn;
  first
    [ assumption
    | eapply uniqueIds_update_task; eassumption
    | eapply uniqueIds_update_folder; eassumption
    | eapply uniqueIds_subset; [eassumption | |]; cbn; intros ?;
      first [ apply is_Some_filter | apply is_Some_fmap | apply is_Some_delete
            | apply is_Some_alter | exact id ] ].

Ltac unique_op :=
  constructor; intros db H; unfold_monad; op_cases; try exact H; try unique_leaf.

(** Every query keeps the identifiers unique, as long as it inserts no new
    document. *)
Lemma unique_Task_findOne i u :
  hoare uniqueIds (Task.findOne i u) (fun _ => uniqueIds) uniqueIds.
Proof. unfold Task.findOne. unique_op. Qed.

Lemma unique_Task_find f u :
  hoare uniqueIds (Task.find f u) (fun _ => uniqueIds) uniqueIds.
Proof. unfold Task.find. unique_op. Qed.

Lemma unique_Task_findOneAndUpdate i f u upd v :
  hoare uniqueIds (Task.findOneAndUpdate i f u upd v) (fun _ => uniqueIds) uniqueIds.
Proof. unfold Task.findOneAndUpdate, Task.validate. unique_op. Qed.

Lemma unique_Task_findOneAndDelete i f u :
  hoare uniqueIds (Task.findOneAndDelete i f u) (fun _ => uniqueIds) uniqueIds.
Proof. unfold Task.findOneAndDelete. unique_op. Qed.

Lemma unique_Task_deleteMany f u :
  hoare uniqueIds (Task.deleteMany f u) (fun _ => uniqueIds) uniqueIds.
Proof. unfold Task.deleteMany. unique_op. Qed.

Lemma unique_Task_updateMany f u s :
  hoare uniqueIds (Task.updateMany f u s) (fun _ => uniqueIds) uniqueIds.
Proof. unfold Task.updateMany. unique_op. Qed.

Lemma unique_Folder_findOne i u :
  hoare uniqueIds (Folder.findOne i u) (fun _ => uniqueIds) uniqueIds.
Proof. unfold Folder.findOne. unique_op. Qed.

Lemma unique_Folder_find u :
  hoare uniqueIds (Folder.find u) (fun _ => uniqueIds) uniqueIds.
Proof. unfold Folder.find. unique_op. Qed.

Lemma unique_Folder_findOneAndUpdate i u n :
  hoare uniqueIds (Folder.findOneAndUpdate i u n) (fun _ => uniqueIds) uniqueIds.
Proof. unfold Folder.findOneAndUpdate. unique_op. Qed.

Lemma unique_Folder_updateById op i f :
  hoare uniqueIds (Folder.updateById op i f) (fun _ => uniqueIds) uniqueIds.
Proof. unfold Folder.updateById. unique_op. Qed.

Lemma unique_Folder_findOneAndDelete i u :
  hoare uniqueIds (Folder.findOneAndDelete i u) (fun _ => uniqueIds) uniqueIds.
Proof. unfold Folder.findOneAndDelete. unique_op. Qed.

Lemma unique_Folder_findOnePopulated i u :
  hoare uniqueIds (Folder.findOnePopulated i u) (fun _ => uniqueIds) uniqueIds.
Proof. unfold Folder.findOnePopulated, Folder.findOne. unique_op. Qed.

Lemma unique_fresh_Folder_findOne gen i u :
  hoare (uniqueFresh gen) (Folder.findOne i u) (fun _ => uniqueFresh gen) uniqueIds.
Proof.
  unfold Folder.findOne. constructor. intros db [H Hf]. unfold_monad. op_cases;
    first [exact H | by split].
Qed.

Lemma unique_Task_create gen title dueDate status folder user :
  hoare (uniqueFresh gen) (Task.create gen title dueDate status folder user)
        (fun _ => uniqueIds) uniqueIds.
Proof.
  unfold Task.create, Task.validate. constructor. intros db [H [Ht Hf]].
  unfold_monad. op_cases;
    try exact H; cbn; by apply uniqueIds_insert_task.
Qed.

Lemma unique_Folder_create gen name user :
  hoare (uniqueFresh gen) (Folder.create gen name user) (fun _ => uniqueIds) uniqueIds.
Proof.
  unfold Folder.create. constructor. intros db [H [Ht Hf]]. unfold_monad. op_cases;
    try exact H; cbn; by apply uniqueIds_insert_folder.
Qed.

Lemma hoare_ret_same {A} (P E : Db -> Prop) (a : A) : hoare P (ret a) (fun _ => P) E.
Proof. by apply hoare_ret. Qed.

Lemma hoare_when_respond (P E : Db -> Prop) b c j :
  (forall db, P db -> E db) -> hoare P (when b (respond c j)) (fun _ => P) E.
Proof.
  intros H. unfold when. destruct b; [by apply hoare_respond | apply hoare_ret_same].
Qed.

Lemma uniqueFresh_unique gen db : uniqueFresh gen db -> uniqueIds db.
Proof. by intros [H _]. Qed.

Create HintDb unique.
#[local] Hint Resolve unique_Task_findOne unique_Task_find unique_Task_findOneAndUpdate
  unique_Task_findOneAndDelete unique_Task_deleteMany unique_Task_updateMany
  unique_Folder_findOne unique_Folder_find unique_Folder_findOneAndUpdate
  unique_Folder_updateById unique_Folder_findOneAndDelete unique_Folder_findOnePopulated
  unique_fresh_Folder_findOne unique_Task_create unique_Folder_create : unique.

Ltac hoare_exit :=
  intros ? ?; first [assumption | eapply uniqueFresh_unique; eassumption].

Ltac hoare_tac :=
  cbv beta zeta;
  first
    [ solve [eauto with unique]
    | apply hoare_when_respond; hoare_exit
    | apply hoare_respond; hoare_exit
    | apply hoare_ret_same
    | apply hoare_ret; hoare_exit
    | eapply hoare_bind; [solve [hoare_tac] | intros ?; hoare_tac]
    | match goal with
      | |- hoare _ (if ?c then _ else _) _ _ => destruct c; hoare_tac
      | |- hoare _ (match ?x with _ => _ end) _ _ => destruct x; hoare_tac
      end ].

(** Every route keeps the identifiers unique, provided the identifier
    generated for a new document is fresh. *)
Lemma route_uniqueIds gen u r db :
  uniqueIds db -> fresh gen db -> uniqueIds (snd (route gen u r db)).
Proof.
  intros Hu Hf. assert (Huf : uniqueFresh gen db) by (by split).
  destruct r; cbn [route].
  - unfold taskController.createTaskOrFolder. cbv zeta.
    apply (hoare_tryCatch (uniqueFresh gen)); [|exact Huf]. hoare_tac.
  - unfold taskController.getAllTasksAndFolders.
    apply (hoare_tryCatch uniqueIds); [|exact Hu]. hoare_tac.
  - unfold taskController.getTasksByFolder.
    apply (hoare_tryCatch uniqueIds); [|exact Hu]. hoare_tac.
  - unfold taskController.getAllTasksWithoutFolder.
    apply (hoare_tryCatch uniqueIds); [|exact Hu]. hoare_tac.
  - unfold taskController.getTaskById.
    apply (hoare_tryCatch uniqueIds); [|exact Hu]. hoare_tac.
  - unfold taskController.updateTaskStatus.
    apply (hoare_tryCatch uniqueIds); [|exact Hu]. hoare_tac.
  - unfold taskController.deleteTaskOrFolder. cbv zeta.
    apply (hoare_tryCatch uniqueIds); [|exact Hu]. hoare_tac.
  - unfold folderController.createFolder.
    apply (hoare_tryCatch (uniqueFresh gen)); [|exact Huf]. hoare_tac.
  - unfold folderController.getFolderById. cbv zeta.
    apply (hoare_tryCatch uniqueIds); [|exact Hu]. hoare_tac.
  - unfold folderController.getTasksInFolder. cbv zeta.
    apply (hoare_tryCatch uniqueIds); [|exact Hu]. hoare_tac.
  - unfold folderController.addTaskToFolder. cbv zeta.
    apply (hoare_tryCatch (uniqueFresh gen)); [|exact Huf]. hoare_tac.
  - unfold folderController.updateTaskInFolder. cbv zeta.
    apply (hoare_tryCatch uniqueIds); [|exact Hu]. hoare_tac.
  - unfold folderController.updateTaskStatus. cbv zeta.
    apply (hoare_tryCatch uniqueIds); [|exact Hu]. hoare_tac.
  - unfold folderController.deleteTaskInFolder. cbv zeta.
    apply (hoare_tryCatch uniqueIds); [|exact Hu]. hoare_tac.
  - unfold folderController.resetProgress. cbv zeta.
    apply (hoare_tryCatch uniqueIds); [|exact Hu]. hoare_tac.
  - unfold folderController.clearProgress. cbv zeta.
    apply (hoare_tryCatch uniqueIds); [|exact Hu]. hoare_tac.
Qed.

Lemma reachable_uniqueIds db : reachable db -> uniqueIds db.
Proof.
  induction 1 as [|gen u r db Hr IH Hf].
  - intros i [t Ht]. simpl in Ht. rewrite lookup_empty in Ht. discriminate.
  - by apply route_uniqueIds.
Qed.

(** ** More on [updateTaskStatus] and [createTaskOrFolder] *)

(** A malformed identifier with a valid patch reaches the query, whose
    cast fails. *)
Lemma updateTaskStatus_malformed u raw title db :
  castObjectId raw = None ->
  fst (taskController.updateTaskStatus u raw title (Some "Pending") db)
  = mkResponse 500 (JError "Server error while updating task or folder.").
Proof.
  intros Hc. unfold taskController.updateTaskStatus, Task.findOneAndUpdate.
  unfold_monad. destruct title; cbn -[truthy]; rewrite Hc; reflexivity.
Qed.

(** An empty [title] is stopped by the [required] validator of the schema,
    whatever the identifier names. *)
Lemma updateTaskStatus_empty_title u raw status db :
  status = None \/ status = Some "Pending" \/ status = Some "Completed" ->
  fst (taskController.updateTaskStatus u raw (Some "") status db)
  = mkResponse 500 (JError "Server error while updating task or folder.").
Proof.
  intros Hs. unfold taskController.updateTaskStatus, Task.findOneAndUpdate, Task.validate.
  unfold_monad.
  destruct Hs as [->|[->| ->]]; cbn; destruct (castObjectId raw); reflexivity.
Qed.

(** With the type ["folder"], and a title, the request creates a folder
    named by the title, and no task; the other fields are not looked at. *)
Lemma createTaskOrFolder_folder gen u b db :
  createBody.type b = Some "folder" ->
  truthy (createBody.title b) = true ->
  folderColl db !! gen = None ->
  let f := folder.mk (default "" (createBody.title b)) u [] in
  taskController.createTaskOrFolder gen u b db =
    (mkResponse 201 (JMessageFolder "Folder created successfully" (gen, f)),
     mkDb (taskColl db) (<[gen := f]> (folderColl db)) (Write Folders "create" :: calls db)).
Proof.
  intros Hty Ht Hg f. subst f.
  unfold taskController.createTaskOrFolder, Folder.create.
  rewrite Hty, Ht. unfold_monad. change (truthy (Some "folder")) with true.
  cbn. rewrite Hg. reflexivity.
Qed.

(** ** The scenario of the specification

    Alice creates a folder and a task in it: the task is [Pending]. She
    sets it to [Completed], deletes the folder with the type hint, and the
    task is gone; meanwhile Bob was told that the task does not exist. *)
Example scenario :
  let create b gen db := taskController.createTaskOrFolder gen alice b db in
  let db1 := snd (create (createBody.mk (Some "F") None None (Some "folder") None) 1%N emptyDb) in
  let r2 := create (createBody.mk (Some "T") None None (Some "task") (Some hex1)) 5%N db1 in
  let r3 := taskController.updateTaskStatus alice hex5 None (Some "Completed") (snd r2) in
  let r4 := taskController.getTaskById bob hex5 (snd r3) in
  let r5 := taskController.deleteTaskOrFolder alice (Some "folder") (Some hex1) (snd r4) in
  let r6 := taskController.getTaskById alice hex5 (snd r5) in
  let r7 := taskController.deleteTaskOrFolder alice (Some "folder") (Some hex1) (snd r6) in
  fst r2 = mkResponse 201 (JMessageTask "Task created successfully"
                             (5%N, task.mk "T" None "Pending" (Some 1%N) alice))
  /\ folderColl (snd r2) !! 1%N = Some (folder.mk "F" alice [5%N])
  /\ fst r3 = mkResponse 200 (JMessageTask "Task or folder updated."
                                (5%N, task.mk "T" None "Completed" (Some 1%N) alice))
  /\ fst r4 = notFound
  /\ fst r5 = mkResponse 200 (JMessage "Folder and its tasks deleted successfully.")
  /\ fst r6 = notFound
  /\ fst r7 = mkResponse 404 (JError "Folder not found.")
  /\ taskColl (snd r7) = ∅ /\ folderColl (snd r7) = ∅.
Proof. vm_compute. split_and!; reflexivity. Qed.

(** ** The records of other users, route by route *)

Section Foreign.

Variable u : ObjectId.
Variable db0 : Db.

Let P := foreignKept u db0.

Lemma foreignKept_calls db cs :
  P db -> P (mkDb (taskColl db) (folderColl db) cs).
Proof. by intros [Ht Hf]. Qed.

Lemma foreignKept_task_set db i d d' cs :
  P db -> taskColl db !! i = Some d -> Task.matchUser u d = true ->
  P (mkDb (<[i := d']> (taskColl db)) (folderColl db) cs).
Proof.
  intros [Ht Hf] Hi Hu. split; [|done]. simpl. intros j t Hj Hne.
  destruct (decide (i = j)) as [->|Hij].
  - apply Ht in Hj; [|done]. simplify_eq. by apply task_matchUser_true in Hu.
  - rewrite lookup_insert_ne by done. by apply Ht.
Qed.

Lemma foreignKept_task_delete db i d cs :
  P db -> taskColl db !! i = Some d -> Task.matchUser u d = true ->
  P (mkDb (delete i (taskColl db)) (folderColl db) cs).
Proof.
  intros [Ht Hf] Hi Hu. split; [|done]. simpl. intros j t Hj Hne.
  destruct (decide (i = j)) as [->|Hij].
  - apply Ht in Hj; [|done]. simplify_eq. by apply task_matchUser_true in Hu.
  - rewrite lookup_delete_ne by done. by apply Ht.
Qed.

Lemma foreignKept_task_new db i d cs :
  P db -> taskColl db !! i = None ->
  P (mkDb (<[i := d]> (taskColl db)) (folderColl db) cs).
Proof.
  intros [Ht Hf] Hi. split; [|done]. simpl. intros j t Hj Hne.
  destruct (decide (i = j)) as [->|Hij].
  - apply Ht in Hj; [|done]. congruence.
  - rewrite lookup_insert_ne by done. by apply Ht.
Qed.

Lemma foreignKept_folder_set db i d d' cs :
  P db -> folderColl db !! i = Some d -> Folder.matchUser u d = true ->
  P (mkDb (taskColl db) (<[i := d']> (folderColl db)) cs).
Proof.
  intros [Ht Hf] Hi Hu. split; [done|]. simpl. intros j f Hj Hne.
  destruct (decide (i = j)) as [->|Hij].
  - apply Hf in Hj; [|done]. simplify_eq. by apply folder_matchUser_true in Hu.
  - rewrite lookup_insert_ne by done. by apply Hf.
Qed.

Lemma foreignKept_folder_alter db i d g cs :
  P db -> folderColl db !! i = Some d -> Folder.matchUser u d = true ->
  P (mkDb (taskColl db) (alter g i (folderColl db)) cs).
Proof.
  intros [Ht Hf] Hi Hu. split; [done|]. simpl. intros j f Hj Hne.
  destruct (decide (i = j)) as [->|Hij].
  - apply Hf in Hj; [|done]. simplify_eq. by apply folder_matchUser_true in Hu.
  - rewrite lookup_alter_ne by done. by apply Hf.
Qed.

Lemma foreignKept_folder_delete db i d cs :
  P db -> folderColl db !! i = Some d -> Folder.matchUser u d = true ->
  P (mkDb (taskColl db) (delete i (folderColl db)) cs).
Proof.
  intros [Ht Hf] Hi Hu. split; [done|]. simpl. intros j f Hj Hne.
  destruct (decide (i = j)) as [->|Hij].
  - apply Hf in Hj; [|done]. simplify_eq. by apply folder_matchUser_true in Hu.
  - rewrite lookup_delete_ne by done. by apply Hf.
Qed.

Lemma foreignKept_folder_new db i d cs :
  P db -> folderColl db !! i = None ->
  P (mkDb (taskColl db) (<[i := d]> (folderColl db)) cs).
Proof.
  intros [Ht Hf] Hi. split; [done|]. simpl. intros j f Hj Hne.
  destruct (decide (i = j)) as [->|Hij].
  - apply Hf in Hj; [|done]. congruence.
  - rewrite lookup_insert_ne by done. by apply Hf.
Qed.

Lemma foreignKept_deleteMany db i cs :
  P db -> P (mkDb (keptTasks i u (taskColl db)) (folderColl db) cs).
Proof.
  intros [Ht Hf]. split; [|done]. simpl. intros j t Hj Hne.
  rewrite keptTasks_lookup, (Ht j t Hj Hne).
  apply task_matchUser_false in Hne. rewrite Hne. by rewrite andb_false_r.
Qed.

Lemma foreignKept_updateMany db i cs :
  P db -> P (mkDb (resetTasks i u (taskColl db)) (folderColl db) cs).
Proof.
  intros [Ht Hf]. split; [|done]. simpl. intros j t Hj Hne.
  rewrite resetTasks_lookup, (Ht j t Hj Hne). simpl.
  apply task_matchUser_false in Hne. rewrite Hne. by rewrite andb_false_r.
Qed.

End Foreign.

Ltac split_andb :=
  repeat match goal with
         | H : _ && _ = true |- _ => apply andb_true_iff in H as [? ?]
         end.

Ltac foreign_leaf :=
  cbn; split_andb;
  first
    [ assumption
    | apply foreignKept_calls; assumption
    | eapply foreignKept_task_set; eassumption
    | eapply foreignKept_task_delete; eassumption
    | eapply foreignKept_task_new; eassumption
    | eapply foreignKept_folder_set; eassumption
    | eapply foreignKept_folder_delete; eassumption
    | eapply foreignKept_folder_new; eassumption
    | apply foreignKept_deleteMany; assumption
    | apply foreignKept_updateMany; assumption ].

Ltac foreign_op :=
  constructor; intros db H; unfold_monad; op_cases; foreign_leaf.

Lemma foreign_Task_findOne u db0 i :
  hoare (foreignKept u db0) (Task.findOne i u) (fun _ => foreignKept u db0) (foreignKept u db0).
Proof. unfold Task.findOne. foreign_op. Qed.

Lemma foreign_Task_find u db0 f :
  hoare (foreignKept u db0) (Task.find f u) (fun _ => foreignKept u db0) (foreignKept u db0).
Proof. unfold Task.find. foreign_op. Qed.

Lemma foreign_Task_findOneAndUpdate u db0 i f upd v :
  hoare (foreignKept u db0) (Task.findOneAndUpdate i f u upd v)
        (fun _ => foreignKept u db0) (foreignKept u db0).
Proof. unfold Task.findOneAndUpdate, Task.validate. foreign_op. Qed.

Lemma foreign_Task_findOneAndDelete u db0 i f :
  hoare (foreignKept u db0) (Task.findOneAndDelete i f u)
        (fun _ => foreignKept u db0) (foreignKept u db0).
Proof. unfold Task.findOneAndDelete. foreign_op. Qed.

Lemma foreign_Task_deleteMany u db0 f :
  hoare (foreignKept u db0) (Task.deleteMany f u)
        (fun _ => foreignKept u db0) (foreignKept u db0).
Proof. unfold Task.deleteMany. foreign_op. Qed.

Lemma foreign_Task_updateMany u db0 f :
  hoare (foreignKept u db0) (Task.updateMany f u "Pending")
        (fun _ => foreignKept u db0) (foreignKept u db0).
Proof. unfold Task.updateMany. foreign_op. Qed.

Lemma foreign_Task_create u db0 gen title dueDate status folder user :
  hoare (foreignKept u db0) (Task.create gen title dueDate status folder user)
        (fun _ => foreignKept u db0) (foreignKept u db0).
Proof. unfold Task.create, Task.validate. foreign_op. Qed.

Lemma foreign_Folder_create u db0 gen name user :
  hoare (foreignKept u db0) (Folder.create gen name user)
        (fun _ => foreignKept u db0) (foreignKept u db0).
Proof. unfold Folder.create. foreign_op. Qed.

Lemma foreign_Folder_findOne u db0 i :
  hoare (foreignKept u db0) (Folder.findOne i u)
        (fun _ => foreignKept u db0) (foreignKept u db0).
Proof. unfold Folder.findOne. foreign_op. Qed.

Lemma foreign_Folder_find u db0 :
  hoare (foreignKept u db0) (Folder.find u) (fun _ => foreignKept u db0) (foreignKept u db0).
Proof. unfold Folder.find. foreign_op. Qed.

Lemma foreign_Folder_findOneAndUpdate u db0 i n :
  hoare (foreignKept u db0) (Folder.findOneAndUpdate i u n)
        (fun _ => foreignKept u db0) (foreignKept u db0).
Proof. unfold Folder.findOneAndUpdate. foreign_op. Qed.

Lemma foreign_Folder_findOneAndDelete u db0 i :
  hoare (foreignKept u db0) (Folder.findOneAndDelete i u)
        (fun _ => foreignKept u db0) (foreignKept u db0).
Proof. unfold Folder.findOneAndDelete. foreign_op. Qed.

Lemma foreign_Folder_findOnePopulated u db0 i :
  hoare (foreignKept u db0) (Folder.findOnePopulated i u)
        (fun _ => foreignKept u db0) (foreignKept u db0).
Proof. unfold Folder.findOnePopulated, Folder.findOne. foreign_op. Qed.

Create HintDb foreign.
#[local] Hint Resolve foreign_Task_findOne foreign_Task_find foreign_Task_findOneAndUpdate
  foreign_Task_findOneAndDelete foreign_Task_deleteMany foreign_Task_updateMany
  foreign_Task_create foreign_Folder_create foreign_Folder_findOne foreign_Folder_find
  foreign_Folder_findOneAndUpdate foreign_Folder_findOneAndDelete
  foreign_Folder_findOnePopulated : foreign.

Ltac foreign_tac :=
  cbv beta zeta;
  first
    [ solve [eauto with foreign]
    | apply hoare_when_respond; intros ? ?; assumption
    | apply hoare_respond; intros ? ?; assumption
    | apply hoare_ret_same
    | apply hoare_ret; intros ? ?; assumption
    | eapply hoare_bind; [solve [foreign_tac] | intros ?; foreign_tac]
    | match goal with
      | |- hoare _ (if ?c then _ else _) _ _ => destruct c; foreign_tac
      | |- hoare _ (match ?x with _ => _ end) _ _ => destruct x; foreign_tac
      end ].

(** The folder found by [{ _id, user: u }] is owned by [u]. *)
Lemma owned_Folder_findOne u db0 raw :
  hoare (foreignKept u db0) (Folder.findOne raw u)
        (fun found db => foreignKept u db0 db
                         /\ forall i d, found = Some (i, d) -> ownsFolder u i db)
        (foreignKept u db0).
Proof.
  unfold Folder.findOne. constructor. intros db H. unfold_monad. op_cases;
    try (by apply foreignKept_calls).
  all: split; [by apply foreignKept_calls|]; intros j fd Heq; simplify_eq.
  eexists. split; eassumption.
Qed.

Lemma owned_Task_create u db0 i gen title dueDate status folder user :
  hoare (fun db => foreignKept u db0 db /\ ownsFolder u i db)
        (Task.create gen title dueDate status folder user)
        (fun _ db => foreignKept u db0 db /\ ownsFolder u i db)
        (foreignKept u db0).
Proof.
  unfold Task.create, Task.validate. constructor. intros db [H Ho].
  unfold_monad. op_cases; try foreign_leaf.
  all: split; [foreign_leaf | exact Ho].
Qed.

Lemma owned_Folder_updateById u db0 i op g :
  hoare (fun db => foreignKept u db0 db /\ ownsFolder u i db)
        (Folder.updateById op (OfId i) g)
        (fun _ => foreignKept u db0) (foreignKept u db0).
Proof.
  unfold Folder.updateById. constructor. intros db [H [d [Hd Hu]]].
  unfold_monad. cbn. eapply foreignKept_folder_alter; eassumption.
Qed.

Lemma foreign_addTaskToFolder u db0 gen folderId title dueDate db :
  foreignKept u db0 db ->
  foreignKept u db0 (snd (folderController.addTaskToFolder gen u folderId title dueDate db)).
Proof.
  intros H. unfold folderController.addTaskToFolder. cbv zeta.
  apply (hoare_tryCatch (foreignKept u db0)); [|exact H].
  eapply hoare_bind; [solve [foreign_tac] | intros ?; cbv beta].
  eapply hoare_bind; [apply owned_Folder_findOne | intros [[fid d]|]]; cbv beta.
  - eapply hoare_bind.
    + constructor. intros db1 [H1 Ho]. specialize (Ho fid d eq_refl).
      destruct (owned_Task_create u db0 fid gen title dueDate None (Some (OfId fid)) u)
        as [Hc].
      apply (Hc db1). by split.
    + intros task. cbv beta.
      eapply hoare_bind; [apply owned_Folder_updateById | intros ?; cbv beta].
      apply hoare_respond. intros ? ?; assumption.
  - apply hoare_respond. by intros db1 [H1 _].
Qed.

Lemma foreignKept_task_new_folder_alter u db0 db gen t i fd g cs :
  foreignKept u db0 db -> taskColl db !! gen = None ->
  folderColl db !! i = Some fd -> Folder.matchUser u fd = true ->
  foreignKept u db0 (mkDb (<[gen := t]> (taskColl db)) (alter g i (folderColl db)) cs).
Proof.
  intros H Hg Hfd Hu.
  refine (foreignKept_folder_alter u db0
            (mkDb (<[gen := t]> (taskColl db)) (folderColl db) (calls db)) i fd g cs
            _ Hfd Hu).
  by apply foreignKept_task_new.
Qed.

Lemma foreign_createTaskOrFolder u db0 gen b db :
  foreignKept u db0 db ->
  foreignKept u db0 (snd (taskController.createTaskOrFolder gen u b db)).
Proof.
  intros H.
  destruct (strictEq (createBody.type b) "folder") eqn:Hty.
  - unfold taskController.createTaskOrFolder. cbv zeta. rewrite Hty.
    apply (hoare_tryCatch (foreignKept u db0)); [|exact H]. foreign_tac.
  - destruct (negb (truthy (createBody.title b)) || negb (truthy (createBody.type b)))
      eqn:H1.
    { by rewrite (createTask_required _ _ _ _ H1). }
    destruct (truthy (createBody.status b)
              && negb (includes taskController.allowedStatus
                         (default "" (createBody.status b)))) eqn:H3.
    { by rewrite (createTask_invalid_status _ _ _ _ H1 Hty H3). }
    destruct (createBody.dueDate b) as [[|ms]|] eqn:H4.
    { by rewrite (createTask_invalid_date _ _ _ _ H1 Hty H3 H4). }
    all: rewrite (createTask_run _ _ _ _ H1 Hty H3) by (rewrite H4; discriminate);
      cbv zeta;
      (destruct (truthy (createBody.folder b));
       [ destruct (castObjectId _) as [i|]; [|done];
         destruct (ownedFolder u i db) as [fd|] eqn:Ho;
           [|by apply foreignKept_calls];
         apply ownedFolder_Some in Ho as [Hfd Hu];
         apply folder_matchUser_true in Hu
       | ];
       (destruct (storable _ _ _) eqn:Hs; [|by apply foreignKept_calls]);
       unfold storable in Hs; apply andb_true_iff in Hs as [_ Hg];
       apply bool_decide_eq_true in Hg; simpl).
    + eapply foreignKept_task_new_folder_alter; eassumption.
    + by apply foreignKept_task_new.
    + eapply foreignKept_task_new_folder_alter; eassumption.
    + by apply foreignKept_task_new.
Qed.

Lemma foreignKept_refl u db : foreignKept u db db.
Proof. by split. Qed.

(** Apart from the two routes that update a folder without a filter on
    its owner, a route called by [u] leaves every task and every folder of
    another user as it was. *)
Lemma route_foreign_records gen u r db :
  unfiltered r = false ->
  (forall j t, taskColl db !! j = Some t -> task.user t <> u ->
     taskColl (snd (route gen u r db)) !! j = Some t)
  /\ (forall j f, folderColl db !! j = Some f -> folder.user f <> u ->
        folderColl (snd (route gen u r db)) !! j = Some f).
Proof.
  intros Hr. change (foreignKept u db (snd (route gen u r db))).
  pose proof (foreignKept_refl u db) as H.
  destruct r; try discriminate; cbn [route].
  - by apply foreign_createTaskOrFolder.
  - unfold taskController.getAllTasksAndFolders.
    apply (hoare_tryCatch (foreignKept u db)); [|exact H]. foreign_tac.
  - unfold taskController.getTasksByFolder.
    apply (hoare_tryCatch (foreignKept u db)); [|exact H]. foreign_tac.
  - unfold taskController.getAllTasksWithoutFolder.
    apply (hoare_tryCatch (foreignKept u db)); [|exact H]. foreign_tac.
  - unfold taskController.getTaskById.
    apply (hoare_tryCatch (foreignKept u db)); [|exact H]. foreign_tac.
  - unfold taskController.updateTaskStatus.
    apply (hoare_tryCatch (foreignKept u db)); [|exact H]. foreign_tac.
  - unfold taskController.deleteTaskOrFolder. cbv zeta.
    apply (hoare_tryCatch (foreignKept u db)); [|exact H]. foreign_tac.
  - unfold folderController.createFolder.
    apply (hoare_tryCatch (foreignKept u db)); [|exact H]. foreign_tac.
  - unfold folderController.getFolderById. cbv zeta.
    apply (hoare_tryCatch (foreignKept u db)); [|exact H]. foreign_tac.
  - unfold folderController.getTasksInFolder. cbv zeta.
    apply (hoare_tryCatch (foreignKept u db)); [|exact H]. foreign_tac.
  - by apply foreign_addTaskToFolder.
  - unfold folderController.updateTaskInFolder. cbv zeta.
    apply (hoare_tryCatch (foreignKept u db)); [|exact H]. foreign_tac.
  - unfold folderController.updateTaskStatus. cbv zeta.
    apply (hoare_tryCatch (foreignKept u db)); [|exact H]. foreign_tac.
  - unfold folderController.resetProgress. cbv zeta.
    apply (hoare_tryCatch (foreignKept u db)); [|exact H]. foreign_tac.
Qed.

(** [deleteTaskInFolder] in a reachable store: once Alice has handed her
    task over to Bob, Bob's deletion of the task rewrites the list of
    Alice's folder. *)
Example deleteTaskInFolder_pulls_from_foreign_folder :
  castObjectId hexBob = Some bob
  /\ taskColl handedOverDb !! 5%N = Some (task.mk "report" None "Pending" (Some 1%N) bob)
  /\ folderColl handedOverDb !! 1%N = Some (folder.mk "Work" alice [5%N])
  /\ fst (route 0%N bob (DeleteFolderTask hex1 hex5) handedOverDb)
     = mkResponse 200 (JMessage "Task deleted")
  /\ folderColl (snd (route 0%N bob (DeleteFolderTask hex1 hex5) handedOverDb)) !! 1%N
     = Some (folder.mk "Work" alice []).
Proof. split_and!; vm_compute; reflexivity. Qed.

Lemma aliceDb_reachable : reachable aliceDb.
Proof.
  unfold aliceDb. apply reachable_route.
  - apply reachable_route; [apply reachable_empty | by split].
  - split; vm_compute; reflexivity.
Qed.

(** ** [deleteTaskOrFolder], its three shapes *)

Lemma deleteTask_run u id i db :
  castObjectId id = Some i ->
  taskController.deleteTaskOrFolder u (Some "task") (Some id) db =
    let c := Write Tasks "findOneAndDelete" :: calls db in
    match ownedTask u i db with
    | Some _ =>
        (mkResponse 200 (JMessage "Task deleted successfully."),
         mkDb (delete i (taskColl db)) (folderColl db) c)
    | None =>
        (mkResponse 404 (JError "Task not found."), mkDb (taskColl db) (folderColl db) c)
    end.
Proof.
  intros Hc. pose proof (castObjectId_truthy _ _ Hc) as Ht.
  unfold taskController.deleteTaskOrFolder, Task.findOneAndDelete, ownedTask.
  simpl. rewrite Ht. unfold_handler. rewrite Ht, Hc. simpl.
  destruct (taskColl db !! i) as [t|]; simpl; [|done].
  unfold Task.matchOptFolder. rewrite andb_true_r. by destruct (Task.matchUser u t).
Qed.

Lemma deleteUntyped_run u ty id i db :
  castObjectId id = Some i ->
  strictEq ty "task" = false ->
  strictEq ty "folder" = false ->
  taskController.deleteTaskOrFolder u ty (Some id) db =
    let c1 := Write Tasks "findOneAndDelete" :: calls db in
    let c2 := Write Folders "findOneAndDelete" :: c1 in
    match ownedTask u i db with
    | Some _ =>
        (mkResponse 200 (JMessage "Task deleted successfully."),
         mkDb (delete i (taskColl db)) (folderColl db) c1)
    | None =>
        match ownedFolder u i db with
        | Some _ =>
            (mkResponse 200 (JMessage "Folder and its tasks deleted successfully."),
             mkDb (keptTasks i u (taskColl db)) (delete i (folderColl db))
                  (Write Tasks "deleteMany" :: c2))
        | None =>
            (mkResponse 404 (JError "Task or folder not found."),
             mkDb (taskColl db) (folderColl db) c2)
        end
    end.
Proof.
  intros Hc Hty1 Hty2. pose proof (castObjectId_truthy _ _ Hc) as Ht.
  unfold taskController.deleteTaskOrFolder, Task.findOneAndDelete, Task.deleteMany,
    Folder.findOneAndDelete, ownedTask, ownedFolder, keptTasks.
  rewrite Ht. cbn -[truthy strictEq]. rewrite Hty1, Hty2.
  unfold_monad. cbn -[truthy strictEq]. rewrite Ht, Hc. cbn.
  destruct (taskColl db !! i) as [t|]; cbn.
  - unfold Task.matchOptFolder. rewrite andb_true_r.
    destruct (Task.matchUser u t); cbn; [done|].
    destruct (folderColl db !! i) as [f|]; cbn; [|done].
    destruct (Folder.matchUser u f); cbn; [|done]. by rewrite ?Hc.
  - destruct (folderColl db !! i) as [f|]; cbn; [|done].
    destruct (Folder.matchUser u f); cbn; [|done]. by rewrite ?Hc.
Qed.

Lemma keptTasks_idempotent i u m : keptTasks i u (keptTasks i u m) = keptTasks i u m.
Proof.
  apply map_eq. intros j. rewrite !keptTasks_lookup.
  destruct (m !! j) as [t|]; [|done].
  destruct (Task.matchFolder i t && Task.matchUser u t) eqn:Hm; [done|]. by rewrite Hm.
Qed.

Lemma aliceDb_uniqueIds : uniqueIds aliceDb.
Proof. apply reachable_uniqueIds, aliceDb_reachable. Qed.

Lemma strictEq_true ty s : strictEq ty s = true -> ty = Some s.
Proof.
  destruct ty as [x|]; simpl; [|discriminate]. intros H. by apply String.eqb_eq in H as ->.
Qed.

(** X1: without a type hint, [deleteTaskOrFolder] deletes the caller's task
    with the given identifier when there is one, exactly as with the hint
    ["task"], and leaves every folder as it is; otherwise it deletes the
    caller's folder with that identifier and the caller's tasks filed under
    it, with the answer and the collections of the hint ["folder"]; and
    when the caller owns neither, it answers 404 and changes nothing. *)
Theorem deleteTaskOrFolder_untyped (userId : ObjectId) (id : string) (i : ObjectId) (db : Db) :
  castObjectId id = Some i ->
  let r := taskController.deleteTaskOrFolder userId None (Some id) db in
  let rt := taskController.deleteTaskOrFolder userId (Some "task") (Some id) db in
  let rf := taskController.deleteTaskOrFolder userId (Some "folder") (Some id) db in
  (is_Some (ownedTask userId i db) ->
     r = rt /\ fst r = mkResponse 200 (JMessage "Task deleted successfully.")
     /\ taskColl (snd r) = delete i (taskColl db) /\ folderColl (snd r) = folderColl db)
  /\ (ownedTask userId i db = None -> is_Some (ownedFolder userId i db) ->
        fst r = fst rf /\ sameColls (snd rf) (snd r)
        /\ folderColl (snd r) = delete i (folderColl db))
  /\ (ownedTask userId i db = None -> ownedFolder userId i db = None ->
        NotFoundError (fst r) /\ sameColls db (snd r)).
Proof.
  intros Hc r rt rf. subst r rt rf.
  rewrite (deleteUntyped_run _ None _ _ _ Hc eq_refl eq_refl).
  rewrite (deleteTask_run _ _ _ _ Hc), (deleteFolder_run _ _ _ _ Hc). cbv zeta.
  split_and!.
  - intros [t Ht]. by rewrite Ht.
  - intros Ht [f Hf]. rewrite Ht.
    assert (Hf' := Hf). apply ownedFolder_Some in Hf' as [Hl Hu].
    apply folder_matchUser_true in Hu. rewrite Hf, Hl, Hu. by repeat split.
  - intros Ht Hf. rewrite Ht, Hf. by repeat split.
Qed.

Lemma deleteTaskOrFolder_untyped_witness :
  folderColl (snd (taskController.deleteTaskOrFolder alice None (Some hex5) aliceDb))
  = folderColl aliceDb.
Proof.
  destruct (deleteTaskOrFolder_untyped alice hex5 5%N aliceDb eq_refl) as [Htask _].
  apply Htask. by eexists.
Defined.

(** X2: the shapes of the parameters of [deleteTaskOrFolder]. A type hint
    other than ["task"] and ["folder"] is ignored: the request is handled
    as one without a hint. A lone parameter is taken for the identifier
    when it is a valid ObjectId, and otherwise the request is rejected for
    its missing identifier, nothing being looked up; so a hint that comes
    alone is rejected. *)
Theorem deleteTaskOrFolder_parameters (userId : ObjectId) (ty id x : string) (db : Db) :
  ty <> "task" ->
  ty <> "folder" ->
  id <> "" ->
  taskController.deleteTaskOrFolder userId (Some ty) (Some id) db
    = taskController.deleteTaskOrFolder userId None (Some id) db
  /\ taskController.deleteTaskOrFolder userId (Some x) None db
     = (if isValidObjectId x
        then taskController.deleteTaskOrFolder userId None (Some x) db
        else (mkResponse 400 (JError "Missing id parameter."), db))
  /\ taskController.deleteTaskOrFolder userId (Some "folder") None db
     = (mkResponse 400 (JError "Missing id parameter."), db).
Proof.
  intros Hty1 Hty2 Hid. pose proof (truthy_nonempty _ Hid) as Ht.
  split_and!.
  - unfold taskController.deleteTaskOrFolder. rewrite Ht.
    cbn -[truthy strictEq]. by rewrite (strictEq_ne _ _ Hty1), (strictEq_ne _ _ Hty2).
  - unfold taskController.deleteTaskOrFolder, isValidObjectId.
    change (default "" (Some x)) with x.
    destruct (castObjectId x) as [j|] eqn:Hc.
    + rewrite (castObjectId_truthy _ _ Hc). change (truthy None) with false.
      cbn -[truthy strictEq]. rewrite ?(castObjectId_truthy _ _ Hc). reflexivity.
    + change (truthy None) with false. cbn -[truthy strictEq].
      destruct (truthy (Some x)); reflexivity.
  - reflexivity.
Qed.

Lemma deleteTaskOrFolder_parameters_witness :
  taskController.deleteTaskOrFolder alice (Some "note") (Some hex5) emptyDb
  = taskController.deleteTaskOrFolder alice None (Some hex5) emptyDb.
Proof.
  destruct (deleteTaskOrFolder_parameters alice "note" hex5 hex5 emptyDb) as [H _];
    [discriminate | discriminate | discriminate | exact H].
Defined.

(** X3: deleting twice. When a call of [deleteTaskOrFolder] with a
    well-formed identifier succeeds, in a store with unique identifiers,
    the same call made again answers 404 and changes nothing, whatever the
    type hint. *)
Theorem deleteTaskOrFolder_twice (userId : ObjectId) (ty : option string) (id : string)
    (i : ObjectId) (db : Db) :
  castObjectId id = Some i ->
  uniqueIds db ->
  let r1 := taskController.deleteTaskOrFolder userId ty (Some id) db in
  let r2 := taskController.deleteTaskOrFolder userId ty (Some id) (snd r1) in
  code (fst r1) = 200 ->
  NotFoundError (fst r2) /\ sameColls (snd r1) (snd r2).
Proof.
  intros Hc Hu r1 r2. subst r1 r2. unfold NotFoundError, sameColls.
  assert (Hgone : forall cs, ownedTask userId i
            (mkDb (delete i (taskColl db)) (folderColl db) cs) = None).
  { intros cs. unfold ownedTask. simpl. by rewrite lookup_delete_eq. }
  assert (Hkept : forall fs cs, ownedTask userId i db = None ->
            ownedTask userId i (mkDb (keptTasks i userId (taskColl db)) fs cs) = None).
  { intros fs cs Ho. unfold ownedTask in *. simpl. rewrite keptTasks_lookup.
    destruct (taskColl db !! i) as [t|]; [|done].
    destruct (Task.matchUser userId t) eqn:E; [discriminate|]. rewrite andb_false_r.
    by rewrite E. }
  destruct (strictEq ty "task") eqn:Hty1.
  { apply strictEq_true in Hty1 as ->.
    rewrite !(deleteTask_run _ _ _ _ Hc). cbv zeta.
    destruct (ownedTask userId i db) as [t|] eqn:Ht; simpl; [|discriminate].
    intros _. by rewrite Hgone. }
  destruct (strictEq ty "folder") eqn:Hty2.
  { apply strictEq_true in Hty2 as ->.
    rewrite !(deleteFolder_run _ _ _ _ Hc). cbv zeta.
    destruct (folderColl db !! i) as [f|] eqn:Hf;
      [destruct (Folder.matchUser userId f)|]; simpl; try discriminate.
    intros _. rewrite lookup_delete_eq. simpl. by rewrite keptTasks_idempotent. }
  rewrite !(deleteUntyped_run _ _ _ _ _ Hc Hty1 Hty2). cbv zeta.
  destruct (ownedTask userId i db) as [t|] eqn:Ht; simpl.
  - intros _. rewrite Hgone.
    assert (Hf : ownedFolder userId i db = None).
    { apply ownedFolder_None. intros f Hf _.
      apply ownedTask_Some in Ht as [Ht _]. apply (Hu i); eauto. }
    unfold ownedFolder in *. simpl. by rewrite Hf.
  - destruct (ownedFolder userId i db) as [f|] eqn:Hf; simpl; [|discriminate].
    intros _. rewrite (Hkept _ _ eq_refl). unfold ownedFolder. simpl.
    by rewrite lookup_delete_eq.
Qed.

Lemma deleteTaskOrFolder_twice_witness :
  NotFoundError
    (fst (taskController.deleteTaskOrFolder alice None (Some hex5)
            (snd (taskController.deleteTaskOrFolder alice None (Some hex5) aliceDb)))).
Proof.
  destruct (deleteTaskOrFolder_twice alice None hex5 5%N aliceDb) as [H _].
  - reflexivity.
  - exact aliceDb_uniqueIds.
  - reflexivity.
  - exact H.
Defined.

(** ** The listings *)

Lemma hexDigit_not_space c d : hexDigit c = Some d -> isSpace c = false.
Proof.
  destruct c as [[] [] [] [] [] [] [] []]; vm_compute; intros; congruence.
Qed.

Lemma parseHex_trim s acc n :
  parseHex s acc = Some n -> trimStart s = s /\ trimEnd s = s.
Proof.
  revert acc. induction s as [|c s IH]; intros acc; simpl; [done|].
  destruct (hexDigit c) as [d|] eqn:Hd; [|discriminate].
  intros Hp. apply hexDigit_not_space in Hd. rewrite Hd.
  destruct (IH _ Hp) as [_ ->]. split; [done|]. by destruct s.
Qed.

(** A well-formed identifier has no white space around it. *)
Lemma castObjectId_sanitize s i :
  castObjectId s = Some i -> folderController.sanitize s = s.
Proof.
  unfold castObjectId, folderController.sanitize, trim.
  destruct (String.length s =? 24)%nat; [|discriminate].
  intros Hp. destruct (parseHex_trim _ _ _ Hp) as [-> ->]. reflexivity.
Qed.

Lemma getTasksByFolder_run u raw i db :
  castObjectId raw = Some i ->
  taskController.getTasksByFolder u raw db =
    (mkResponse 200
       (JTasks (map_to_list
                  (filter (fun kv => Task.matchUser u kv.2 && Task.matchFolder i kv.2 = true)
                          (taskColl db)))),
     mkDb (taskColl db) (folderColl db) (Read Tasks "find" :: calls db)).
Proof.
  intros Hc. unfold taskController.getTasksByFolder, Task.find. unfold_handler.
  rewrite Hc. reflexivity.
Qed.

Lemma getTasksInFolder_run u raw i db :
  castObjectId (folderController.sanitize raw) = Some i ->
  folderController.getTasksInFolder u raw db =
    (mkResponse 200
       (JTasks (map_to_list
                  (filter (fun kv => Task.matchUser u kv.2 && Task.matchFolder i kv.2 = true)
                          (taskColl db)))),
     mkDb (taskColl db) (folderColl db) (Read Tasks "find" :: calls db)).
Proof.
  intros Hc. unfold folderController.getTasksInFolder, Task.find. cbv zeta.
  rewrite isValidId_sanitize, (castObjectId_valid _ _ Hc). unfold_handler.
  rewrite Hc. reflexivity.
Qed.

Lemma elem_of_tasks_by_folder u i (m : gmap N task.doc) j t :
  (j, t) ∈ map_to_list
             (filter (fun kv => Task.matchUser u kv.2 && Task.matchFolder i kv.2 = true) m)
  <-> m !! j = Some t /\ task.user t = u /\ task.folder t = Some i.
Proof.
  rewrite elem_of_map_to_list, map_lookup_filter_Some. simpl.
  rewrite andb_true_iff, task_matchUser_true, task_matchFolder_true. tauto.
Qed.

Lemma getAllTasksAndFolders_own_tasks u db j t :
  (j, t) ∈ listed (fst (taskController.getAllTasksAndFolders u db))
  <-> taskColl db !! j = Some t /\ task.user t = u.
Proof.
  unfold taskController.getAllTasksAndFolders, Task.find, Folder.find.
  unfold_handler. unfold listed. simpl.
  rewrite elem_of_map_to_list, map_lookup_filter_Some. simpl.
  by rewrite task_matchUser_true.
Qed.

(** X4: [getAllTasksAndFolders] answers 200 with exactly the tasks and the
    folders of the caller, each once, and changes neither collection. *)
Theorem getAllTasksAndFolders_own (userId : ObjectId) (db : Db) :
  let r := taskController.getAllTasksAndFolders userId db in
  code (fst r) = 200
  /\ sameColls db (snd r)
  /\ (forall j t, (j, t) ∈ listed (fst r)
                  <-> taskColl db !! j = Some t /\ task.user t = userId)
  /\ (forall j f, (j, f) ∈ listedFolders (fst r)
                  <-> folderColl db !! j = Some f /\ folder.user f = userId)
  /\ NoDup (listed (fst r)).*1
  /\ NoDup (listedFolders (fst r)).*1.
Proof.
  intros r. subst r. unfold taskController.getAllTasksAndFolders, Task.find, Folder.find.
  unfold_handler. unfold listed, listedFolders, sameColls. simpl.
  split_and!; try done.
  - intros j t. rewrite elem_of_map_to_list, map_lookup_filter_Some. simpl.
    by rewrite task_matchUser_true.
  - intros j f. rewrite elem_of_map_to_list, map_lookup_filter_Some. simpl.
    by rewrite folder_matchUser_true.
  - apply NoDup_fst_map_to_list.
  - apply NoDup_fst_map_to_list.
Qed.

(** X5: the two routes that list the tasks of a folder. For a well-formed
    folder identifier, [getTasksByFolder] of the task controller and
    [getTasksInFolder] of the folder controller give the same answer: the
    caller's tasks whose [folder] is that identifier, whether or not such a
    folder exists. *)
Theorem tasks_of_folder_agree (userId : ObjectId) (folderId : string) (i : ObjectId)
    (db : Db) :
  castObjectId folderId = Some i ->
  let r := taskController.getTasksByFolder userId folderId db in
  folderController.getTasksInFolder userId folderId db = r
  /\ code (fst r) = 200
  /\ sameColls db (snd r)
  /\ (forall j t, (j, t) ∈ listed (fst r)
                  <-> taskColl db !! j = Some t /\ task.user t = userId
                      /\ task.folder t = Some i).
Proof.
  intros Hc r. subst r.
  rewrite (getTasksByFolder_run _ _ _ _ Hc).
  rewrite (getTasksInFolder_run _ _ i) by (by rewrite (castObjectId_sanitize _ _ Hc)).
  unfold listed, sameColls. simpl. split_and!; try done.
  intros j t. apply elem_of_tasks_by_folder.
Qed.

Lemma tasks_of_folder_agree_witness :
  folderController.getTasksInFolder alice hex1 aliceDb
  = taskController.getTasksByFolder alice hex1 aliceDb.
Proof.
  destruct (tasks_of_folder_agree alice hex1 1%N aliceDb eq_refl) as [H _]. exact H.
Defined.



(** X7: the listings of a user fit together. The tasks [getAllTasksWithoutFolder]
    lists are those of [getAllTasksAndFolders] whose [folder] is null, and
    the tasks [getTasksByFolder] lists for a folder are those whose
    [folder] is that folder: every task of the full listing is in exactly
    one of them. *)
Theorem listings_partition (userId : ObjectId) (db : Db) (j : ObjectId) (t : task.doc) :
  let all := listed (fst (taskController.getAllTasksAndFolders userId db)) in
  let unfiled := listed (fst (taskController.getAllTasksWithoutFolder userId db)) in
  ((j, t) ∈ unfiled <-> (j, t) ∈ all /\ task.folder t = None)
  /\ (forall folderId i, castObjectId folderId = Some i ->
        ((j, t) ∈ listed (fst (taskController.getTasksByFolder userId folderId db))
         <-> (j, t) ∈ all /\ task.folder t = Some i)).
Proof.
  intros all unfiled. subst all unfiled.
  split.
  - rewrite (getAllTasksAndFolders_own_tasks userId db j t).
    unfold taskController.getAllTasksWithoutFolder, Task.find. unfold_handler.
    unfold listed. simpl.
    rewrite elem_of_map_to_list, map_lookup_filter_Some. simpl.
    rewrite task_matchUser_true. tauto.
  - intros folderId i Hc. rewrite (getAllTasksAndFolders_own_tasks userId db j t).
    rewrite (getTasksByFolder_run _ _ _ _ Hc). unfold listed. simpl.
    rewrite elem_of_tasks_by_folder. tauto.
Qed.

(** ** Creation *)

Lemma createTaskOrFolder_folder_run gen u b db :
  strictEq (createBody.type b) "folder" = true ->
  taskController.createTaskOrFolder gen u b db =
    let c := Write Folders "create" :: calls db in
    let f := folder.mk (default "" (createBody.title b)) u [] in
    if negb (truthy (createBody.title b)) then
      (mkResponse 400 (JError "Title and type are required."), db)
    else
      match folderColl db !! gen with
      | Some _ => (createError, mkDb (taskColl db) (folderColl db) c)
      | None =>
          (mkResponse 201 (JMessageFolder "Folder created successfully" (gen, f)),
           mkDb (taskColl db) (<[gen := f]> (folderColl db)) c)
      end.
Proof.
  intros Hty. assert (Heq := strictEq_true _ _ Hty).
  unfold taskController.createTaskOrFolder, Folder.create, createError.
  rewrite Hty, Heq. change (truthy (Some "folder")) with true.
  unfold_monad. cbn -[truthy].
  destruct (truthy (createBody.title b)) eqn:Ht; cbn -[truthy]; [|done].
  rewrite ?Ht. cbn. by destruct (folderColl db !! gen).
Qed.

Lemma createFolder_run gen u name db :
  folderController.createFolder gen u name db =
    let c := Write Folders "create" :: calls db in
    let f := folder.mk (default "" name) u [] in
    if negb (truthy name) then
      (mkResponse 400 (JError "Folder name required"), db)
    else
      match folderColl db !! gen with
      | Some _ =>
          (folderController.errorMessage 500 DuplicateKeyError,
           mkDb (taskColl db) (folderColl db) c)
      | None =>
          (mkResponse 201 (JFolder (gen, f)),
           mkDb (taskColl db) (<[gen := f]> (folderColl db)) c)
      end.
Proof.
  unfold folderController.createFolder, Folder.create. unfold_monad.
  destruct (truthy name) eqn:Ht; cbn -[truthy]; [|done].
  rewrite ?Ht. cbn. by destruct (folderColl db !! gen).
Qed.

(** X8: the two ways to create a folder. [createFolder] with a name, and
    [createTaskOrFolder] with the type ["folder"] and that name for title,
    whatever its other fields, answer with the same status code and leave
    the same store; on success the new folder has the name, the caller for
    owner and an empty list of tasks, and a missing or empty name is
    rejected with 400, nothing being stored. *)
Theorem createFolder_two_ways (gen userId : ObjectId) (name : option string)
    (dueDate : option DateInput) (status folder : option string) (db : Db) :
  let r1 := folderController.createFolder gen userId name db in
  let r2 := taskController.createTaskOrFolder gen userId
              (createBody.mk name dueDate status (Some "folder") folder) db in
  snd r1 = snd r2
  /\ code (fst r1) = code (fst r2)
  /\ (code (fst r1) = 201 ->
      folderColl db !! gen = None
      /\ folderColl (snd r1) = <[gen := folder.mk (default "" name) userId []]> (folderColl db)
      /\ taskColl (snd r1) = taskColl db)
  /\ (truthy name = false -> code (fst r1) = 400 /\ snd r1 = db).
Proof.
  intros r1 r2. subst r1 r2.
  rewrite createFolder_run.
  rewrite (createTaskOrFolder_folder_run gen userId
             (createBody.mk name dueDate status (Some "folder") folder) db eq_refl).
  cbv zeta.
  cbn -[truthy].
  destruct (truthy name) eqn:Ht; cbn -[truthy].
  - destruct (folderColl db !! gen) eqn:Hg; cbn; split_and!; try done.
  - split_and!; try done.
Qed.

(** X9: what is created can be read back. When [createTaskOrFolder]
    answers 201, the generated identifier being fresh, [getTaskById] for
    that identifier answers 200 with the very document of the creation: a
    task of the caller, or a folder of the caller with an empty list of
    tasks. *)
Theorem create_then_get (gen userId : ObjectId) (b : createBody.t) (db : Db) (id : string) :
  fresh gen db ->
  castObjectId id = Some gen ->
  let r := taskController.createTaskOrFolder gen userId b db in
  code (fst r) = 201 ->
  (exists t, fst r = mkResponse 201 (JMessageTask "Task created successfully" (gen, t))
             /\ task.user t = userId
             /\ fst (taskController.getTaskById userId id (snd r))
                = mkResponse 200 (JTask (gen, t)))
  \/ (exists f, fst r = mkResponse 201 (JMessageFolder "Folder created successfully" (gen, f))
                /\ folder.user f = userId /\ folder.tasks f = []
                /\ fst (taskController.getTaskById userId id (snd r))
                   = mkResponse 200 (JFolder (gen, f))).
Proof.
  intros [Hft Hff] Hc r. subst r.
  assert (Hnew : forall t fs cs, task.user t = userId ->
            fst (taskController.getTaskById userId id
                   (mkDb (<[gen := t]> (taskColl db)) fs cs))
            = mkResponse 200 (JTask (gen, t))).
  { intros t fs cs Hu. rewrite (getTaskById_response _ _ _ _ Hc).
    unfold ownedTask. simpl. rewrite lookup_insert_eq.
    by rewrite (proj2 (task_matchUser_true userId t) Hu). }
  destruct (strictEq (createBody.type b) "folder") eqn:Hty.
  - rewrite (createTaskOrFolder_folder_run _ _ _ _ Hty). cbv zeta.
    destruct (negb (truthy (createBody.title b))); [simpl; discriminate|].
    rewrite Hff. simpl. intros _. right. eexists. split_and!; try reflexivity.
    rewrite (getTaskById_response _ _ _ _ Hc). unfold ownedTask, ownedFolder. simpl.
    rewrite Hft, lookup_insert_eq. unfold Folder.matchUser. simpl.
    by rewrite N.eqb_refl.
  - destruct (negb (truthy (createBody.title b)) || negb (truthy (createBody.type b)))
      eqn:H1.
    { rewrite (createTask_required _ _ _ _ H1). discriminate. }
    destruct (truthy (createBody.status b)
              && negb (includes taskController.allowedStatus
                         (default "" (createBody.status b)))) eqn:H3.
    { rewrite (createTask_invalid_status _ _ _ _ H1 Hty H3). discriminate. }
    destruct (createBody.dueDate b) as [[|ms]|] eqn:H4.
    { rewrite (createTask_invalid_date _ _ _ _ H1 Hty H3 H4). discriminate. }
    all: rewrite (createTask_run _ _ _ _ H1 Hty H3) by (rewrite H4; discriminate);
      cbv zeta;
      (destruct (truthy (createBody.folder b));
       [ destruct (castObjectId (default "" (createBody.folder b))) as [i|];
           [|simpl; discriminate];
         destruct (ownedFolder userId i db) as [fd|]; [|simpl; discriminate] | ];
       (destruct (storable _ _ _); [|unfold createError; simpl; discriminate]);
       intros _; left; eexists; split_and!;
       first [by apply Hnew | reflexivity]).
Qed.

Lemma create_then_get_witness :
  exists t, fst (taskController.getTaskById alice hex5
                   (snd (taskController.createTaskOrFolder 5%N alice
                           (createBody.mk (Some "T") None None (Some "task") None) emptyDb)))
            = mkResponse 200 (JTask (5%N, t)).
Proof.
  destruct (create_then_get 5%N alice
              (createBody.mk (Some "T") None None (Some "task") None) emptyDb hex5)
    as [[t (_ & _ & H)]|[f (H & _)]].
  - by split.
  - reflexivity.
  - reflexivity.
  - by exists t.
  - discriminate.
Defined.

(** X10: a task created in a folder. When [createTaskOrFolder] answers 201
    for a request that is not folder-typed and carries a folder reference,
    the reference names a folder of the caller, the new task has that
    folder as its [folder], its identifier is appended to the [tasks] list
    of the folder, and no other folder is touched. *)
Theorem create_in_folder (gen userId : ObjectId) (b : createBody.t) (db : Db) (f : string) :
  createBody.folder b = Some f ->
  f <> "" ->
  strictEq (createBody.type b) "folder" = false ->
  let r := taskController.createTaskOrFolder gen userId b db in
  code (fst r) = 201 ->
  exists i fd t,
    castObjectId f = Some i
    /\ folderColl db !! i = Some fd /\ folder.user fd = userId
    /\ taskColl db !! gen = None
    /\ taskColl (snd r) = <[gen := t]> (taskColl db)
    /\ task.folder t = Some i /\ task.user t = userId
    /\ folderColl (snd r) !! i
       = Some (folder.mk (folder.name fd) (folder.user fd) (folder.tasks fd ++ [gen]))
    /\ forall j, j <> i -> folderColl (snd r) !! j = folderColl db !! j.
Proof.
  intros Hf Hne Hty r. subst r.
  pose proof (truthy_nonempty _ Hne) as Htf.
  destruct (negb (truthy (createBody.title b)) || negb (truthy (createBody.type b)))
    eqn:H1.
  { rewrite (createTask_required _ _ _ _ H1). discriminate. }
  destruct (truthy (createBody.status b)
            && negb (includes taskController.allowedStatus
                       (default "" (createBody.status b)))) eqn:H3.
  { rewrite (createTask_invalid_status _ _ _ _ H1 Hty H3). discriminate. }
  destruct (createBody.dueDate b) as [[|ms]|] eqn:H4.
  { rewrite (createTask_invalid_date _ _ _ _ H1 Hty H3 H4). discriminate. }
  all: rewrite (createTask_run _ _ _ _ H1 Hty H3) by (rewrite H4; discriminate);
    cbv zeta; rewrite Hf, Htf; change (default "" (Some f)) with f;
    (destruct (castObjectId f) as [i|]; [|simpl; discriminate]);
    (destruct (ownedFolder userId i db) as [fd|] eqn:Ho; [|simpl; discriminate]);
    (destruct (storable _ _ _) eqn:Hs; [|unfold createError; simpl; discriminate]);
    intros _; apply ownedFolder_Some in Ho as [Hfd Hu];
    unfold storable in Hs; apply andb_true_iff in Hs as [_ Hg];
    apply bool_decide_eq_true in Hg;
    exists i, fd; eexists; simpl;
    (split_and!; try done;
     [ by rewrite lookup_alter_eq, Hfd
     | intros j Hj; by rewrite lookup_alter_ne ]).
Qed.

Lemma create_in_folder_witness :
  exists i fd t,
    castObjectId hex1 = Some i
    /\ folderColl aliceDb !! i = Some fd /\ folder.user fd = alice
    /\ taskColl aliceDb !! 9%N = None
    /\ taskColl (snd (taskController.createTaskOrFolder 9%N alice
                        (createBody.mk (Some "T") None None (Some "task") (Some hex1))
                        aliceDb))
       = <[9%N := t]> (taskColl aliceDb)
    /\ task.folder t = Some i /\ task.user t = alice
    /\ folderColl (snd (taskController.createTaskOrFolder 9%N alice
                          (createBody.mk (Some "T") None None (Some "task") (Some hex1))
                          aliceDb)) !! i
       = Some (folder.mk (folder.name fd) (folder.user fd) (folder.tasks fd ++ [9%N]))
    /\ forall j, j <> i ->
         folderColl (snd (taskController.createTaskOrFolder 9%N alice
                            (createBody.mk (Some "T") None None (Some "task") (Some hex1))
                            aliceDb)) !! j
         = folderColl aliceDb !! j.
Proof.
  apply (create_in_folder 9%N alice
           (createBody.mk (Some "T") None None (Some "task") (Some hex1)) aliceDb hex1);
    [reflexivity | discriminate | reflexivity | reflexivity].
Defined.

(** ** [addTaskToFolder] *)

Lemma addTaskToFolder_run gen u raw i title dueDate db :
  castObjectId (folderController.sanitize raw) = Some i ->
  folderController.addTaskToFolder gen u raw title dueDate db =
    let c1 := Read Folders "findOne" :: calls db in
    let c2 := Write Tasks "create" :: c1 in
    let t := newTask title dueDate None (Some i) u in
    let failed e :=
      (folderController.errorMessage 500 e, mkDb (taskColl db) (folderColl db) c2) in
    match ownedFolder u i db with
    | None =>
        (mkResponse 404 (JError "Folder not found"), mkDb (taskColl db) (folderColl db) c1)
    | Some _ =>
        match dueDate with
        | Some InvalidDate => failed (CastError "dueDate" "Invalid Date")
        | _ =>
            if negb (truthy title) then failed (SchemaValidationError "title")
            else
              match taskColl db !! gen with
              | Some _ => failed DuplicateKeyError
              | None =>
                  (mkResponse 201 (JTask (gen, t)),
                   mkDb (<[gen := t]> (taskColl db))
                        (alter (Folder.push gen) i (folderColl db))
                        (Write Folders "save" :: c2))
              end
        end
    end.
Proof.
  intros Hc.
  unfold folderController.addTaskToFolder, Folder.findOne, Task.create, Task.validate,
    Folder.updateById, ownedFolder, newTask.
  cbv zeta. rewrite isValidId_sanitize, (castObjectId_valid _ _ Hc).
  unfold_monad. cbn -[truthy]. rewrite Hc. cbn -[truthy].
  destruct (folderColl db !! i) as [fd|]; cbn -[truthy]; [|done].
  destruct (Folder.matchUser u fd); cbn -[truthy]; [|done].
  destruct dueDate as [[|ms]|]; cbn -[truthy]; [done| |];
    (destruct (truthy title); cbn -[truthy]; [|done];
     destruct (taskColl db !! gen); cbn -[truthy]; done).
Qed.

(** X11: the two ways to add a task to a folder. With a well-formed folder
    identifier, a title and a date that is absent or valid,
    [addTaskToFolder] and [createTaskOrFolder] with that folder reference
    and no status leave the same collections and create the same task;
    when the folder is not the caller's, the former answers 404 and the
    latter 400, and nothing is created. *)
Theorem addTask_two_ways (gen userId : ObjectId) (folderId : string) (i : ObjectId)
    (title : option string) (dueDate : option DateInput) (db : Db) :
  castObjectId folderId = Some i ->
  truthy title = true ->
  dueDate <> Some InvalidDate ->
  let r1 := folderController.addTaskToFolder gen userId folderId title dueDate db in
  let r2 := taskController.createTaskOrFolder gen userId
              (createBody.mk title dueDate None (Some "task") (Some folderId)) db in
  sameColls (snd r1) (snd r2)
  /\ (forall d, fst r1 = mkResponse 201 (JTask d)
                <-> fst r2 = mkResponse 201 (JMessageTask "Task created successfully" d))
  /\ (code (fst r1) = 201 <-> code (fst r2) = 201)
  /\ (ownedFolder userId i db = None ->
      code (fst r1) = 404 /\ code (fst r2) = 400 /\ sameColls db (snd r1)).
Proof.
  intros Hc Ht Hd r1 r2. subst r1 r2.
  rewrite (addTaskToFolder_run _ _ _ i) by (by rewrite (castObjectId_sanitize _ _ Hc)).
  rewrite (createTask_run gen userId
             (createBody.mk title dueDate None (Some "task") (Some folderId)) db);
    [| by (cbn -[truthy]; rewrite Ht) | done | done | done].
  cbn -[truthy includes].
  rewrite (castObjectId_truthy _ _ Hc), Hc, !Ht. unfold sameColls, storable.
  destruct (ownedFolder userId i db) as [fd|]; simpl.
  - assert (Hdate : match dueDate with
                    | Some InvalidDate => False
                    | _ => True
                    end) by (by destruct dueDate as [[|ms]|]).
    destruct dueDate as [[|ms]|]; [done| |];
      (destruct (taskColl db !! gen) as [old|] eqn:Hg;
       unfold createError, folderController.errorMessage; simpl;
       split_and!;
       first [ done | tauto | split; discriminate
             | intros x; split; discriminate
             | intros x; split; intros Heq; by simplify_eq ]).
  - split_and!;
      first [ done | tauto | split; discriminate | intros x; split; discriminate ].
Qed.

Lemma addTask_two_ways_witness :
  sameColls
    (snd (folderController.addTaskToFolder 9%N alice hex1 (Some "T") None aliceDb))
    (snd (taskController.createTaskOrFolder 9%N alice
            (createBody.mk (Some "T") None None (Some "task") (Some hex1)) aliceDb)).
Proof.
  destruct (addTask_two_ways 9%N alice hex1 1%N (Some "T") None aliceDb) as [H _];
    [reflexivity | reflexivity | discriminate | exact H].
Defined.



(** ** [getFolderById] and the references of a folder *)

Lemma getFolderById_run u raw i db :
  castObjectId (folderController.sanitize raw) = Some i ->
  folderController.getFolderById u raw db =
    let c1 := Read Folders "findOne" :: calls db in
    match ownedFolder u i db with
    | Some f =>
        (mkResponse 200
           (JFolderPopulated i (folder.name f) (folder.user f)
              (Task.resolve (taskColl db) (folder.tasks f))),
         mkDb (taskColl db) (folderColl db) (Read Tasks "find" :: c1))
    | None =>
        (mkResponse 404 (JError "Folder not found"), mkDb (taskColl db) (folderColl db) c1)
    end.
Proof.
  intros Hc. unfold folderController.getFolderById, Folder.findOnePopulated, Folder.findOne,
    ownedFolder.
  cbv zeta. rewrite isValidId_sanitize, (castObjectId_valid _ _ Hc).
  unfold_handler. rewrite Hc. simpl.
  destruct (folderColl db !! i) as [f|]; simpl; [|done].
  by destruct (Folder.matchUser u f).
Qed.

Lemma elem_of_resolve (m : gmap N task.doc) ids j t :
  (j, t) ∈ Task.resolve m ids <-> j ∈ ids /\ m !! j = Some t.
Proof.
  unfold Task.resolve. rewrite list_elem_of_omap. split.
  - intros (k & Hk & Heq). destruct (m !! k) as [d|] eqn:Hd; [|discriminate].
    by simplify_eq.
  - intros [Hj Ht]. exists j. by rewrite Ht.
Qed.

Lemma resolve_sublist (m : gmap N task.doc) ids :
  (Task.resolve m ids).*1 `sublist_of` ids.
Proof.
  unfold Task.resolve. induction ids as [|k ids IH]; simpl; [done|].
  destruct (m !! k); simpl; by constructor.
Qed.

(** X13: what [getFolderById] lists. For a folder of the caller, the answer
    is 200 with the tasks its [tasks] list refers to, in the order of the
    list, those that no longer exist being left out; a listed task is
    looked up by its identifier alone, whoever its owner and whatever its
    own [folder]. For a folder that is not the caller's the answer is 404.
    Nothing changes. *)
Theorem getFolderById_populates (userId : ObjectId) (id : string) (i : ObjectId) (db : Db) :
  castObjectId (folderController.sanitize id) = Some i ->
  let r := folderController.getFolderById userId id db in
  sameColls db (snd r)
  /\ (ownedFolder userId i db = None -> NotFoundError (fst r))
  /\ (forall f, ownedFolder userId i db = Some f ->
        code (fst r) = 200
        /\ (forall j t, (j, t) ∈ listed (fst r)
                        <-> j ∈ folder.tasks f /\ taskColl db !! j = Some t)
        /\ (listed (fst r)).*1 `sublist_of` folder.tasks f).
Proof.
  intros Hc r. subst r. rewrite (getFolderById_run _ _ _ _ Hc). cbv zeta.
  unfold sameColls, NotFoundError.
  destruct (ownedFolder userId i db) as [f|]; simpl; split_and!; try done.
  intros g Hg. simplify_eq. unfold listed. simpl. split_and!; [done| |].
  - intros j t. apply elem_of_resolve.
  - apply resolve_sublist.
Qed.

Lemma getFolderById_populates_witness :
  NotFoundError (fst (folderController.getFolderById bob hex1 aliceDb)).
Proof.
  destruct (getFolderById_populates bob hex1 1%N aliceDb eq_refl) as (_ & H & _).
  apply H. reflexivity.
Defined.

(** X14: a task deleted through the task controller leaves its references
    behind. [deleteTaskOrFolder] with the hint ["task"] deletes the task of
    the caller and changes no folder, so a folder that listed the task
    still lists it; [getFolderById] then leaves the task out of its
    answer. *)
Theorem deleteTask_keeps_references (userId : ObjectId) (taskId : string) (j : ObjectId)
    (db : Db) :
  castObjectId taskId = Some j ->
  is_Some (ownedTask userId j db) ->
  let r := taskController.deleteTaskOrFolder userId (Some "task") (Some taskId) db in
  code (fst r) = 200
  /\ taskColl (snd r) = delete j (taskColl db)
  /\ folderColl (snd r) = folderColl db
  /\ forall folderId i f,
       castObjectId (folderController.sanitize folderId) = Some i ->
       ownedFolder userId i db = Some f ->
       let r' := folderController.getFolderById userId folderId (snd r) in
       code (fst r') = 200 /\ j ∉ (listed (fst r')).*1.
Proof.
  intros Hc [t Ht] r. subst r. rewrite (deleteTask_run _ _ _ _ Hc), Ht. cbv zeta. simpl.
  split_and!; try done.
  intros folderId i f Hi Hf.
  rewrite (getFolderById_run _ _ _ _ Hi). cbv zeta.
  unfold ownedFolder in *. simpl. rewrite Hf. simpl. split; [done|].
  unfold listed. simpl. intros Hin. apply list_elem_of_fmap in Hin as [[k d] [Hk Hin]].
  simpl in Hk. subst k. apply elem_of_resolve in Hin as [_ Hl].
  by rewrite lookup_delete_eq in Hl.
Qed.

Lemma deleteTask_keeps_references_witness :
  folderColl (snd (taskController.deleteTaskOrFolder alice (Some "task") (Some hex5) aliceDb))
  = folderColl aliceDb.
Proof.
  destruct (deleteTask_keeps_references alice hex5 5%N aliceDb eq_refl) as (_ & _ & H & _).
  - by eexists.
  - exact H.
Defined.

(** ** [deleteTaskInFolder] *)

Lemma deleteTaskInFolder_run u folderId taskId i j db :
  castObjectId (folderController.sanitize folderId) = Some i ->
  castObjectId (folderController.sanitize taskId) = Some j ->
  folderController.deleteTaskInFolder u folderId taskId db =
    let c1 := Write Tasks "findOneAndDelete" :: calls db in
    let missing :=
      (mkResponse 404 (JError "Task not found"), mkDb (taskColl db) (folderColl db) c1) in
    match taskColl db !! j with
    | Some d =>
        if Task.matchUser u d && Task.matchFolder i d then
          (mkResponse 200 (JMessage "Task deleted"),
           mkDb (delete j (taskColl db)) (alter (Folder.pull j) i (folderColl db))
                (Write Folders "updateOne" :: c1))
        else missing
    | None => missing
    end.
Proof.
  intros Hi Hj.
  unfold folderController.deleteTaskInFolder, Task.findOneAndDelete, Folder.updateById.
  cbv zeta. rewrite !isValidId_sanitize.
  rewrite (castObjectId_valid _ _ Hi), (castObjectId_valid _ _ Hj).
  unfold_monad. rewrite Hi, Hj. simpl.
  destruct (taskColl db !! j) as [d|]; simpl; [|done].
  by destruct (Task.matchUser u d && Task.matchFolder i d).
Qed.

Lemma elem_of_pull j k l :
  k ∈ List.filter (fun x => negb (x =? j)%N) l <-> k ∈ l /\ k <> j.
Proof.
  rewrite !list_elem_of_In, List.filter_In, negb_true_iff, N.eqb_neq. tauto.
Qed.

(** X15: [deleteTaskInFolder] succeeds exactly when the task is the
    caller's and is filed under the folder of the request. It then deletes
    the task and takes its identifier out of the [tasks] list of that
    folder, leaving the rest of the list, the other tasks and the other
    folders as they were. Otherwise it answers 404 and changes nothing,
    also when the task exists under another folder. *)
Theorem deleteTaskInFolder_effect (userId : ObjectId) (folderId taskId : string)
    (i j : ObjectId) (db : Db) :
  castObjectId (folderController.sanitize folderId) = Some i ->
  castObjectId (folderController.sanitize taskId) = Some j ->
  let r := folderController.deleteTaskInFolder userId folderId taskId db in
  (code (fst r) = 200
   <-> exists d, taskColl db !! j = Some d /\ task.user d = userId /\ task.folder d = Some i)
  /\ (code (fst r) = 200 ->
      taskColl (snd r) = delete j (taskColl db)
      /\ (forall k, k <> i -> folderColl (snd r) !! k = folderColl db !! k)
      /\ (forall fd, folderColl db !! i = Some fd ->
            exists fd', folderColl (snd r) !! i = Some fd'
              /\ folder.name fd' = folder.name fd /\ folder.user fd' = folder.user fd
              /\ forall k, k ∈ folder.tasks fd' <-> k ∈ folder.tasks fd /\ k <> j))
  /\ (code (fst r) <> 200 -> NotFoundError (fst r) /\ sameColls db (snd r)).
Proof.
  intros Hi Hj r. subst r. rewrite (deleteTaskInFolder_run _ _ _ _ _ _ Hi Hj). cbv zeta.
  unfold NotFoundError, sameColls.
  destruct (taskColl db !! j) as [d|] eqn:Hd; simpl.
  - destruct (Task.matchUser userId d && Task.matchFolder i d) eqn:Hm; simpl.
    + apply andb_true_iff in Hm as [Hu Hf].
      apply task_matchUser_true in Hu. apply task_matchFolder_true in Hf.
      split_and!; try done.
      * split; [|done]. intros _. by exists d.
      * intros _. split_and!; [done | |].
        -- intros k Hk. by rewrite lookup_alter_ne.
        -- intros fd Hfd. eexists. rewrite lookup_alter_eq, Hfd. simpl.
           split_and!; try reflexivity. intros k. apply elem_of_pull.
    + split_and!; try done.
      split; [discriminate|]. intros (d' & Heq & Hu & Hf). simplify_eq.
      apply task_matchFolder_true in Hf. rewrite Hf in Hm.
      rewrite (proj2 (task_matchUser_true _ _) eq_refl) in Hm. discriminate.
  - split_and!; try done. split; [discriminate|]. by intros (d' & Heq & _).
Qed.

Lemma deleteTaskInFolder_effect_witness :
  taskColl (snd (folderController.deleteTaskInFolder alice hex1 hex5 aliceDb))
  = delete 5%N (taskColl aliceDb).
Proof.
  destruct (deleteTaskInFolder_effect alice hex1 hex5 1%N 5%N aliceDb eq_refl eq_refl)
    as (_ & H & _).
  apply H. reflexivity.
Defined.

(** ** The progress of a folder, seen through [getTasksInFolder] *)

(** X16: after [clearProgress] on a folder, [getTasksInFolder] on the same
    folder lists nothing for the caller, while every task that was not
    both the caller's and filed under that folder is still there,
    unchanged. *)
Theorem clearProgress_then_list (userId : ObjectId) (id : string) (i : ObjectId) (db : Db) :
  castObjectId (folderController.sanitize id) = Some i ->
  let db' := snd (folderController.clearProgress userId id db) in
  let r := folderController.getTasksInFolder userId id db' in
  code (fst r) = 200
  /\ listed (fst r) = []
  /\ forall j t, taskColl db !! j = Some t ->
       ~ (task.user t = userId /\ task.folder t = Some i) ->
       taskColl db' !! j = Some t.
Proof.
  intros Hc db' r. subst r db'. rewrite clearProgress_run, Hc. simpl.
  rewrite (getTasksInFolder_run _ _ _ _ Hc). unfold listed. simpl. split_and!; [done | |].
  - apply map_to_list_empty_iff, map_empty. intros j.
    apply map_lookup_filter_None. right. intros t Ht. simpl.
    rewrite keptTasks_lookup in Ht.
    destruct (taskColl db !! j) as [d|]; [|discriminate].
    destruct (Task.matchFolder i d && Task.matchUser userId d) eqn:Hm; [discriminate|].
    simplify_eq. rewrite andb_comm, Hm. discriminate.
  - intros j t Ht Hn. rewrite keptTasks_lookup, Ht.
    destruct (Task.matchFolder i t && Task.matchUser userId t) eqn:Hm; [|done].
    apply andb_true_iff in Hm as [Hf Hu].
    apply task_matchFolder_true in Hf. apply task_matchUser_true in Hu. tauto.
Qed.

Lemma clearProgress_then_list_witness :
  listed (fst (folderController.getTasksInFolder alice hex1
                 (snd (folderController.clearProgress alice hex1 aliceDb)))) = [].
Proof.
  destruct (clearProgress_then_list alice hex1 1%N aliceDb eq_refl) as (_ & H & _).
  exact H.
Defined.

Lemma resetTasks_idempotent i u m :
  resetTasks i u (resetTasks i u m) = resetTasks i u m.
Proof.
  apply map_eq. intros j. rewrite !resetTasks_lookup.
  destruct (m !! j) as [d|]; simpl; [|done]. f_equal.
  destruct (Task.matchFolder i d && Task.matchUser u d) eqn:Hm; rewrite ?Hm; [|done].
  unfold Task.matchFolder, Task.matchUser in *. destruct d; simpl in *. by rewrite Hm.
Qed.

(** X17: after [resetProgress] on a folder, [getTasksInFolder] lists for
    the caller the same task identifiers as before, every listed task now
    with the status ["Pending"]; and a second [resetProgress] changes no
    record. *)
Theorem resetProgress_then_list (userId : ObjectId) (id : string) (i : ObjectId) (db : Db) :
  castObjectId (folderController.sanitize id) = Some i ->
  let db' := snd (folderController.resetProgress userId id db) in
  let before := listed (fst (folderController.getTasksInFolder userId id db)) in
  let after := listed (fst (folderController.getTasksInFolder userId id db')) in
  (forall j t, (j, t) ∈ after -> task.status t = "Pending")
  /\ (forall j, j ∈ after.*1 <-> j ∈ before.*1)
  /\ sameColls db' (snd (folderController.resetProgress userId id db')).
Proof.
  intros Hc db' before after. subst before after db'.
  rewrite !resetProgress_run, Hc. simpl.
  rewrite !(getTasksInFolder_run _ _ _ _ Hc). unfold listed, sameColls. simpl.
  assert (Hlook : forall j t,
    (j, t) ∈ map_to_list
      (filter (fun kv => Task.matchUser userId kv.2 && Task.matchFolder i kv.2 = true)
              (resetTasks i userId (taskColl db)))
    <-> exists d, taskColl db !! j = Some d /\ task.user d = userId /\ task.folder d = Some i
                  /\ t = task.setStatus "Pending" d).
  { intros j t. rewrite elem_of_tasks_by_folder, resetTasks_lookup. split.
    - intros (Hl & Hu & Hf). destruct (taskColl db !! j) as [d|]; [|discriminate].
      simpl in Hl. exists d.
      destruct (Task.matchFolder i d && Task.matchUser userId d) eqn:Hm.
      + simplify_eq. by destruct d.
      + simplify_eq. apply task_matchFolder_true in Hf.
        rewrite Hf, (proj2 (task_matchUser_true _ _) eq_refl) in Hm. discriminate.
    - intros (d & Hd & Hu & Hf & ->). rewrite Hd. simpl.
      rewrite (proj2 (task_matchFolder_true _ _) Hf), (proj2 (task_matchUser_true _ _) Hu).
      simpl. by destruct d. }
  split_and!.
  - intros j t Hin. apply Hlook in Hin as (d & _ & _ & _ & ->). by destruct d.
  - intros j. rewrite !list_elem_of_fmap. split.
    + intros ([k t] & -> & Hin). apply Hlook in Hin as (d & Hd & Hu & Hf & _).
      exists (k, d). split; [done|]. by apply elem_of_tasks_by_folder.
    + intros ([k d] & -> & Hin). apply elem_of_tasks_by_folder in Hin as (? & ? & ?).
      exists (k, task.setStatus "Pending" d). split; [done|]. apply Hlook. by exists d.
  - apply resetTasks_idempotent.
  - done.
Qed.

Lemma resetProgress_then_list_witness :
  sameColls (snd (folderController.resetProgress alice hex1 aliceDb))
    (snd (folderController.resetProgress alice hex1
            (snd (folderController.resetProgress alice hex1 aliceDb)))).
Proof.
  destruct (resetProgress_then_list alice hex1 1%N aliceDb eq_refl) as (_ & _ & H).
  exact H.
Defined.

(** ** The updates of the folder controller *)

Lemma updateTaskInFolder_user_run u folderId taskId i j raw v db :
  castObjectId (folderController.sanitize folderId) = Some i ->
  castObjectId (folderController.sanitize taskId) = Some j ->
  castObjectId raw = Some v ->
  folderController.updateTaskInFolder u folderId taskId
      (mkTaskUpdate None None None None (Some raw)) db =
    let c1 := Write Tasks "findOneAndUpdate" :: calls db in
    let missing :=
      (mkResponse 404 (JError "Task not found"), mkDb (taskColl db) (folderColl db) c1) in
    match taskColl db !! j with
    | Some d =>
        if Task.matchUser u d && Task.matchFolder i d then
          (mkResponse 200 (JTask (j, task.setUser v d)),
           mkDb (<[j := task.setUser v d]> (taskColl db)) (folderColl db) c1)
        else missing
    | None => missing
    end.
Proof.
  intros Hi Hj Hv. unfold folderController.updateTaskInFolder, Task.findOneAndUpdate.
  cbv zeta. rewrite !isValidId_sanitize.
  rewrite (castObjectId_valid _ _ Hi), (castObjectId_valid _ _ Hj).
  unfold_monad. simpl. rewrite Hi, Hj, Hv. simpl.
  destruct (taskColl db !! j) as [d|]; simpl; [|done].
  by destruct (Task.matchUser u d && Task.matchFolder i d).
Qed.

Lemma folder_updateTaskStatus_run u folderId taskId i j status db :
  castObjectId (folderController.sanitize folderId) = Some i ->
  castObjectId (folderController.sanitize taskId) = Some j ->
  folderController.updateTaskStatus u folderId taskId status db =
    let c1 := Write Tasks "findOneAndUpdate" :: calls db in
    let missing :=
      (mkResponse 404 (JError "Task not found"), mkDb (taskColl db) (folderColl db) c1) in
    match taskColl db !! j with
    | Some d =>
        if Task.matchUser u d && Task.matchFolder i d then
          (mkResponse 200 (JTask (j, optSet task.setStatus status d)),
           mkDb (<[j := optSet task.setStatus status d]> (taskColl db)) (folderColl db) c1)
        else missing
    | None => missing
    end.
Proof.
  intros Hi Hj. unfold folderController.updateTaskStatus, Task.findOneAndUpdate.
  cbv zeta. rewrite !isValidId_sanitize.
  rewrite (castObjectId_valid _ _ Hi), (castObjectId_valid _ _ Hj).
  unfold_monad. simpl. rewrite Hi, Hj. simpl.
  destruct (taskColl db !! j) as [d|]; simpl; [|done].
  by destruct (Task.matchUser u d && Task.matchFolder i d).
Qed.

(** X18: the folder controller's [updateTaskStatus] stores whatever status
    it is given. For a task of the caller filed under the folder of the
    request, every string is stored as the new status and answered with
    200, the other tasks and the folders staying as they were; this holds
    also for a string that is not in the task controller's list of
    statuses, which the task controller's [updateTaskStatus] refuses with
    400. *)
Theorem folder_updateTaskStatus_unchecked (userId : ObjectId) (folderId taskId : string)
    (i j : ObjectId) (d : task.doc) (s : string) (db : Db) :
  castObjectId (folderController.sanitize folderId) = Some i ->
  castObjectId (folderController.sanitize taskId) = Some j ->
  taskColl db !! j = Some d -> task.user d = userId -> task.folder d = Some i ->
  let r := folderController.updateTaskStatus userId folderId taskId (Some s) db in
  fst r = mkResponse 200 (JTask (j, task.setStatus s d))
  /\ taskColl (snd r) !! j = Some (task.setStatus s d)
  /\ (forall k, k <> j -> taskColl (snd r) !! k = taskColl db !! k)
  /\ folderColl (snd r) = folderColl db
  /\ (includes taskController.allowedStatus s = false ->
      forall anyId title,
        ValidationError
          (fst (taskController.updateTaskStatus userId anyId title (Some s) db))).
Proof.
  intros Hi Hj Hd Hu Hf r. subst r.
  rewrite (folder_updateTaskStatus_run _ _ _ _ _ _ _ Hi Hj). cbv zeta.
  rewrite Hd, (proj2 (task_matchUser_true _ _) Hu), (proj2 (task_matchFolder_true _ _) Hf).
  simpl. split_and!; try done.
  - by rewrite lookup_insert_eq.
  - intros k Hk. by rewrite lookup_insert_ne.
  - intros Hs anyId title. unfold ValidationError.
    by rewrite (updateTaskStatus_invalid_status _ _ _ _ _ Hs).
Qed.

Lemma folder_updateTaskStatus_unchecked_witness :
  fst (folderController.updateTaskStatus alice hex1 hex5 (Some "Later") aliceDb)
  = mkResponse 200
      (JTask (5%N, task.setStatus "Later" (task.mk "report" None "Pending" (Some 1%N) alice))).
Proof.
  destruct (folder_updateTaskStatus_unchecked alice hex1 hex5 1%N 5%N
              (task.mk "report" None "Pending" (Some 1%N) alice) "Later" aliceDb
              eq_refl eq_refl eq_refl eq_refl eq_refl) as [H _].
  exact H.
Defined.

(** ** Answers that are not a success *)

Ltac error_leaf :=
  cbn; intros; first [done | congruence | split; reflexivity | intuition congruence].

(** Every path through a handler, the queries unfolded. *)
Ltac handler_cases :=
  unfold Task.create, Task.find, Task.findOne, Task.findOneAndUpdate, Task.findOneAndDelete,
    Task.deleteMany, Task.updateMany, Task.validate,
    Folder.create, Folder.find, Folder.findOnePopulated, Folder.findOne,
    Folder.findOneAndUpdate, Folder.findOneAndDelete, Folder.updateById,
    taskController.serverError, folderController.errorMessage;
  cbv zeta; unfold_monad; op_cases.

Ltac error_cases := handler_cases; error_leaf.

(** X19: an answer that is not a success changes nothing, with one
    exception. When a route answers with a code other than 200 and 201, a
    400, a 404 or a 500, both collections are as they were before the
    request; the exception is the 404 of a deletion with the hint
    ["folder"], which deletes the tasks before it looks for the folder. *)
Theorem errors_change_nothing (gen userId : ObjectId) (r : Request) (db : Db) :
  code (fst (route gen userId r db)) <> 200 ->
  code (fst (route gen userId r db)) <> 201 ->
  (cascades r = false \/ code (fst (route gen userId r db)) <> 404) ->
  sameColls db (snd (route gen userId r db)).
Proof.
  unfold sameColls. destruct r; cbn [route cascades].
  - unfold taskController.createTaskOrFolder. error_cases.
  - unfold taskController.getAllTasksAndFolders. error_cases.
  - unfold taskController.getTasksByFolder. error_cases.
  - unfold taskController.getAllTasksWithoutFolder. error_cases.
  - unfold taskController.getTaskById. error_cases.
  - unfold taskController.updateTaskStatus. error_cases.
  - unfold taskController.deleteTaskOrFolder. error_cases.
  - unfold folderController.createFolder. error_cases.
  - unfold folderController.getFolderById. error_cases.
  - unfold folderController.getTasksInFolder. error_cases.
  - unfold folderController.addTaskToFolder. error_cases.
  - unfold folderController.updateTaskInFolder. error_cases.
  - unfold folderController.updateTaskStatus. error_cases.
  - unfold folderController.deleteTaskInFolder. error_cases.
  - unfold folderController.resetProgress. error_cases.
  - unfold folderController.clearProgress. error_cases.
Qed.

Lemma errors_change_nothing_witness :
  sameColls aliceDb (snd (route 0%N bob (DeleteTask None (Some hex1)) aliceDb)).
Proof.
  apply errors_change_nothing.
  - vm_compute. discriminate.
  - vm_compute. discriminate.
  - left. reflexivity.
Defined.


(** ** Sessions of one user *)

(** X20: whatever requests a user makes, one after the other, through the
    fourteen routes that filter on the owner, every task and every folder
    of another user is afterwards as it was. The two routes left out,
    [deleteTaskInFolder] and [clearProgress], update a folder by its
    identifier alone. *)
Theorem session_keeps_foreign_records (userId : ObjectId) (rs : list (ObjectId * Request))
    (db : Db) :
  Forall (fun gr => unfiltered gr.2 = false) rs ->
  (forall j t, taskColl db !! j = Some t -> task.user t <> userId ->
     taskColl (session userId rs db) !! j = Some t)
  /\ (forall j f, folderColl db !! j = Some f -> folder.user f <> userId ->
        folderColl (session userId rs db) !! j = Some f).
Proof.
  intros Hrs. change (foreignKept userId db (session userId rs db)).
  revert db. induction rs as [|[gen r] rs IH]; intros db; simpl.
  - apply foreignKept_refl.
  - inversion Hrs as [|? ? Hr Hrs']; subst. simpl in Hr.
    destruct (route_foreign_records gen userId r db Hr) as [Ht Hf].
    destruct (IH Hrs' (snd (route gen userId r db))) as [Ht' Hf'].
    split.
    + intros j t Hj Hu. apply Ht'; [|done]. by apply Ht.
    + intros j f Hj Hu. apply Hf'; [|done]. by apply Hf.
Qed.

Lemma session_keeps_foreign_records_witness :
  (forall j t, taskColl aliceDb !! j = Some t -> task.user t <> bob ->
     taskColl (session bob [(7%N, DeleteTask (Some "folder") (Some hex1));
                            (8%N, PatchFolderReset hex1)] aliceDb) !! j = Some t)
  /\ (forall j f, folderColl aliceDb !! j = Some f -> folder.user f <> bob ->
        folderColl (session bob [(7%N, DeleteTask (Some "folder") (Some hex1));
                                 (8%N, PatchFolderReset hex1)] aliceDb) !! j = Some f).
Proof.
  apply (session_keeps_foreign_records bob
           [(7%N, DeleteTask (Some "folder") (Some hex1)); (8%N, PatchFolderReset hex1)]
           aliceDb).
  repeat constructor.
Defined.

(** X21: in every store the routes can build from the empty one, with a
    fresh identifier generated for each new document, no identifier names
    both a task and a folder. *)
Theorem reachable_ids_unique (db : Db) (i : ObjectId) :
  reachable db -> is_Some (taskColl db !! i) -> folderColl db !! i = None.
Proof.
  intros Hr Ht. apply reachable_uniqueIds in Hr.
  destruct (folderColl db !! i) as [f|] eqn:Hf; [|done].
  exfalso. apply (Hr i); [done|]. by rewrite Hf.
Qed.

Lemma reachable_ids_unique_witness : folderColl aliceDb !! 5%N = None.
Proof.
  apply reachable_ids_unique.
  - exact aliceDb_reachable.
  - by eexists.
Defined.

(** ** A task handed over *)

(** X22: [updateTaskInFolder] writes the [user] of the body. For a task
    of the caller filed under the folder of the request, a body with the
    identifier of another user as [user] is answered with 200; the task
    then belongs to that user, the folders are as they were, so the folder
    of the caller still lists the task, and [getTaskById] answers the
    caller with 404 and the new owner with the task. *)
Theorem updateTaskInFolder_hands_over (userId other : ObjectId)
    (folderId taskId otherId id : string) (i j : ObjectId) (d : task.doc) (db : Db) :
  castObjectId (folderController.sanitize folderId) = Some i ->
  castObjectId (folderController.sanitize taskId) = Some j ->
  castObjectId otherId = Some other ->
  castObjectId id = Some j ->
  taskColl db !! j = Some d -> task.user d = userId -> task.folder d = Some i ->
  other <> userId ->
  uniqueIds db ->
  let r := folderController.updateTaskInFolder userId folderId taskId
             (mkTaskUpdate None None None None (Some otherId)) db in
  fst r = mkResponse 200 (JTask (j, task.setUser other d))
  /\ taskColl (snd r) !! j = Some (task.setUser other d)
  /\ (forall k, k <> j -> taskColl (snd r) !! k = taskColl db !! k)
  /\ folderColl (snd r) = folderColl db
  /\ NotFoundError (fst (taskController.getTaskById userId id (snd r)))
  /\ fst (taskController.getTaskById other id (snd r))
     = mkResponse 200 (JTask (j, task.setUser other d)).
Proof.
  intros Hi Hj Ho Hid Hd Hu Hf Hne Huniq r. subst r.
  rewrite (updateTaskInFolder_user_run _ _ _ _ _ _ _ _ Hi Hj Ho). cbv zeta.
  rewrite Hd, (proj2 (task_matchUser_true _ _) Hu), (proj2 (task_matchFolder_true _ _) Hf).
  simpl. split_and!; try done.
  - by rewrite lookup_insert_eq.
  - intros k Hk. by rewrite lookup_insert_ne.
  - rewrite (getTaskById_response _ _ _ _ Hid). unfold ownedTask, ownedFolder. simpl.
    rewrite lookup_insert_eq. simpl.
    rewrite (proj2 (task_matchUser_false userId (task.setUser other d))); [|by destruct d].
    destruct (folderColl db !! j) as [f|] eqn:Hfj; [|done].
    exfalso. apply (Huniq j); by eexists.
  - rewrite (getTaskById_response _ _ _ _ Hid). unfold ownedTask. simpl.
    rewrite lookup_insert_eq. simpl.
    by rewrite (proj2 (task_matchUser_true other (task.setUser other d))); [|by destruct d].
Qed.

Lemma updateTaskInFolder_hands_over_witness :
  NotFoundError (fst (taskController.getTaskById alice hex5 handedOverDb)).
Proof.
  destruct (updateTaskInFolder_hands_over alice bob hex1 hex5 hexBob hex5 1%N 5%N
              (task.mk "report" None "Pending" (Some 1%N) alice) aliceDb
              eq_refl eq_refl eq_refl eq_refl eq_refl eq_refl eq_refl)
    as (_ & _ & _ & _ & H & _).
  - discriminate.
  - exact aliceDb_uniqueIds.
  - exact H.
Defined.

(** ** White space around an identifier *)

Lemma trimStart_allSpace ws s : allSpace ws = true -> trimStart (ws ++ s) = trimStart s.
Proof.
  induction ws as [|c ws IH]; simpl; [done|].
  intros [Hc Hws]%andb_true_iff. rewrite Hc. by apply IH.
Qed.

Lemma trimEnd_allSpace ws : allSpace ws = true -> trimEnd ws = "".
Proof.
  induction ws as [|c ws IH]; simpl; [done|].
  intros [Hc Hws]%andb_true_iff. by rewrite (IH Hws), Hc.
Qed.

Lemma trimEnd_app_allSpace s ws : allSpace ws = true -> trimEnd (s ++ ws) = trimEnd s.
Proof.
  intros Hws. induction s as [|c s IH]; simpl.
  - by apply trimEnd_allSpace.
  - by rewrite IH.
Qed.

Lemma sanitize_padded ws1 core ws2 i :
  allSpace ws1 = true -> allSpace ws2 = true -> castObjectId core = Some i ->
  folderController.sanitize (ws1 ++ core ++ ws2) = core.
Proof.
  intros H1 H2 Hc. unfold folderController.sanitize, trim.
  rewrite (trimStart_allSpace _ _ H1).
  unfold castObjectId in Hc.
  destruct (String.length core =? 24)%nat eqn:Hlen; [|discriminate].
  destruct (parseHex_trim _ _ _ Hc) as [Hs He].
  assert (Hh : headOk (core ++ ws2)).
  { destruct core as [|c core]; simpl in *.
    - discriminate.
    - destruct (isSpace c) eqn:Hsp; [|done].
      exfalso. destruct (hexDigit c) as [dg|] eqn:Hd; [|discriminate].
      apply hexDigit_not_space in Hd. congruence. }
  rewrite (trimStart_id _ Hh), (trimEnd_app_allSpace _ _ H2). exact He.
Qed.

(** X23: the folder routes trim their path parameters, the task routes do
    not. An identifier with white space before or after it is sanitized to
    the identifier, is a valid id for the folder controller and gives the
    same answer and the same store as the identifier itself; the task
    controller's [getTasksByFolder] answers the padded identifier with
    500. *)
Theorem padded_identifier (userId : ObjectId) (ws1 core ws2 : string) (i : ObjectId)
    (db : Db) :
  allSpace ws1 = true -> allSpace ws2 = true -> castObjectId core = Some i ->
  let padded := ws1 ++ core ++ ws2 in
  folderController.sanitize padded = core
  /\ folderController.isValidId padded = true
  /\ folderController.getTasksInFolder userId padded db
     = folderController.getTasksInFolder userId core db
  /\ folderController.getFolderById userId padded db
     = folderController.getFolderById userId core db
  /\ folderController.clearProgress userId padded db
     = folderController.clearProgress userId core db
  /\ (padded <> core ->
      InternalError (fst (taskController.getTasksByFolder userId padded db))).
Proof.
  intros H1 H2 Hc padded.
  pose proof (sanitize_padded _ _ _ _ H1 H2 Hc) as Hs. fold padded in Hs.
  pose proof (castObjectId_sanitize _ _ Hc) as Hs'.
  assert (Hp : castObjectId (folderController.sanitize padded) = Some i) by (by rewrite Hs).
  assert (Hq : castObjectId (folderController.sanitize core) = Some i) by (by rewrite Hs').
  split_and!.
  - exact Hs.
  - unfold folderController.isValidId. by rewrite Hs, (castObjectId_valid _ _ Hc).
  - by rewrite (getTasksInFolder_run _ _ _ _ Hp), (getTasksInFolder_run _ _ _ _ Hq).
  - by rewrite (getFolderById_run _ _ _ _ Hp), (getFolderById_run _ _ _ _ Hq).
  - by rewrite !clearProgress_run, Hp, Hq.
  - intros Hne.
    assert (Hn : castObjectId padded = None).
    { destruct (castObjectId padded) as [k|] eqn:Hk; [|done].
      apply castObjectId_sanitize in Hk. congruence. }
    unfold InternalError, taskController.getTasksByFolder, Task.find. unfold_handler.
    by rewrite Hn.
Qed.

Lemma padded_identifier_witness :
  folderController.getTasksInFolder alice (" " ++ hex1 ++ " ") aliceDb
  = folderController.getTasksInFolder alice hex1 aliceDb.
Proof.
  destruct (padded_identifier alice " " hex1 " " 1%N aliceDb eq_refl eq_refl eq_refl)
    as (_ & _ & H & _).
  exact H.
Defined.

(** ** The names of the folders *)

Lemma truthy_name n : negb (truthy n) = false -> default "" n <> "".
Proof.
  destruct n as [s|]; [|discriminate]. unfold truthy. simpl.
  destruct (String.eqb_spec s ""); [discriminate | done].
Qed.

Lemma named_insert db ts i n u l cs :
  namedFolders db -> n <> "" ->
  namedFolders (mkDb ts (<[i := folder.mk n u l]> (folderColl db)) cs).
Proof.
  intros H Hn j f. simpl. destruct (decide (j = i)) as [->|Hj].
  - rewrite lookup_insert_eq. intros [= <-]. done.
  - rewrite lookup_insert_ne by done. apply H.
Qed.

Lemma named_update db ts i d' cs :
  namedFolders db -> folder.name d' <> "" ->
  namedFolders (mkDb ts (<[i := d']> (folderColl db)) cs).
Proof.
  intros H Hn j f. simpl. destruct (decide (j = i)) as [->|Hj].
  - rewrite lookup_insert_eq. intros [= <-]. done.
  - rewrite lookup_insert_ne by done. apply H.
Qed.

Lemma named_alter db ts i g cs :
  namedFolders db -> (forall d, folder.name (g d) = folder.name d) ->
  namedFolders (mkDb ts (alter g i (folderColl db)) cs).
Proof.
  intros H Hg j f. simpl. destruct (decide (j = i)) as [->|Hj].
  - rewrite lookup_alter_eq. destruct (folderColl db !! i) as [d|] eqn:Hd; [|discriminate].
    intros [= <-]. rewrite Hg. by apply (H i).
  - rewrite lookup_alter_ne by done. apply H.
Qed.

Lemma named_delete db ts i cs :
  namedFolders db -> namedFolders (mkDb ts (delete i (folderColl db)) cs).
Proof.
  intros H j f. simpl. intros Hj. apply lookup_delete_Some in Hj as [_ Hj]. by apply (H j).
Qed.

Lemma named_same db ts cs : namedFolders db -> namedFolders (mkDb ts (folderColl db) cs).
Proof. intros H j f. apply H. Qed.

Lemma named_rename db ts i title d cs :
  namedFolders db -> folderColl db !! i = Some d ->
  match title with Some n => negb (truthy (Some n)) | None => false end = false ->
  namedFolders (mkDb ts (<[i := optSet folder.setName title d]> (folderColl db)) cs).
Proof.
  intros H Hd Ht. apply named_update; [exact H|].
  destruct title as [n|]; simpl.
  - by apply (truthy_name (Some n)).
  - by apply (H i).
Qed.

Ltac named_leaf H :=
  cbn;
  first
    [ exact H
    | apply named_same; exact H
    | apply named_delete; exact H
    | apply named_alter; [exact H | reflexivity]
    | apply named_insert; [exact H | apply truthy_name; assumption]
    | eapply named_rename; [exact H | eassumption | assumption]
    | eapply named_update; [exact H | cbn; first [ eapply H; eassumption | apply truthy_name; assumption | apply (truthy_name (Some _)); assumption ] ] ].

Ltac named_cases H := handler_cases; named_leaf H.

Lemma route_namedFolders gen u r db :
  namedFolders db -> namedFolders (snd (route gen u r db)).
Proof.
  intros H. destruct r; cbn [route].
  - unfold taskController.createTaskOrFolder. named_cases H.
  - unfold taskController.getAllTasksAndFolders. named_cases H.
  - unfold taskController.getTasksByFolder. named_cases H.
  - unfold taskController.getAllTasksWithoutFolder. named_cases H.
  - unfold taskController.getTaskById. named_cases H.
  - unfold taskController.updateTaskStatus. named_cases H.
  - unfold taskController.deleteTaskOrFolder. named_cases H.
  - unfold folderController.createFolder. named_cases H.
  - unfold folderController.getFolderById. named_cases H.
  - unfold folderController.getTasksInFolder. named_cases H.
  - unfold folderController.addTaskToFolder. named_cases H.
  - unfold folderController.updateTaskInFolder. named_cases H.
  - unfold folderController.updateTaskStatus. named_cases H.
  - unfold folderController.deleteTaskInFolder. named_cases H.
  - unfold folderController.resetProgress. named_cases H.
  - unfold folderController.clearProgress. named_cases H.
Qed.

(** X24: every folder has a name. In every store the routes can build
    from the empty one, the name of every folder is a non-empty string:
    neither creation nor renaming stores an empty name, and no other
    request writes the name. *)
Theorem reachable_folders_named (db : Db) (i : ObjectId) (f : folder.doc) :
  reachable db -> folderColl db !! i = Some f -> folder.name f <> "".
Proof.
  intros Hr. revert i f. change (namedFolders db).
  induction Hr as [|gen u r db Hr IH Hf].
  - intros i f Hi. simpl in Hi. rewrite lookup_empty in Hi. discriminate.
  - by apply route_namedFolders.
Qed.

Lemma reachable_folders_named_witness :
  folder.name (folder.mk "Work" alice [5%N]) <> "".
Proof.
  apply (reachable_folders_named aliceDb 1%N).
  - exact aliceDb_reachable.
  - reflexivity.
Defined.
